(** * Github_API_usage.py: pagination and rate-limit handling of the GitHub client

    A shallow embedding of [src/Content/Github_API_usage.py] (class
    [GitHubAPI]) and the properties of its three operations
    [search_repositories], [list_commits] and [get_content], together with
    the rate-limit handler [_handle_rate_limit] they share.  The command
    line glue ([main], [exit_with_error]) is not part of it.

    The program talks to the outside world through [requests.get],
    [time.time], [time.sleep] and [print].  These are modelled by a world
    state holding a test clock, the queue of responses the transport will
    serve, and the chronological trace of what the program did.  The
    methods are written in a state-and-exception monad over that world, one
    line of Rocq for one line of Python. *)

From Stdlib Require Import ZArith QArith Qcanon Qround List String Ascii Lia.
From stdpp Require Import base option list gmap strings numbers.

Local Open Scope string_scope.
Local Open Scope list_scope.
Local Open Scope Z_scope.

(** ** Python builtins used by the program *)

Module Py.

(** Exceptions the program can let escape: none is caught in the source. *)
Inductive exn : Type :=
| TransportError      (* requests.get fails: the transport has nothing to serve *)
| ValueError          (* int() of a non-numeric string, time.sleep of a negative length *)
| ZeroDivisionError   (* x / 0 *)
| OverflowError.      (* x / y beyond the floats, time.sleep beyond 64-bit nanoseconds *)

(** Characters as code points 0..255 (header values arrive decoded as latin-1). *)
Definition code (c : ascii) : nat := nat_of_ascii c.

(** What [int()] strips from both ends of a string: the ASCII white space
    9..13 and 32, and the two latin-1 spaces 133 and 160.  The separators
    28..31, which [str.strip] would remove, are not among them. *)
Definition int_space (c : ascii) : bool :=
  let n := code c in
  ((9 <=? n)%nat && (n <=? 13)%nat) || (n =? 32)%nat
  || (n =? 133)%nat || (n =? 160)%nat.

Fixpoint lstrip (s : list ascii) : list ascii :=
  match s with
  | c :: s' => if int_space c then lstrip s' else s
  | [] => []
  end.

Definition strip (s : list ascii) : list ascii :=
  rev (lstrip (rev (lstrip s))).

Definition digit (c : ascii) : option Z :=
  let n := code c in
  if (48 <=? n)%nat && (n <=? 57)%nat then Some (Z.of_nat (n - 48)) else None.

(** Decimal digits, with single underscores allowed between two digits.
    [after_digit] tells whether the previous character was a digit. *)
Fixpoint digits (acc : Z) (after_digit : bool) (s : list ascii) : option Z :=
  match s with
  | [] => if after_digit then Some acc else None
  | c :: s' =>
      if Ascii.eqb c "_"%char then
        if after_digit then digits acc false s' else None
      else
        match digit c with
        | Some d => digits (10 * acc + d) true s'
        | None => None
        end
  end.

(** CPython converts at most this many digits ([sys.int_info]'s
    [default_max_str_digits]); sign, underscores and surrounding space do
    not count. *)
Definition max_str_digits : nat := 4300.

Definition count_digits (s : list ascii) : nat :=
  length (List.filter (fun c => bool_decide (is_Some (digit c))) s).

(** [int(s)] for a string [s]: [None] stands for the [ValueError] Python
    raises. *)
Definition int_of_str (s : string) : option Z :=
  let body := strip (list_ascii_of_string s) in
  if (max_str_digits <? count_digits body)%nat then None
  else
    match body with
    | c :: r =>
        if Ascii.eqb c "+"%char then digits 0 false r
        else if Ascii.eqb c "-"%char then Z.opp <$> digits 0 false r
        else digits 0 false (c :: r)
    | [] => None
    end.

(** [int(x)] for a float [x]: truncation towards zero.  Times are exact
    rationals, which contain every finite float. *)
Definition int_of_float (x : Qc) : Z :=
  Z.quot (Qnum (this x)) (Zpos (Qden (this x))).

(** [str.lower] on one character (ASCII and latin-1 capitals). *)
Definition lower_char (c : ascii) : ascii :=
  let n := code c in
  if ((65 <=? n)%nat && (n <=? 90)%nat)
     || ((192 <=? n)%nat && (n <=? 222)%nat && negb (n =? 215)%nat)
  then ascii_of_nat (n + 32) else c.

Fixpoint lower (s : string) : string :=
  match s with
  | EmptyString => EmptyString
  | String c s' => String (lower_char c) (lower s')
  end.

(** *** [math.ceil(a / b)]

    [a / b] on two ints is the binary64 nearest to the exact quotient, ties
    going to the even mantissa; it is an [OverflowError] when that float
    would not be finite, and 0.0 when the quotient is too small.  The
    float is kept as a mantissa of at most 53 bits and an exponent. *)

(** The binary exponent of a/b for a, b > 0: the [e] with
    2^(e-1) <= a/b < 2^e. *)
Definition mag (a b : Z) : Z :=
  if b <=? a then Z.log2 (a / b) + 1 else - Z.log2 ((b - 1) / a).

(** n/d rounded to the nearest integer, ties to even (n >= 0, d > 0). *)
Definition round_half_even (n d : Z) : Z :=
  let q := n / d in
  let r := n mod d in
  if 2 * r <? d then q
  else if d <? 2 * r then q + 1
  else if Z.even q then q else q + 1.

(** The binary64 nearest to a/b for a, b > 0, as [(m, e)] for m * 2^e:
    53 bits of mantissa, exponents from -1074 on (subnormal below 2^-1022). *)
Definition binary64 (a b : Z) : Z * Z :=
  let e := Z.max (mag a b - 53) (-1074) in
  (round_half_even (a * 2 ^ Z.max 0 (- e)) (b * 2 ^ Z.max 0 e), e).

(** [math.ceil(a / b)] for two ints. *)
Definition ceil_div (a b : Z) : exn + Z :=
  if b =? 0 then inl ZeroDivisionError
  else if a =? 0 then inr 0
  else
    let (m, e) := binary64 (Z.abs a) (Z.abs b) in
    if 0 <=? e then
      if 2 ^ 1024 <=? m * 2 ^ e then inl OverflowError
      else inr (Z.sgn a * Z.sgn b * (m * 2 ^ e))
    else
      if 0 <? Z.sgn a * Z.sgn b then inr (- ((- m) / 2 ^ (- e)))
      else inr (- (m / 2 ^ (- e))).

(** *** [time.sleep]

    [time.sleep] turns its argument into nanoseconds held in a signed
    64-bit integer: an [OverflowError] when they do not fit, then a
    [ValueError] when they are negative. *)
Definition sleep_check (seconds : Qc) : option exn :=
  if decide (Qc_of_Z (2 ^ 63) <= seconds * Qc_of_Z (10 ^ 9))%Qc then Some OverflowError
  else if decide (seconds * Qc_of_Z (10 ^ 9) < Qc_of_Z (- 2 ^ 63))%Qc then Some OverflowError
  else if decide (seconds < 0)%Qc then Some ValueError
  else None.

(** A length every platform's [sleep] takes: 49 days, the 32-bit count of
    milliseconds.  (Lengths close to the 64-bit limit above can still be
    refused by the operating system.) *)
Definition sleep_safe : Z := 4294967.

(** [range(a, b)] as the list it iterates over. *)
Definition range (a b : Z) : list Z :=
  map (fun i => a + Z.of_nat i) (seq 0 (Z.to_nat (b - a))).

(** [l[:n]]: the first [n] elements, or all but the last [-n] when [n] is
    negative. *)
Definition slice_to {A} (l : list A) (n : Z) : list A :=
  if 0 <=? n then take (Z.to_nat n) l
  else take (length l - Z.to_nat (- n)) l.

Definition len {A} (l : list A) : Z := Z.of_nat (length l).

End Py.

(** ** The outside world: transport, clock, console *)

(** [requests.Response]: the status, the headers, the body as text and the
    body decoded by [response.json()].  [headers] is requests'
    case-insensitive dictionary, which stores every entry under its
    lower-cased name; [B] is the shape the endpoint's JSON is annotated with
    in the source. *)
Module Response.
Record t (B : Type) : Type := make {
  status_code : Z;
  headers : gmap string string;
  text : string;
  json : B
}.
Arguments make {B}.
Arguments status_code {B}.
Arguments headers {B}.
Arguments text {B}.
Arguments json {B}.

(** [name in response.headers] *)
Definition has_header {B} (r : t B) (name : string) : bool :=
  bool_decide (is_Some (headers r !! Py.lower name)).

(** [response.headers.get(name)], [None] when absent *)
Definition get_header {B} (r : t B) (name : string) : option string :=
  headers r !! Py.lower name.
End Response.

(** A value of the query-parameter dictionary. *)
Inductive param : Type :=
| PStr (s : string)
| PInt (n : Z).

(** One call of [requests.get(url, headers=..., params=...)]. *)
Record Request : Type := {
  url : string;
  req_headers : gmap string string;
  params : option (gmap string param)
}.

(** What [print] is called with. *)
Inductive Msg : Type :=
| MsgWaiting (wait_time : Z)             (* "Rate limit exceeded. Waiting for {wait_time} seconds..." *)
| MsgRetrying                             (* "Rate limit exceeded. Retrying after a delay..." *)
| MsgError (status : Z) (body : string).  (* "Error: {status_code}, {text}" *)

Inductive Event : Type :=
| EvGet (rq : Request)
| EvSleep (seconds : Qc)
| EvPrint (m : Msg).

(** The world.  [clock] is a clock under the control of the test: it stands
    still but for [time.sleep], which moves it by the length slept, so that
    two readings with no sleep between them agree.  (The properties stated
    below for a wait take the reset epoch from the response's header: each
    of them rests on one reading of the clock only.)  The transport serves
    the responses of [script] in order, and [trace] grows at its end. *)
Record World (B : Type) : Type := {
  clock : Qc;
  script : list (Response.t B);
  trace : list Event
}.
Arguments clock {B}.
Arguments script {B}.
Arguments trace {B}.
Arguments Build_World {B}.

(** How a computation ends: with a value, with an exception, or, for the
    one loop of the source that is not bounded by a range, by exceeding the
    number of iterations it was given ([list_commits_loop_fuel] shows that
    this never happens to [list_commits]). *)
Inductive Outcome (A : Type) : Type :=
| Ok (a : A)
| Raise (e : Py.exn)
| OutOfFuel.
Arguments Ok {A}.
Arguments Raise {A}.
Arguments OutOfFuel {A}.

(** Computations over the world that return or raise. *)
Definition M (B A : Type) : Type := World B -> Outcome A * World B.

Definition ret {B A} (a : A) : M B A := fun w => (Ok a, w).

Definition raise {B A} (e : Py.exn) : M B A := fun w => (Raise e, w).

Definition bind {B A C} (m : M B A) (k : A -> M B C) : M B C :=
  fun w =>
    match m w with
    | (Ok a, w') => k a w'
    | (Raise e, w') => (Raise e, w')
    | (OutOfFuel, w') => (OutOfFuel, w')
    end.

Declare Scope py_scope.
Delimit Scope py_scope with py.
Notation "x <- m ;; k" := (bind m (fun x => k))
  (at level 100, m at next level, right associativity) : py_scope.
Notation "m ;;; k" := (bind m (fun _ => k))
  (at level 100, right associativity) : py_scope.
Local Open Scope py_scope.

Definition log {B} (e : Event) (w : World B) : World B :=
  Build_World (clock w) (script w) (trace w ++ [e]).

(** [requests.get]: the next scripted response; a transport with nothing
    left to serve fails. *)
Definition requests_get {B} (u : string) (h : gmap string string)
    (p : option (gmap string param)) : M B (Response.t B) :=
  fun w =>
    let w := log (EvGet {| url := u; req_headers := h; params := p |}) w in
    match script w with
    | [] => (Raise Py.TransportError, w)
    | r :: rest => (Ok r, Build_World (clock w) rest (trace w))
    end.

(** [time.time()]: a reading of the test clock. *)
Definition time_time {B} : M B Qc := fun w => (Ok (clock w), w).

(** [time.sleep(seconds)]: a length it refuses is an exception, any other
    is slept through. *)
Definition time_sleep {B} (seconds : Qc) : M B unit :=
  fun w =>
    match Py.sleep_check seconds with
    | Some e => (Raise e, w)
    | None =>
        (Ok tt, Build_World (clock w + seconds)%Qc (script w) (trace w ++ [EvSleep seconds]))
    end.

Definition print {B} (m : Msg) : M B unit :=
  fun w => (Ok tt, log (EvPrint m) w).

(** [int(s)] and [math.ceil(a / b)] as computations that may raise. *)
Definition int_str {B} (s : string) : M B Z :=
  match Py.int_of_str s with
  | Some n => ret n
  | None => raise Py.ValueError
  end.

Definition math_ceil_div {B} (a b : Z) : M B Z :=
  match Py.ceil_div a b with
  | inr n => ret n
  | inl e => raise e
  end.

(** ** class GitHubAPI *)

(** The decoded body of a search response: a JSON object read only through
    [data.get("total_count", 0)] and [data.get("items", [])]. *)
Record SearchData (Item : Type) : Type := {
  total_count : option Z;
  items : option (list Item)
}.
Arguments total_count {Item}.
Arguments items {Item}.
Arguments Build_SearchData {Item}.

Module GitHubAPI.

Record t : Type := make {
  base_url : string;
  headers : gmap string string
}.

(** [__init__] *)
Definition init (token : string) : t :=
  {| base_url := "https://api.github.com";
     headers := <["Authorization" := "Bearer " +:+ token]>
                  (<["Accept" := "application/vnd.github+json"]> ∅) |}.

(** [_handle_rate_limit] *)
Definition _handle_rate_limit {B} (self : t) (response : Response.t B)
    : M B (Response.t B) :=
  (if (Response.status_code response =? 403)
      && Response.has_header response "X-RateLimit-Remaining"
   then
     remaining_requests <-
       match Response.get_header response "X-RateLimit-Remaining" with
       | Some s => int_str s
       | None => ret 0
       end ;;
     now <- time_time ;;
     reset_time <-
       match Response.get_header response "X-RateLimit-Reset" with
       | Some s => int_str s
       | None => ret (Py.int_of_float now)
       end ;;
     now' <- time_time ;;
     let wait_time := reset_time - Py.int_of_float now' in
     if remaining_requests =? 0 then
       print (MsgWaiting wait_time) ;;;
       time_sleep (Qc_of_Z (wait_time + 1))
     else ret tt
   else ret tt) ;;;
  ret response.

Section search_repositories.
Context {Item : Type}.
Variables (self : t) (query sort order : string).
Variables (per_page max_repos : Z) (delay : Qc).

Definition search_url : string := base_url self +:+ "/search/repositories".

Definition search_params (page : Z) : gmap string param :=
  <["q" := PStr query]> (<["sort" := PStr sort]> (<["order" := PStr order]>
    (<["per_page" := PInt per_page]> (<["page" := PInt page]> ∅)))).

(** The [for page in range(2, total_pages + 1)] loop, over the pages
    still to visit; [break] returns, [continue] goes on with the next
    page of the range. *)
Fixpoint search_pages (pages : list Z) (params : gmap string param)
    (all_results : list Item) : M (SearchData Item) (list Item) :=
  match pages with
  | [] => ret all_results
  | page :: pages' =>
      if Py.len all_results >=? max_repos then ret all_results
      else
        let params := <["page" := PInt page]> params in
        response <- requests_get search_url (headers self) (Some params) ;;
        if negb (Response.status_code response =? 200) then
          if Response.status_code response =? 403 then
            print MsgRetrying ;;;
            _handle_rate_limit self response ;;;
            search_pages pages' params all_results
          else
            print (MsgError (Response.status_code response) (Response.text response)) ;;;
            ret all_results
        else
          let data := Response.json response in
          let items := default [] (items data) in
          let all_results := all_results ++ items in
          time_sleep delay ;;;
          search_pages pages' params all_results
  end.

Definition search_repositories : M (SearchData Item) (list Item) :=
  let all_results : list Item := [] in
  let page := 1 in
  let params := search_params page in
  response <- requests_get search_url (headers self) (Some params) ;;
  if negb (Response.status_code response =? 200) then
    (if Response.status_code response =? 403 then
       print MsgRetrying ;;;
       _handle_rate_limit self response ;;;
       ret tt
     else
       print (MsgError (Response.status_code response) (Response.text response))) ;;;
    ret []
  else
    let data := Response.json response in
    let total_count := default 0 (total_count data) in
    total_pages <- math_ceil_div (Z.min total_count max_repos) per_page ;;
    let all_results := all_results ++ default [] (items data) in
    all_results <- search_pages (Py.range 2 (total_pages + 1)) params all_results ;;
    ret (Py.slice_to all_results max_repos).
End search_repositories.

Section list_commits.
Context {Item : Type}.
Variables (self : t) (repo_owner repo_name : string) (per_page : Z).

Definition commits_url : string :=
  base_url self +:+ "/repos/" +:+ repo_owner +:+ "/" +:+ repo_name +:+ "/commits".

Definition commits_params (page : Z) : gmap string param :=
  <["per_page" := PInt per_page]> (<["page" := PInt page]> ∅).

(** The [while True] loop.  Every iteration takes one response from the
    transport, so [fuel] bounds the iterations. *)
Fixpoint list_commits_loop (fuel : nat) (page : Z) (all_results : list Item)
    : M (list Item) (list Item) :=
  match fuel with
  | O => fun w => (OutOfFuel, w)
  | S fuel' =>
      response <- requests_get commits_url (headers self) (Some (commits_params page)) ;;
      response <- _handle_rate_limit self response ;;
      if Response.status_code response =? 200 then
        let data := Response.json response in
        let all_results := all_results ++ data in
        if Py.len data <? per_page then ret all_results
        else list_commits_loop fuel' (page + 1) all_results
      else
        print (MsgError (Response.status_code response) (Response.text response)) ;;;
        ret all_results
  end.

(** One iteration more than there are scripted responses is enough:
    see [list_commits_loop_fuel]. *)
Definition list_commits : M (list Item) (list Item) :=
  fun w => list_commits_loop (S (length (script w))) 1 [] w.
End list_commits.

Section get_content.
Context {Item : Type}.
Variables (self : t) (repo_owner repo_name path : string).

Definition contents_url : string :=
  base_url self +:+ "/repos/" +:+ repo_owner +:+ "/" +:+ repo_name
    +:+ "/contents/" +:+ path.

Definition get_content : M Item (option Item) :=
  response <- requests_get contents_url (headers self) None ;;
  response <- _handle_rate_limit self response ;;
  if Response.status_code response =? 200 then
    ret (Some (Response.json response))
  else
    print (MsgError (Response.status_code response) (Response.text response)) ;;;
    ret None.
End get_content.

End GitHubAPI.

(** ** Vocabulary of the specification *)

(** What the trace says: the requests issued, the page a request asks for,
    the waits performed. *)
Definition requests_of (tr : list Event) : list Request :=
  omap (fun e => match e with EvGet rq => Some rq | _ => None end) tr.

Definition page_of (rq : Request) : option param :=
  params rq ≫= fun p => p !! "page".

Definition sleeps_of (tr : list Event) : list Qc :=
  omap (fun e => match e with EvSleep d => Some d | _ => None end) tr.

(** The rate limiter's policy: status 403, remaining-quota header present,
    and its value is 0. *)
Definition throttled {B} (r : Response.t B) : bool :=
  (Response.status_code r =? 403)
  && match Response.get_header r "X-RateLimit-Remaining" with
     | Some s => bool_decide (Py.int_of_str s = Some 0)
     | None => false
     end.

(** The reset epoch the handler works with: the header's value, or the
    current time when the header is absent; [None] when it is not a number. *)
Definition reset_epoch {B} (r : Response.t B) (w : World B) : option Z :=
  match Response.get_header r "X-RateLimit-Reset" with
  | Some s => Py.int_of_str s
  | None => Some (Py.int_of_float (clock w))
  end.

(** The reset epoch announced by the response's reset header. *)
Definition announced_reset {B} (r : Response.t B) : option Z :=
  Response.get_header r "X-RateLimit-Reset" ≫= Py.int_of_str.

(** [int(time.time())] *)
Definition now {B} (w : World B) : Z := Py.int_of_float (clock w).

(** A successful page and what it contributes. *)
Definition ok {B} (r : Response.t B) : bool := Response.status_code r =? 200.

Definition page_items {Item} (r : Response.t (SearchData Item)) : list Item :=
  default [] (items (Response.json r)).

Definition page_total {Item} (r : Response.t (SearchData Item)) : Z :=
  default 0 (total_count (Response.json r)).

(** The requests the paged operations issue for a given page. *)
Definition search_request (self : GitHubAPI.t) (query sort order : string)
    (per_page page : Z) : Request :=
  {| url := GitHubAPI.search_url self;
     req_headers := GitHubAPI.headers self;
     params := Some (GitHubAPI.search_params query sort order per_page page) |}.

Definition commits_request (self : GitHubAPI.t) (repo_owner repo_name : string)
    (per_page page : Z) : Request :=
  {| url := GitHubAPI.commits_url self repo_owner repo_name;
     req_headers := GitHubAPI.headers self;
     params := Some (GitHubAPI.commits_params per_page page) |}.

Definition contents_request (self : GitHubAPI.t) (repo_owner repo_name path : string)
    : Request :=
  {| url := GitHubAPI.contents_url self repo_owner repo_name path;
     req_headers := GitHubAPI.headers self;
     params := None |}.

(** The trace of fetching the search pages [pages] successfully, one after
    the other: the request, then the inter-page delay. *)
Definition fetch_trace (self : GitHubAPI.t) (query sort order : string)
    (per_page : Z) (delay : Qc) (pages : list Z) : list Event :=
  pages ≫= fun page =>
    [EvGet (search_request self query sort order per_page page); EvSleep delay].

(** The outcomes of the page loop of [search_repositories]: a value, or an
    exception of the transport, of [int()] or of [time.sleep], never the
    division error. *)
Definition loop_outcome {A} (o : Outcome A) : Prop :=
  match o with
  | Ok _ => True
  | Raise e => e <> Py.ZeroDivisionError
  | OutOfFuel => False
  end.

(** A commits page that does not end the listing: successful and not
    shorter than the page size. *)
Definition full_page {Item} (per_page : Z) (r : Response.t (list Item)) : bool :=
  ok r && (per_page <=? Py.len (Response.json r)).

(** ** Sample responses and worlds *)

Module Sample.
Definition api : GitHubAPI.t := GitHubAPI.init "ghp_token".

(** A successful search page. *)
Definition search_page (total : Z) (names : list string)
    : Response.t (SearchData string) :=
  Response.make 200 ∅ "{...}" {| total_count := Some total; items := Some names |}.

(** A successful commits page. *)
Definition commits_page (shas : list string) : Response.t (list string) :=
  Response.make 200 ∅ "[...]" shas.

(** A failure that is not a 403. *)
Definition failure {B} (status : Z) (body : B) : Response.t B :=
  Response.make status ∅ "Not Found" body.

(** A 403 telling that the quota is used up until [reset]. *)
Definition rate_limited {B} (reset : string) (body : B) : Response.t B :=
  Response.make 403
    (<["x-ratelimit-remaining" := "0"]> (<["x-ratelimit-reset" := reset]> ∅))
    "API rate limit exceeded" body.

Definition no_data : SearchData string := {| total_count := None; items := None |}.

(** The world at epoch second 1000, about to serve [responses]. *)
Definition start {B} (responses : list (Response.t B)) : World B :=
  Build_World (Qc_of_Z 1000) responses [].
End Sample.

(** ** Vocabulary of the further properties *)

(** The requests a computation has added to the trace. *)
Definition new_requests {B} (before after : World B) : list Request :=
  drop (length (requests_of (trace before))) (requests_of (trace after)).

(** The two headers every request of a client built from [token] is to
    carry. *)
Definition carries_token (token : string) (rq : Request) : Prop :=
  req_headers rq !! "Authorization" = Some ("Bearer " +:+ token)
  /\ req_headers rq !! "Accept" = Some "application/vnd.github+json".

(** * Properties *)

(** ** Python builtins on examples *)

Example int_of_str_ex1 : Py.int_of_str "0" = Some 0.
Proof. reflexivity. Qed.

Example int_of_str_ex2 : Py.int_of_str " -1_000 " = Some (-1000).
Proof. reflexivity. Qed.

Example int_of_str_ex3 :
  Py.int_of_str "1__0" = None /\ Py.int_of_str EmptyString = None
  /\ Py.int_of_str "+ 1" = None /\ Py.int_of_str "12a" = None.
Proof. repeat split; vm_compute; reflexivity. Qed.

(** White space around the digits: the latin-1 space 160 is stripped, the
    separator 31 is not. *)
Example int_of_str_ex4 :
  Py.int_of_str (String "160"%char "7") = Some 7
  /\ Py.int_of_str ("0" +:+ String "031"%char EmptyString) = None.
Proof. split; reflexivity. Qed.

Example ceil_div_ex :
  Py.ceil_div 30 10 = inr 3 /\ Py.ceil_div 31 10 = inr 4
  /\ Py.ceil_div 10 (-3) = inr (-3) /\ Py.ceil_div 0 (-3) = inr 0
  /\ Py.ceil_div 5 0 = inl Py.ZeroDivisionError.
Proof. repeat split; vm_compute; reflexivity. Qed.

(** The quotient is rounded to a float before the ceiling is taken:
    (2^60 + 1) / 2^60 is 1.0, 10^400 is beyond the floats, and 1 / 10^400
    is 0.0. *)
Example ceil_div_ex_float :
  Py.ceil_div (2 ^ 60 + 1) (2 ^ 60) = inr 1
  /\ Py.ceil_div (10 ^ 400) 1 = inl Py.OverflowError
  /\ Py.ceil_div 1 (10 ^ 400) = inr 0
  /\ Py.ceil_div (2 ^ 53 + 1) 1 = inr (2 ^ 53).
Proof. repeat split; vm_compute; reflexivity. Qed.

Example sleep_check_ex :
  Py.sleep_check (Qc_of_Z (-4)) = Some Py.ValueError
  /\ Py.sleep_check (Qc_of_Z 6) = None
  /\ Py.sleep_check (Qc_of_Z 9223372037) = Some Py.OverflowError
  /\ Py.sleep_check (Qc_of_Z (-9223372036)) = Some Py.ValueError
  /\ Py.sleep_check (Qc_of_Z (-9223372037)) = Some Py.OverflowError.
Proof. repeat split; vm_compute; reflexivity. Qed.

Example range_ex : Py.range 2 5 = [2; 3; 4] /\ Py.range 2 1 = [].
Proof. split; reflexivity. Qed.

Example slice_ex :
  Py.slice_to [1; 2; 3] 2 = [1; 2] /\ Py.slice_to [1; 2; 3] (-1) = [1; 2]
  /\ Py.slice_to [1; 2; 3] (-7) = [] /\ Py.slice_to [1; 2; 3] 9 = [1; 2; 3].
Proof. repeat split; vm_compute; reflexivity. Qed.

Example lower_ex : Py.lower "X-RateLimit-Remaining" = "x-ratelimit-remaining".
Proof. reflexivity. Qed.


(** ** Python builtins *)

Lemma slice_to_length {A} (l : list A) n :
  0 <= n -> Py.len (Py.slice_to l n) <= n.
Proof.
  intros Hn. unfold Py.slice_to, Py.len.
  destruct (0 <=? n) eqn:E; [|apply Z.leb_gt in E; lia].
  rewrite length_take. lia.
Qed.

Lemma slice_to_all {A} (l : list A) n :
  Py.len l <= n -> Py.slice_to l n = l.
Proof.
  unfold Py.slice_to, Py.len. intros Hn.
  destruct (0 <=? n) eqn:E; [|apply Z.leb_gt in E; lia].
  apply take_ge. lia.
Qed.

Lemma slice_to_nil {A} n : Py.slice_to (@nil A) n = [].
Proof. unfold Py.slice_to. destruct (0 <=? n); apply take_nil. Qed.

Lemma slice_to_prefix {A} (l : list A) n : Py.slice_to l n `prefix_of` l.
Proof. unfold Py.slice_to. destruct (0 <=? n); apply prefix_take. Qed.

Lemma len_app {A} (l1 l2 : list A) : Py.len (l1 ++ l2) = Py.len l1 + Py.len l2.
Proof. unfold Py.len. rewrite length_app. lia. Qed.

Lemma len_nonneg {A} (l : list A) : 0 <= Py.len l.
Proof. unfold Py.len. lia. Qed.

Lemma range_nil a b : b <= a -> Py.range a b = [].
Proof. intros H. unfold Py.range. by replace (Z.to_nat (b - a)) with 0%nat by lia. Qed.

Lemma range_cons a b : a < b -> Py.range a b = a :: Py.range (a + 1) b.
Proof.
  intros H. unfold Py.range.
  replace (Z.to_nat (b - a)) with (S (Z.to_nat (b - (a + 1)))) by lia.
  cbn [seq map]. f_equal; [lia|].
  rewrite <- seq_shift, map_map. apply map_ext. intros i. lia.
Qed.

Lemma range_length a b : length (Py.range a b) = Z.to_nat (b - a).
Proof. unfold Py.range. by rewrite length_map, length_seq. Qed.

Lemma range_take a b n :
  0 <= n <= Z.max 0 (b - a) -> take (Z.to_nat n) (Py.range a b) = Py.range a (a + n).
Proof.
  intros H. unfold Py.range. rewrite <- fmap_take, take_seq.
  do 2 f_equal. lia.
Qed.

Lemma range_drop a b n :
  0 <= n -> drop (Z.to_nat n) (Py.range a b) = Py.range (a + n) b.
Proof.
  intros H. unfold Py.range. rewrite <- fmap_drop, drop_seq.
  replace (Z.to_nat (b - (a + n))) with (Z.to_nat (b - a) - Z.to_nat n)%nat by lia.
  rewrite Nat.add_0_l, <- (Nat.add_0_r (Z.to_nat n)) at 1.
  rewrite <- fmap_add_seq, <- list_fmap_compose.
  apply list_fmap_ext. intros _ i _. simpl. lia.
Qed.

Lemma range_snoc a b : a <= b -> Py.range a (b + 1) = Py.range a b ++ [b].
Proof.
  intros H. unfold Py.range.
  replace (Z.to_nat (b + 1 - a)) with (Z.to_nat (b - a) + 1)%nat by lia.
  rewrite seq_app, map_app. cbn. do 2 f_equal. lia.
Qed.

(** ** [int()] on strings *)

(** More than 4300 digits are not converted, whatever they are. *)
Lemma int_of_str_too_long s :
  (Py.max_str_digits < Py.count_digits (Py.strip (list_ascii_of_string s)))%nat ->
  Py.int_of_str s = None.
Proof.
  intros H. unfold Py.int_of_str. apply Nat.ltb_lt in H. by rewrite H.
Qed.

(** ** Division in binary64 *)

Lemma round_half_even_le n d k : 0 < d -> n <= k * d -> Py.round_half_even n d <= k.
Proof.
  intros Hd Hn. unfold Py.round_half_even.
  pose proof (Z.div_mod n d ltac:(lia)) as Hdm.
  pose proof (Z.mod_pos_bound n d Hd) as Hr.
  destruct (2 * (n mod d) <? d) eqn:E1; [nia|].
  apply Z.ltb_ge in E1.
  destruct (d <? 2 * (n mod d)) eqn:E2; [nia|].
  destruct (Z.even (n / d)); nia.
Qed.

Lemma round_half_even_ge n d k : 0 < d -> k * d <= n -> k <= Py.round_half_even n d.
Proof.
  intros Hd Hn. unfold Py.round_half_even.
  pose proof (Z.div_mod n d ltac:(lia)) as Hdm.
  pose proof (Z.mod_pos_bound n d Hd) as Hr.
  destruct (2 * (n mod d) <? d) eqn:E1; [nia|].
  destruct (d <? 2 * (n mod d)) eqn:E2; [nia|].
  destruct (Z.even (n / d)); nia.
Qed.

(** Below a half, the rounding goes down; above, up. *)
Lemma round_half_even_lt n d k :
  0 < d -> 2 * n < (2 * k + 1) * d -> Py.round_half_even n d <= k.
Proof.
  intros Hd Hn. unfold Py.round_half_even.
  pose proof (Z.div_mod n d ltac:(lia)) as Hdm.
  pose proof (Z.mod_pos_bound n d Hd) as Hr.
  destruct (2 * (n mod d) <? d) eqn:E1; [nia|].
  apply Z.ltb_ge in E1.
  destruct (d <? 2 * (n mod d)) eqn:E2.
  - apply Z.ltb_lt in E2. nia.
  - apply Z.ltb_ge in E2. destruct (Z.even (n / d)); nia.
Qed.

Lemma round_half_even_gt n d k :
  0 < d -> (2 * k + 1) * d < 2 * n -> k + 1 <= Py.round_half_even n d.
Proof.
  intros Hd Hn. unfold Py.round_half_even.
  pose proof (Z.div_mod n d ltac:(lia)) as Hdm.
  pose proof (Z.mod_pos_bound n d Hd) as Hr.
  destruct (2 * (n mod d) <? d) eqn:E1.
  - apply Z.ltb_lt in E1. nia.
  - apply Z.ltb_ge in E1. destruct (d <? 2 * (n mod d)) eqn:E2.
    + nia.
    + apply Z.ltb_ge in E2. destruct (Z.even (n / d)); nia.
Qed.

(** [Py.mag] is the binary exponent of the quotient. *)
Lemma mag_spec a b :
  0 < a -> 0 < b ->
  (1 <= Py.mag a b /\ 2 ^ (Py.mag a b - 1) * b <= a < 2 ^ Py.mag a b * b)
  \/ (Py.mag a b <= 0 /\ 2 ^ (- Py.mag a b) * a < b <= 2 ^ (1 - Py.mag a b) * a).
Proof.
  intros Ha Hb. unfold Py.mag. destruct (b <=? a) eqn:E.
  - apply Z.leb_le in E. left.
    pose proof (Z.div_mod a b ltac:(lia)) as Hdm.
    pose proof (Z.mod_pos_bound a b Hb) as Hr.
    assert (1 <= a / b) as Hn by (apply Z.div_le_lower_bound; lia).
    pose proof (Z.log2_spec (a / b) ltac:(lia)) as [Hlo Hhi].
    pose proof (Z.log2_nonneg (a / b)) as Hl.
    replace (Z.log2 (a / b) + 1 - 1) with (Z.log2 (a / b)) by lia.
    replace (Z.succ (Z.log2 (a / b))) with (Z.log2 (a / b) + 1) in Hhi by lia.
    split; [lia|]. split; nia.
  - apply Z.leb_gt in E. right.
    pose proof (Z.div_mod (b - 1) a ltac:(lia)) as Hdm.
    pose proof (Z.mod_pos_bound (b - 1) a Ha) as Hr.
    assert (1 <= (b - 1) / a) as Hn by (apply Z.div_le_lower_bound; lia).
    pose proof (Z.log2_spec ((b - 1) / a) ltac:(lia)) as [Hlo Hhi].
    pose proof (Z.log2_nonneg ((b - 1) / a)) as Hl.
    replace (- - Z.log2 ((b - 1) / a)) with (Z.log2 ((b - 1) / a)) by lia.
    replace (1 - - Z.log2 ((b - 1) / a)) with (Z.log2 ((b - 1) / a) + 1) by lia.
    replace (Z.succ (Z.log2 ((b - 1) / a))) with (Z.log2 ((b - 1) / a) + 1) in Hhi by lia.
    split; [lia|]. split; nia.
Qed.

(** For operands below 2^53 the float is the quotient scaled by a power of
    two 2^t, rounded, with the divisor below 2^(t+1): the rounding error
    is less than what separates the quotient from the next integer. *)
Lemma binary64_small a b :
  0 < a < 2 ^ 53 -> 0 < b < 2 ^ 53 ->
  exists t, 0 <= t /\ b < 2 ^ (t + 1)
            /\ Py.binary64 a b = (Py.round_half_even (a * 2 ^ t) b, - t).
Proof.
  intros Ha Hb. unfold Py.binary64.
  assert (- 52 <= Py.mag a b <= 53 /\ b < 2 ^ (54 - Py.mag a b)) as [Hg Hbt].
  { destruct (mag_spec a b ltac:(lia) ltac:(lia)) as [(Hg & Hlo & Hhi)|(Hg & Hlo & Hhi)].
    - assert (Py.mag a b <= 53) as Hg'.
      { destruct (decide (Py.mag a b <= 53)) as [|Hn]; [done|]. exfalso.
        pose proof (Z.pow_le_mono_r 2 53 (Py.mag a b - 1) ltac:(lia) ltac:(lia)). nia. }
      split; [lia|].
      assert (0 < 2 ^ (Py.mag a b - 1)) as Hpos by (apply Z.pow_pos_nonneg; lia).
      apply (Z.mul_lt_mono_pos_l (2 ^ (Py.mag a b - 1))); [done|].
      rewrite <- Z.pow_add_r by lia.
      replace (Py.mag a b - 1 + (54 - Py.mag a b)) with 53 by lia. lia.
    - assert (- 52 <= Py.mag a b) as Hg'.
      { destruct (decide (- 52 <= Py.mag a b)) as [|Hn]; [done|]. exfalso.
        pose proof (Z.pow_le_mono_r 2 53 (- Py.mag a b) ltac:(lia) ltac:(lia)). nia. }
      split; [lia|].
      pose proof (Z.pow_le_mono_r 2 53 (54 - Py.mag a b) ltac:(lia) ltac:(lia)). lia. }
  exists (53 - Py.mag a b). split; [lia|]. split.
  { by replace (53 - Py.mag a b + 1) with (54 - Py.mag a b) by lia. }
  replace (Z.max (Py.mag a b - 53) (-1074)) with (- (53 - Py.mag a b)) by lia.
  replace (Z.max 0 (- - (53 - Py.mag a b))) with (53 - Py.mag a b) by lia.
  replace (Z.max 0 (- (53 - Py.mag a b))) with 0 by lia.
  by rewrite Z.pow_0_r, Z.mul_1_r.
Qed.

(** The rounded quotient lies between the same two integers as the exact
    one. *)
Lemma round_scaled_ceil a b t :
  0 < a -> 0 < b -> 0 <= t -> b < 2 ^ (t + 1) ->
  - ((- Py.round_half_even (a * 2 ^ t) b) / 2 ^ t) = - ((- a) / b).
Proof.
  intros Ha Hb Ht Hbt.
  assert (0 < 2 ^ t) as HT by (apply Z.pow_pos_nonneg; lia).
  rewrite Z.pow_add_r, Z.pow_1_r in Hbt by lia.
  set (T := 2 ^ t) in *. set (c := - ((- a) / b)).
  assert (b * (c - 1) < a <= b * c) as [Hlo Hhi].
  { subst c. pose proof (Z.div_mod (- a) b ltac:(lia)).
    pose proof (Z.mod_pos_bound (- a) b Hb). lia. }
  pose proof (round_half_even_le (a * T) b (c * T) Hb ltac:(nia)) as Hle.
  pose proof (round_half_even_gt (a * T) b ((c - 1) * T) Hb ltac:(nia)) as Hge.
  set (m := Py.round_half_even (a * T) b) in *.
  assert ((- m) / T = - c) as Hd
    by (symmetry; apply (Z.div_unique_pos (- m) T (- c) (c * T - m)); lia).
  rewrite Hd. subst c. lia.
Qed.

Lemma round_scaled_floor a b t :
  0 < a -> 0 < b -> 0 <= t -> b < 2 ^ (t + 1) ->
  Py.round_half_even (a * 2 ^ t) b / 2 ^ t = a / b.
Proof.
  intros Ha Hb Ht Hbt.
  assert (0 < 2 ^ t) as HT by (apply Z.pow_pos_nonneg; lia).
  rewrite Z.pow_add_r, Z.pow_1_r in Hbt by lia.
  set (T := 2 ^ t) in *. set (q := a / b).
  assert (b * q <= a < b * (q + 1)) as [Hlo Hhi].
  { subst q. pose proof (Z.div_mod a b ltac:(lia)).
    pose proof (Z.mod_pos_bound a b Hb). lia. }
  pose proof (round_half_even_ge (a * T) b (q * T) Hb ltac:(nia)) as Hge.
  pose proof (round_half_even_lt (a * T) b ((q + 1) * T - 1) Hb ltac:(nia)) as Hle.
  set (m := Py.round_half_even (a * T) b) in *.
  symmetry. apply (Z.div_unique_pos m T q (m - q * T)); lia.
Qed.

(** On ints below 2^53 in magnitude, [math.ceil(a / b)] is the ceiling of
    the exact quotient. *)
Lemma ceil_div_small a b :
  b <> 0 -> Z.abs a < 2 ^ 53 -> Z.abs b < 2 ^ 53 ->
  Py.ceil_div a b = inr (- ((- a) / b)).
Proof.
  intros Hb0 Ha Hb. unfold Py.ceil_div.
  destruct (b =? 0) eqn:Eb; [by apply Z.eqb_eq in Eb|].
  destruct (a =? 0) eqn:Ea.
  { apply Z.eqb_eq in Ea. subst a. by rewrite Z.opp_0, Z.div_0_l. }
  apply Z.eqb_neq in Ea.
  destruct (binary64_small (Z.abs a) (Z.abs b) ltac:(lia) ltac:(lia)) as (t & Ht & Hbt & ->).
  pose proof (round_scaled_ceil (Z.abs a) (Z.abs b) t ltac:(lia) ltac:(lia) Ht Hbt) as Hceil.
  pose proof (round_scaled_floor (Z.abs a) (Z.abs b) t ltac:(lia) ltac:(lia) Ht Hbt) as Hfloor.
  set (m := Py.round_half_even (Z.abs a * 2 ^ t) (Z.abs b)) in *.
  assert (- ((- a) / b)
          = if 0 <? Z.sgn a * Z.sgn b then - ((- Z.abs a) / Z.abs b)
            else - (Z.abs a / Z.abs b)) as ->.
  { destruct a as [|a|a], b as [|b|b]; try done; cbn [Z.sgn Z.abs Z.mul Pos.mul Z.ltb Z.compare].
    - by rewrite <- (Z.div_opp_opp (Z.pos a)) by done.
    - by rewrite <- (Z.div_opp_opp (Z.neg a)) by done. }
  destruct (0 <=? - t) eqn:Et.
  - apply Z.leb_le in Et. assert (t = 0) as -> by lia.
    change (- 0) with 0 in *. rewrite Z.pow_0_r in *. rewrite Z.div_1_r in Hceil, Hfloor.
    rewrite Z.mul_1_r.
    assert (m < 2 ^ 1024) as Hm.
    { assert (m <= Z.abs a) as Hma.
      { rewrite Z.opp_involutive in Hceil. rewrite Hceil.
        pose proof (Z.div_mod (- Z.abs a) (Z.abs b) ltac:(lia)).
        pose proof (Z.mod_pos_bound (- Z.abs a) (Z.abs b) ltac:(lia)). nia. }
      pose proof (Z.pow_lt_mono_r 2 53 1024 ltac:(lia) ltac:(lia) ltac:(lia)). lia. }
    replace (2 ^ 1024 <=? m) with false by (symmetry; apply Z.leb_gt; lia).
    f_equal. rewrite Z.opp_involutive in Hceil.
    destruct (0 <? Z.sgn a * Z.sgn b) eqn:Es.
    + apply Z.ltb_lt in Es. rewrite <- Hceil. nia.
    + apply Z.ltb_ge in Es. rewrite <- Hfloor. nia.
  - rewrite Z.opp_involutive.
    destruct (0 <? Z.sgn a * Z.sgn b); by rewrite ?Hceil, ?Hfloor.
Qed.

Lemma ceil_div_zero_division a b :
  Py.ceil_div a b = inl Py.ZeroDivisionError <-> b = 0.
Proof.
  unfold Py.ceil_div. destruct (b =? 0) eqn:Eb.
  - apply Z.eqb_eq in Eb. done.
  - apply Z.eqb_neq in Eb. destruct (a =? 0); [done|].
    destruct (Py.binary64 _ _) as [m e].
    destruct (0 <=? e); [destruct (_ <=? _)|destruct (_ <? _)]; done.
Qed.

Lemma ceil_div_0_l b : b <> 0 -> Py.ceil_div 0 b = inr 0.
Proof. intros Hb. unfold Py.ceil_div. apply Z.eqb_neq in Hb. by rewrite Hb. Qed.

(** The ceiling is the least number of pages of size [b] that hold [a]
    items. *)
Lemma ceil_div_spec a b n :
  0 < b -> Z.abs a < 2 ^ 53 -> b < 2 ^ 53 ->
  Py.ceil_div a b = inr n -> b * (n - 1) < a <= b * n.
Proof.
  intros Hb Ha Hb'. rewrite ceil_div_small by lia. intros [= <-].
  pose proof (Z.div_mod (- a) b ltac:(lia)).
  pose proof (Z.mod_pos_bound (- a) b Hb). lia.
Qed.

Lemma ceil_div_spec_neg a b n :
  b < 0 -> Z.abs a < 2 ^ 53 -> - 2 ^ 53 < b ->
  Py.ceil_div a b = inr n -> b * n <= a < b * (n - 1).
Proof.
  intros Hb Ha Hb'. rewrite ceil_div_small by lia. intros [= <-].
  pose proof (Z.div_mod (- a) b ltac:(lia)).
  pose proof (Z.mod_neg_bound (- a) b Hb). lia.
Qed.

(** ** The lengths [time.sleep] takes *)

Lemma sleep_check_cases d :
  Py.sleep_check d = None
  \/ Py.sleep_check d = Some Py.ValueError
  \/ Py.sleep_check d = Some Py.OverflowError.
Proof. unfold Py.sleep_check. repeat case_decide; auto. Qed.

(** A length that is slept through is not negative. *)
Lemma sleep_check_None d : Py.sleep_check d = None -> (0 <= d)%Qc.
Proof.
  unfold Py.sleep_check. repeat case_decide; try done.
  intros _. by apply Qcnot_lt_le.
Qed.

Lemma Qc_of_Z_scale z k : (Qc_of_Z z * Qc_of_Z k)%Qc = Qc_of_Z (z * k).
Proof. symmetry. apply Z2Qc_inj_mul. Qed.

(** On whole seconds, the limits are 9223372036 seconds either way. *)
Lemma sleep_check_Z z :
  Py.sleep_check (Qc_of_Z z)
  = if (9223372036 <? z) || (z <? - 9223372036) then Some Py.OverflowError
    else if z <? 0 then Some Py.ValueError else None.
Proof.
  unfold Py.sleep_check. rewrite Qc_of_Z_scale.
  destruct (9223372036 <? z) eqn:E1; cbn [orb].
  { apply Z.ltb_lt in E1. case_decide as H; [done|].
    exfalso. apply H. apply (proj1 (Z2Qc_inj_le _ _)). lia. }
  apply Z.ltb_ge in E1. case_decide as H.
  { apply (proj2 (Z2Qc_inj_le _ _)) in H. exfalso. lia. }
  destruct (z <? - 9223372036) eqn:E2.
  { apply Z.ltb_lt in E2. case_decide as H'; [done|].
    exfalso. apply H'. apply (proj1 (Z2Qc_inj_lt _ _)). lia. }
  apply Z.ltb_ge in E2. case_decide as H'.
  { apply (proj2 (Z2Qc_inj_lt _ _)) in H'. exfalso. lia. }
  destruct (z <? 0) eqn:E3.
  - apply Z.ltb_lt in E3. case_decide as H''; [done|].
    exfalso. apply H''. rewrite <- Z2Qc_inj_0. by apply (proj1 (Z2Qc_inj_lt _ _)).
  - apply Z.ltb_ge in E3. case_decide as H''; [|done].
    rewrite <- Z2Qc_inj_0 in H''. apply (proj2 (Z2Qc_inj_lt _ _)) in H''. exfalso. lia.
Qed.

Lemma sleep_check_safe d :
  (0 <= d)%Qc -> (d <= Qc_of_Z Py.sleep_safe)%Qc -> Py.sleep_check d = None.
Proof.
  intros H0 Hs. unfold Py.sleep_check.
  assert (0 <= Qc_of_Z (10 ^ 9))%Qc as Hk.
  { rewrite <- Z2Qc_inj_0. apply (proj1 (Z2Qc_inj_le _ _)). lia. }
  pose proof (Qcmult_le_compat_r _ _ _ Hs Hk) as Hup. rewrite Qc_of_Z_scale in Hup.
  pose proof (Qcmult_le_compat_r _ _ _ H0 Hk) as Hlo. rewrite Qcmult_0_l in Hlo.
  case_decide as H1.
  { exfalso. pose proof (Qcle_trans _ _ _ H1 Hup) as H.
    apply (proj2 (Z2Qc_inj_le _ _)) in H. unfold Py.sleep_safe in H. lia. }
  case_decide as H2.
  { exfalso. pose proof (Qcle_lt_trans _ _ _ Hlo H2) as H.
    rewrite <- Z2Qc_inj_0 in H. apply (proj2 (Z2Qc_inj_lt _ _)) in H. lia. }
  case_decide as H3; [|done].
  exfalso. by apply (Qclt_not_le _ _ H3).
Qed.

Lemma sleep_check_negative d :
  (- Qc_of_Z Py.sleep_safe <= d)%Qc -> (d < 0)%Qc -> Py.sleep_check d = Some Py.ValueError.
Proof.
  intros Hs H0. unfold Py.sleep_check.
  assert (0 <= Qc_of_Z (10 ^ 9))%Qc as Hk.
  { rewrite <- Z2Qc_inj_0. apply (proj1 (Z2Qc_inj_le _ _)). lia. }
  assert (- Qc_of_Z Py.sleep_safe = Qc_of_Z (- Py.sleep_safe))%Qc as E
    by (symmetry; apply Z2Qc_inj_opp).
  rewrite E in Hs.
  pose proof (Qcmult_le_compat_r _ _ _ Hs Hk) as Hlo. rewrite Qc_of_Z_scale in Hlo.
  pose proof (Qcmult_le_compat_r _ _ _ (Qclt_le_weak _ _ H0) Hk) as Hup.
  rewrite Qcmult_0_l in Hup.
  case_decide as H1.
  { exfalso. pose proof (Qcle_trans _ _ _ H1 Hup) as H.
    rewrite <- Z2Qc_inj_0 in H. apply (proj2 (Z2Qc_inj_le _ _)) in H. lia. }
  case_decide as H2.
  { exfalso. pose proof (Qcle_lt_trans _ _ _ Hlo H2) as H.
    apply (proj2 (Z2Qc_inj_lt _ _)) in H. unfold Py.sleep_safe in H. lia. }
  by case_decide.
Qed.

(** ** Trace projections *)

Lemma requests_of_app tr1 tr2 :
  requests_of (tr1 ++ tr2) = requests_of tr1 ++ requests_of tr2.
Proof. apply omap_app. Qed.

Lemma sleeps_of_app tr1 tr2 :
  sleeps_of (tr1 ++ tr2) = sleeps_of tr1 ++ sleeps_of tr2.
Proof. apply omap_app. Qed.

(** ** The monad *)

Lemma bind_Ok {B A C} (m : M B A) (k : A -> M B C) w c w' :
  bind m k w = (Ok c, w') ->
  exists a w1, m w = (Ok a, w1) /\ k a w1 = (Ok c, w').
Proof.
  unfold bind. destruct (m w) as [[a| |] w1]; intros H; try discriminate.
  by exists a, w1.
Qed.

Lemma bind_eq {B A C} (m : M B A) (k : A -> M B C) w a w1 :
  m w = (Ok a, w1) -> bind m k w = k a w1.
Proof. unfold bind. by intros ->. Qed.

Lemma bind_Raise {B A C} (m : M B A) (k : A -> M B C) w e w1 :
  m w = (Raise e, w1) -> bind m k w = (Raise e, w1).
Proof. unfold bind. by intros ->. Qed.

Lemma bind_ret_snd {B A C} (m : M B A) (f : A -> C) w :
  snd (bind m (fun a => ret (f a)) w) = snd (m w).
Proof. unfold bind. by destruct (m w) as [[a| |] w1]. Qed.

Lemma Qc_of_Z_neg z : (Qc_of_Z z < 0)%Qc <-> z < 0.
Proof. rewrite <- Z2Qc_inj_0. symmetry. apply Z2Qc_inj_lt. Qed.

(** ** Sleeping *)

Lemma time_sleep_ok {B} d (w : World B) :
  Py.sleep_check d = None ->
  time_sleep d w
  = (Ok tt, Build_World (clock w + d)%Qc (script w) (trace w ++ [EvSleep d])).
Proof. unfold time_sleep. by intros ->. Qed.

Lemma time_sleep_raise {B} d (w : World B) e :
  Py.sleep_check d = Some e -> time_sleep d w = (Raise e, w).
Proof. unfold time_sleep. by intros ->. Qed.

Lemma time_sleep_Z {B} z (w : World B) :
  0 <= z <= 9223372036 ->
  time_sleep (Qc_of_Z z) w
  = (Ok tt, Build_World (clock w + Qc_of_Z z)%Qc (script w) (trace w ++ [EvSleep (Qc_of_Z z)])).
Proof.
  intros Hz. apply time_sleep_ok. rewrite sleep_check_Z.
  replace (9223372036 <? z) with false by (symmetry; apply Z.ltb_ge; lia).
  replace (z <? - 9223372036) with false by (symmetry; apply Z.ltb_ge; lia).
  by replace (z <? 0) with false by (symmetry; apply Z.ltb_ge; lia).
Qed.

Lemma time_sleep_Z_neg {B} z (w : World B) :
  - 9223372036 <= z < 0 -> time_sleep (Qc_of_Z z) w = (Raise Py.ValueError, w).
Proof.
  intros Hz. apply time_sleep_raise. rewrite sleep_check_Z.
  replace (9223372036 <? z) with false by (symmetry; apply Z.ltb_ge; lia).
  replace (z <? - 9223372036) with false by (symmetry; apply Z.ltb_ge; lia).
  by replace (z <? 0) with true by (symmetry; apply Z.ltb_lt; lia).
Qed.

Lemma time_sleep_Z_overflow {B} z (w : World B) :
  9223372036 < z \/ z < - 9223372036 ->
  time_sleep (Qc_of_Z z) w = (Raise Py.OverflowError, w).
Proof.
  intros Hz. apply time_sleep_raise. rewrite sleep_check_Z.
  destruct Hz as [Hz|Hz].
  - by replace (9223372036 <? z) with true by (symmetry; apply Z.ltb_lt; lia).
  - replace (z <? - 9223372036) with true by (symmetry; apply Z.ltb_lt; lia).
    by rewrite orb_true_r.
Qed.

Lemma time_sleep_safe {B} d (w : World B) :
  (0 <= d)%Qc -> (d <= Qc_of_Z Py.sleep_safe)%Qc ->
  time_sleep d w
  = (Ok tt, Build_World (clock w + d)%Qc (script w) (trace w ++ [EvSleep d])).
Proof. intros H0 Hs. apply time_sleep_ok. by apply sleep_check_safe. Qed.

Lemma time_sleep_cases {B} d (w : World B) :
  (exists e, (e = Py.ValueError \/ e = Py.OverflowError) /\ time_sleep d w = (Raise e, w))
  \/ ((0 <= d)%Qc
      /\ time_sleep d w
         = (Ok tt, Build_World (clock w + d)%Qc (script w) (trace w ++ [EvSleep d]))).
Proof.
  destruct (sleep_check_cases d) as [H|[H|H]].
  - right. split; [by apply sleep_check_None|by apply time_sleep_ok].
  - left. exists Py.ValueError. split; [auto|by apply time_sleep_raise].
  - left. exists Py.OverflowError. split; [auto|by apply time_sleep_raise].
Qed.

(** ** The rate-limit handler *)

Lemma has_header_get {B} (r : Response.t B) name :
  Response.has_header r name = true <-> is_Some (Response.get_header r name).
Proof. unfold Response.has_header, Response.get_header. apply bool_decide_eq_true. Qed.

Lemma has_header_None {B} (r : Response.t B) name :
  Response.get_header r name = None -> Response.has_header r name = false.
Proof.
  intros H. apply not_true_is_false. rewrite has_header_get, H. by intros [? ?].
Qed.

Lemma has_header_Some {B} (r : Response.t B) name s :
  Response.get_header r name = Some s -> Response.has_header r name = true.
Proof. intros H. apply has_header_get. by rewrite H. Qed.

(** A response that is not a 403, or carries no remaining-quota header,
    passes through: nothing is printed, nothing is waited for. *)
Lemma handle_rate_limit_skip {B} self (r : Response.t B) w :
  Response.status_code r <> 403
  \/ Response.get_header r "X-RateLimit-Remaining" = None ->
  GitHubAPI._handle_rate_limit self r w = (Ok r, w).
Proof.
  intros H. unfold GitHubAPI._handle_rate_limit.
  assert ((Response.status_code r =? 403)
          && Response.has_header r "X-RateLimit-Remaining" = false) as ->; [|done].
  destruct H as [H|H].
  - apply Z.eqb_neq in H. by rewrite H.
  - rewrite (has_header_None _ _ H). apply andb_false_r.
Qed.

(** Unfolding the monad's plumbing once the next step is known. *)
Ltac run := cbv [bind ret raise time_time print log int_str math_ceil_div].

(** A 403 with quota left passes through as well. *)
Lemma handle_rate_limit_quota_left {B} self (r : Response.t B) w s n reset :
  Response.status_code r = 403 ->
  Response.get_header r "X-RateLimit-Remaining" = Some s ->
  Py.int_of_str s = Some n -> n <> 0 ->
  reset_epoch r w = Some reset ->
  GitHubAPI._handle_rate_limit self r w = (Ok r, w).
Proof.
  intros Hst Hs Hn Hn0 Hreset. unfold GitHubAPI._handle_rate_limit.
  rewrite Hst, (has_header_Some _ _ _ Hs), Hs. simpl.
  unfold reset_epoch in Hreset. apply Z.eqb_neq in Hn0.
  destruct (Response.get_header r "X-RateLimit-Reset") as [s'|];
    run; rewrite Hn; [rewrite Hreset|]; by rewrite Hn0.
Qed.

(** A throttled response: the wait is announced, then slept, and what
    [time.sleep] does decides how the handler ends. *)
Lemma handle_rate_limit_throttled {B} self (r : Response.t B) w reset :
  throttled r = true ->
  reset_epoch r w = Some reset ->
  GitHubAPI._handle_rate_limit self r w
  = match time_sleep (Qc_of_Z (reset - now w + 1))
            (log (EvPrint (MsgWaiting (reset - now w))) w) with
    | (Ok _, w') => (Ok r, w')
    | (Raise e, w') => (Raise e, w')
    | (OutOfFuel, w') => (OutOfFuel, w')
    end.
Proof.
  unfold throttled. intros [Hst Hrem]%andb_true_iff Hreset.
  apply Z.eqb_eq in Hst.
  destruct (Response.get_header r "X-RateLimit-Remaining") as [s|] eqn:Hs; [|done].
  apply bool_decide_eq_true in Hrem.
  unfold GitHubAPI._handle_rate_limit.
  rewrite Hst, (has_header_Some _ _ _ Hs), Hs. cbn [Z.eqb Pos.eqb andb].
  unfold reset_epoch in Hreset.
  destruct (Response.get_header r "X-RateLimit-Reset") as [s'|];
    run; rewrite Hrem; [rewrite Hreset|injection Hreset as <-];
    cbn [Z.eqb]; fold (now w);
    by destruct (time_sleep _ _) as [[[]| |] w'].
Qed.

(** A throttled response whose wait [time.sleep] takes: the wait is
    announced and slept through, and the response is handed back. *)
Lemma handle_rate_limit_wait {B} self (r : Response.t B) w reset :
  throttled r = true ->
  reset_epoch r w = Some reset ->
  0 <= reset - now w + 1 <= 9223372036 ->
  GitHubAPI._handle_rate_limit self r w
  = (Ok r, Build_World (clock w + Qc_of_Z (reset - now w + 1))%Qc (script w)
             (trace w ++ [EvPrint (MsgWaiting (reset - now w));
                          EvSleep (Qc_of_Z (reset - now w + 1))])).
Proof.
  intros Hth Hreset Hwait. rewrite (handle_rate_limit_throttled _ _ _ _ Hth Hreset).
  rewrite time_sleep_Z by done. cbn [log clock script trace]. by rewrite <- app_assoc.
Qed.

(** A throttled response whose wait [time.sleep] refuses: the wait is
    announced, and the exception escapes. *)
Lemma handle_rate_limit_refused {B} self (r : Response.t B) w reset e :
  throttled r = true ->
  reset_epoch r w = Some reset ->
  Py.sleep_check (Qc_of_Z (reset - now w + 1)) = Some e ->
  GitHubAPI._handle_rate_limit self r w
  = (Raise e, log (EvPrint (MsgWaiting (reset - now w))) w).
Proof.
  intros Hth Hreset He. rewrite (handle_rate_limit_throttled _ _ _ _ Hth Hreset).
  by rewrite (time_sleep_raise _ _ _ He).
Qed.

(** All the handler can do. *)
Lemma handle_rate_limit_cases {B} self (r : Response.t B) w :
  let res := GitHubAPI._handle_rate_limit self r w in
  (throttled r = false /\ (res = (Ok r, w) \/ res = (Raise Py.ValueError, w)))
  \/ (throttled r = true /\ reset_epoch r w = None /\ res = (Raise Py.ValueError, w))
  \/ (exists reset, throttled r = true /\ reset_epoch r w = Some reset
        /\ ((exists e, (e = Py.ValueError \/ e = Py.OverflowError)
               /\ res = (Raise e, log (EvPrint (MsgWaiting (reset - now w))) w))
            \/ (0 <= reset - now w + 1
                /\ res = (Ok r, Build_World (clock w + Qc_of_Z (reset - now w + 1))%Qc
                                  (script w)
                                  (trace w ++ [EvPrint (MsgWaiting (reset - now w));
                                               EvSleep (Qc_of_Z (reset - now w + 1))]))))).
Proof.
  intros res.
  destruct (throttled r) eqn:Hth.
  - right. destruct (reset_epoch r w) as [reset|] eqn:Hreset.
    + right. exists reset. do 2 (split; [done|]). subst res.
      rewrite (handle_rate_limit_throttled _ _ _ _ Hth Hreset).
      destruct (time_sleep_cases (Qc_of_Z (reset - now w + 1))
                  (log (EvPrint (MsgWaiting (reset - now w))) w))
        as [(e & He & ->)|(Hpos & ->)].
      * left. by exists e.
      * right. cbn [log clock script trace]. rewrite <- app_assoc. split; [|done].
        rewrite <- Z2Qc_inj_0 in Hpos. by apply (proj2 (Z2Qc_inj_le _ _)) in Hpos.
    + left. do 2 (split; [done|]). subst res.
      unfold throttled in Hth. apply andb_true_iff in Hth as [Hst Hrem].
      apply Z.eqb_eq in Hst.
      destruct (Response.get_header r "X-RateLimit-Remaining") as [s|] eqn:Hs; [|done].
      apply bool_decide_eq_true in Hrem.
      unfold GitHubAPI._handle_rate_limit.
      rewrite Hst, (has_header_Some _ _ _ Hs), Hs. cbn [Z.eqb Pos.eqb andb].
      unfold reset_epoch in Hreset.
      destruct (Response.get_header r "X-RateLimit-Reset") as [s'|]; [|done].
      run. by rewrite Hrem, Hreset.
  - left. split; [done|]. subst res. unfold throttled in Hth.
    destruct (decide (Response.status_code r = 403)) as [Hst|Hst];
      [|rewrite handle_rate_limit_skip by auto; auto].
    destruct (Response.get_header r "X-RateLimit-Remaining") as [s|] eqn:Hs;
      [|rewrite handle_rate_limit_skip by auto; auto].
    rewrite Hst in Hth. cbn [Z.eqb Pos.eqb andb] in Hth. apply bool_decide_eq_false in Hth.
    unfold GitHubAPI._handle_rate_limit.
    rewrite Hst, (has_header_Some _ _ _ Hs), Hs. cbn [Z.eqb Pos.eqb andb].
    run. destruct (Py.int_of_str s) as [n|]; [|auto].
    assert ((n =? 0) = false) as Hn by (apply Z.eqb_neq; congruence).
    destruct (Response.get_header r "X-RateLimit-Reset") as [s'|].
    + destruct (Py.int_of_str s'); [|auto]. rewrite Hn. auto.
    + rewrite Hn. auto.
Qed.

(** Consequences: the handler never touches the transport, issues no
    request, hands back the response it was given, and raises nothing but
    what [int()] and [time.sleep] raise. *)
Lemma handle_rate_limit_script {B} self (r : Response.t B) w :
  script (snd (GitHubAPI._handle_rate_limit self r w)) = script w.
Proof.
  destruct (handle_rate_limit_cases self r w)
    as [(_ & [-> | ->]) | [(_ & _ & ->) | (reset & _ & _ & [(e & _ & ->) | (_ & ->)])]];
    done.
Qed.

Lemma handle_rate_limit_requests {B} self (r : Response.t B) w :
  requests_of (trace (snd (GitHubAPI._handle_rate_limit self r w))) = requests_of (trace w).
Proof.
  destruct (handle_rate_limit_cases self r w)
    as [(_ & [-> | ->]) | [(_ & _ & ->) | (reset & _ & _ & [(e & _ & ->) | (_ & ->)])]];
    cbn [snd log trace]; rewrite ?requests_of_app; cbn; by rewrite ?app_nil_r.
Qed.

Lemma handle_rate_limit_outcome {B} self (r : Response.t B) w :
  fst (GitHubAPI._handle_rate_limit self r w) = Ok r
  \/ fst (GitHubAPI._handle_rate_limit self r w) = Raise Py.ValueError
  \/ fst (GitHubAPI._handle_rate_limit self r w) = Raise Py.OverflowError.
Proof.
  destruct (handle_rate_limit_cases self r w)
    as [(_ & [-> | ->]) | [(_ & _ & ->) | (reset & _ & _ & [(e & [-> | ->] & ->) | (_ & ->)])]];
    auto.
Qed.

Lemma handle_rate_limit_Ok {B} self (r r' : Response.t B) w w' :
  GitHubAPI._handle_rate_limit self r w = (Ok r', w') -> r' = r.
Proof.
  intros H. destruct (handle_rate_limit_outcome self r w) as [H'|[H'|H']];
    rewrite H in H'; simpl in H'; congruence.
Qed.

Lemma handle_rate_limit_Raise {B} self (r : Response.t B) w w' e :
  GitHubAPI._handle_rate_limit self r w = (Raise e, w') ->
  e = Py.ValueError \/ e = Py.OverflowError.
Proof.
  intros H. destruct (handle_rate_limit_outcome self r w) as [H'|[H'|H']];
    rewrite H in H'; simpl in H'; [done|left|right]; congruence.
Qed.

Lemma handle_rate_limit_fuel {B} self (r : Response.t B) w :
  fst (GitHubAPI._handle_rate_limit self r w) <> OutOfFuel.
Proof. destruct (handle_rate_limit_outcome self r w) as [-> | [-> | ->]]; done. Qed.

(** At most one wait, and only for a throttled response. *)
Lemma handle_rate_limit_sleeps {B} self (r : Response.t B) w :
  exists waits,
    sleeps_of (trace (snd (GitHubAPI._handle_rate_limit self r w)))
    = sleeps_of (trace w) ++ waits
    /\ (length waits <= 1)%nat /\ (throttled r = false -> waits = []).
Proof.
  destruct (handle_rate_limit_cases self r w)
    as [(Hth & [-> | ->]) | [(Hth & _ & ->) | (reset & Hth & _ & [(e & _ & ->) | (_ & ->)])]];
    cbn [snd log trace]; rewrite ?sleeps_of_app; cbn.
  1-4: exists []; rewrite ?app_nil_r; repeat split; auto.
  eexists [_]. repeat split; [auto|]. by rewrite Hth.
Qed.

(** The clock is never set back. *)
Lemma handle_rate_limit_clock {B} self (r : Response.t B) w :
  (clock w <= clock (snd (GitHubAPI._handle_rate_limit self r w)))%Qc.
Proof.
  destruct (handle_rate_limit_cases self r w)
    as [(_ & [-> | ->]) | [(_ & _ & ->) | (reset & _ & _ & [(e & _ & ->) | (Hw & ->)])]];
    cbn [snd log clock]; try apply Qcle_refl.
  rewrite <- (Qcplus_0_r (clock w)) at 1.
  apply (proj1 (Qcplus_le_mono_l 0 _ (clock w))).
  rewrite <- Z2Qc_inj_0. by apply (proj1 (Z2Qc_inj_le 0 _)).
Qed.

(** Two responses at the edges: a reset epoch centuries ahead, whose wait
    [time.sleep] cannot convert, and a remaining quota followed by the
    separator 31, which [int()] does not strip. *)
Example handle_rate_limit_far_reset :
  GitHubAPI._handle_rate_limit Sample.api (Sample.rate_limited "1700000000000" tt)
    (Sample.start [])
  = (Raise Py.OverflowError,
     Build_World (Qc_of_Z 1000) [] [EvPrint (MsgWaiting 1699999999000)]).
Proof. vm_compute. reflexivity. Qed.

Example handle_rate_limit_separator :
  GitHubAPI._handle_rate_limit Sample.api
    (Response.make 403
       (<["x-ratelimit-remaining" := "0" +:+ String "031"%char EmptyString]>
          (<["x-ratelimit-reset" := "1005"]> ∅)) "limit" tt)
    (Sample.start [])
  = (Raise Py.ValueError, Sample.start []).
Proof. vm_compute. reflexivity. Qed.


(** ** The transport *)

Lemma requests_get_cons {B} u h p c (r : Response.t B) rest tr :
  requests_get u h p (Build_World c (r :: rest) tr)
  = (Ok r, Build_World c rest (tr ++ [EvGet {| url := u; req_headers := h; params := p |}])).
Proof. reflexivity. Qed.

Lemma requests_get_nil {B} u h p c tr :
  requests_get (B:=B) u h p (Build_World c [] tr)
  = (Raise Py.TransportError,
     Build_World c [] (tr ++ [EvGet {| url := u; req_headers := h; params := p |}])).
Proof. reflexivity. Qed.

Lemma requests_get_Ok {B} u h p (w w1 : World B) r :
  requests_get u h p w = (Ok r, w1) ->
  script w = r :: script w1 /\ clock w1 = clock w
  /\ trace w1 = trace w ++ [EvGet {| url := u; req_headers := h; params := p |}].
Proof.
  destruct w as [c [|r0 rest] tr]; [done|].
  rewrite requests_get_cons. by intros [= -> <-].
Qed.

Lemma requests_get_fuel {B} u h p (w : World B) :
  fst (requests_get u h p w) <> OutOfFuel.
Proof. by destruct w as [c [|r0 rest] tr]. Qed.

(** ** list_commits: the loop *)

Section list_commits_facts.
Context {Item : Type}.
Variables (self : GitHubAPI.t) (repo_owner repo_name : string) (per_page : Z).

Local Abbreviation loop := (GitHubAPI.list_commits_loop (Item:=Item) self repo_owner repo_name per_page).
Local Abbreviation get page :=
  (requests_get (GitHubAPI.commits_url self repo_owner repo_name) (GitHubAPI.headers self)
     (Some (GitHubAPI.commits_params per_page page))).

(** One iteration of the loop, once the transport has answered and the
    handler has returned. *)
Lemma list_commits_loop_step fuel page all_results (w w1 w2 : World (list Item)) r :
  get page w = (Ok r, w1) ->
  GitHubAPI._handle_rate_limit self r w1 = (Ok r, w2) ->
  loop (S fuel) page all_results w
  = if Response.status_code r =? 200 then
      if Py.len (Response.json r) <? per_page
      then (Ok (all_results ++ Response.json r), w2)
      else loop fuel (page + 1) (all_results ++ Response.json r) w2
    else (Ok all_results,
          log (EvPrint (MsgError (Response.status_code r) (Response.text r))) w2).
Proof.
  intros Hget Hh. cbn [GitHubAPI.list_commits_loop].
  rewrite (bind_eq _ _ _ _ _ Hget), (bind_eq _ _ _ _ _ Hh).
  destruct (_ =? 200); [|done]. by destruct (_ <? _).
Qed.

(** With more fuel than scripted responses the loop never runs dry. *)
Lemma list_commits_loop_fuel fuel page all_results (w : World (list Item)) :
  (length (script w) < fuel)%nat ->
  fst (loop fuel page all_results w) <> OutOfFuel.
Proof.
  revert page all_results w.
  induction fuel as [|fuel IH]; intros page acc w Hlen; [lia|].
  cbn [GitHubAPI.list_commits_loop].
  destruct (get page w) as [[r| |] w1] eqn:Hget.
  - pose proof Hget as (Hs & _ & _)%requests_get_Ok.
    rewrite (bind_eq _ _ _ _ _ Hget).
    pose proof (handle_rate_limit_script self r w1) as Hsc.
    pose proof (handle_rate_limit_fuel self r w1) as Hf.
    destruct (GitHubAPI._handle_rate_limit self r w1) as [[r'| |] w2] eqn:Hh;
      [|by rewrite (bind_Raise _ _ _ _ _ Hh)|done].
    rewrite (bind_eq _ _ _ _ _ Hh). simpl in Hsc.
    destruct (_ =? 200); [|done]. destruct (_ <? _); [done|].
    apply IH. rewrite Hsc. rewrite Hs in Hlen. simpl in Hlen. lia.
  - by rewrite (bind_Raise _ _ _ _ _ Hget).
  - exfalso. eapply (requests_get_fuel _ _ _ w). by rewrite Hget.
Qed.

(** Any such amount of fuel gives the same result. *)
Lemma list_commits_loop_fuel_irrel fuel1 fuel2 page all_results (w : World (list Item)) :
  (length (script w) < fuel1)%nat -> (length (script w) < fuel2)%nat ->
  loop fuel1 page all_results w = loop fuel2 page all_results w.
Proof.
  revert fuel2 page all_results w.
  induction fuel1 as [|fuel1 IH]; intros [|fuel2] page acc w H1 H2; try lia.
  cbn [GitHubAPI.list_commits_loop].
  destruct (get page w) as [[r| |] w1] eqn:Hget.
  - pose proof Hget as (Hs & _ & _)%requests_get_Ok.
    rewrite !(bind_eq _ _ _ _ _ Hget).
    pose proof (handle_rate_limit_script self r w1) as Hsc.
    destruct (GitHubAPI._handle_rate_limit self r w1) as [[r'| |] w2] eqn:Hh.
    + rewrite !(bind_eq _ _ _ _ _ Hh). simpl in Hsc.
      destruct (_ =? 200); [|done]. destruct (_ <? _); [done|].
      rewrite Hs in H1, H2. simpl in H1, H2. apply IH; rewrite Hsc; lia.
    + by rewrite !(bind_Raise _ _ _ _ _ Hh).
    + unfold bind. by rewrite Hh.
  - by rewrite !(bind_Raise _ _ _ _ _ Hget).
  - unfold bind. by rewrite Hget.
Qed.

(** What the loop returns is what it had plus the bodies of the successful
    pages among those it fetched, in the order it fetched them. *)
Lemma list_commits_loop_fetched fuel page all_results (w w' : World (list Item)) l :
  loop fuel page all_results w = (Ok l, w') ->
  exists fetched,
    script w = fetched ++ script w'
    /\ l = all_results ++ concat (Response.json <$> filter (fun r => ok r = true) fetched).
Proof.
  revert page all_results w.
  induction fuel as [|fuel IH]; intros page acc w Hrun; [done|].
  cbn [GitHubAPI.list_commits_loop] in Hrun.
  apply bind_Ok in Hrun as (r & w1 & Hget & Hrun).
  apply bind_Ok in Hrun as (r' & w2 & Hh & Hrun).
  apply requests_get_Ok in Hget as (Hs & _ & _).
  pose proof (handle_rate_limit_script self r w1) as Hsc.
  rewrite Hh in Hsc. simpl in Hsc.
  apply handle_rate_limit_Ok in Hh as ->.
  destruct (Response.status_code r =? 200) eqn:Hst.
  - destruct (_ <? _).
    + injection Hrun as <- <-. exists [r]. rewrite Hs, Hsc. split; [done|].
      rewrite filter_cons_True by done. simpl. by rewrite app_nil_r.
    + apply IH in Hrun as (fetched & Hf & ->). exists (r :: fetched).
      rewrite Hs, <- Hsc, Hf. split; [done|].
      rewrite filter_cons_True by done. simpl. by rewrite <- app_assoc.
  - apply bind_Ok in Hrun as ([] & w3 & Hp & Hrun).
    injection Hrun as <- <-. injection Hp as <-.
    exists [r]. cbn [log script]. rewrite Hs, Hsc. split; [done|].
    rewrite filter_cons_False by (unfold ok; by rewrite Hst).
    simpl. by rewrite app_nil_r.
Qed.
End list_commits_facts.

Section list_commits_runs.
Context {Item : Type}.
Variables (self : GitHubAPI.t) (repo_owner repo_name : string) (per_page : Z).

Local Abbreviation loop := (GitHubAPI.list_commits_loop (Item:=Item) self repo_owner repo_name per_page).
Local Abbreviation request := (commits_request self repo_owner repo_name per_page).

(** A run of full pages: each is fetched, appended, and the page counter
    moves on. *)
Lemma list_commits_loop_fulls (fulls : list (Response.t (list Item))) :
  forall fuel page all_results c rest tr,
  Forall (fun r => full_page per_page r = true) fulls ->
  loop (length fulls + fuel) page all_results (Build_World c (fulls ++ rest) tr)
  = loop fuel (page + Py.len fulls) (all_results ++ concat (Response.json <$> fulls))
      (Build_World c rest (tr ++ (EvGet ∘ request <$> Py.range page (page + Py.len fulls)))).
Proof.
  induction fulls as [|r fulls' IH]; intros fuel page acc c rest tr Hfull.
  { cbn. rewrite Z.add_0_r, range_nil by lia. cbn. by rewrite !app_nil_r. }
  apply Forall_cons_1 in Hfull as [Hr Hfull].
  unfold full_page, ok in Hr. apply andb_true_iff in Hr as [Hst Hlen].
  assert (Response.status_code r <> 403) as H403 by (apply Z.eqb_eq in Hst; lia).
  rewrite <- app_comm_cons. cbn [length Nat.add].
  rewrite (list_commits_loop_step self repo_owner repo_name per_page _ page acc _ _ _ r
             (requests_get_cons _ _ _ _ _ _ _)
             (handle_rate_limit_skip _ _ _ (or_introl H403))).
  rewrite Hst. replace (Py.len (Response.json r) <? per_page) with false
    by (symmetry; apply Z.ltb_ge; by apply Z.leb_le).
  rewrite IH by done. unfold Py.len. cbn [length fmap list_fmap concat].
  rewrite (range_cons page (page + Z.of_nat (S (length fulls')))) by lia.
  replace (page + Z.of_nat (S (length fulls'))) with (page + 1 + Z.of_nat (length fulls')) by lia.
  f_equal; [by rewrite <- app_assoc|].
  f_equal. by rewrite <- app_assoc.
Qed.
End list_commits_runs.


(** ** search_repositories: the loop *)

Section search_facts.
Context {Item : Type}.
Variables (self : GitHubAPI.t) (query sort order : string).
Variables (per_page max_repos : Z) (delay : Qc).

Local Abbreviation pages_loop :=
  (GitHubAPI.search_pages (Item:=Item) self max_repos delay).
Local Abbreviation sparams := (GitHubAPI.search_params query sort order per_page).
Local Abbreviation request := (search_request self query sort order per_page).

(** Setting the page in the parameter dictionary overwrites the page that
    was there. *)
Lemma search_params_page page page' :
  <["page" := PInt page']> (sparams page) = sparams page'.
Proof.
  unfold GitHubAPI.search_params.
  rewrite (insert_insert_ne _ "page" "q") by done.
  rewrite (insert_insert_ne _ "page" "sort") by done.
  rewrite (insert_insert_ne _ "page" "order") by done.
  rewrite (insert_insert_ne _ "page" "per_page") by done.
  by rewrite insert_insert_eq.
Qed.

Lemma page_of_request page : page_of (request page) = Some (PInt page).
Proof.
  unfold page_of, search_request, GitHubAPI.search_params. cbn [params mbind option_bind].
  rewrite !lookup_insert_ne by done. apply lookup_insert_eq.
Qed.

(** Once enough items are there, the loop issues no request. *)
Lemma search_pages_cap pages params all_results (w : World (SearchData Item)) :
  max_repos <= Py.len all_results ->
  pages_loop pages params all_results w = (Ok all_results, w).
Proof.
  intros Hcap. destruct pages as [|page pages']; [done|].
  cbn [GitHubAPI.search_pages].
  by replace (Py.len all_results >=? max_repos) with true by (symmetry; rewrite Z.geb_leb; apply Z.leb_le; lia).
Qed.

(** One iteration of the loop once the transport has answered. *)
Lemma search_pages_step page pages' p all_results (w w1 : World (SearchData Item)) r :
  Py.len all_results < max_repos ->
  requests_get (GitHubAPI.search_url self) (GitHubAPI.headers self) (Some (sparams page)) w
    = (Ok r, w1) ->
  pages_loop (page :: pages') (sparams p) all_results w
  = if ok r then
      (time_sleep delay ;;; pages_loop pages' (sparams page) (all_results ++ page_items r)) w1
    else if Response.status_code r =? 403 then
      (print MsgRetrying ;;; GitHubAPI._handle_rate_limit self r ;;;
       pages_loop pages' (sparams page) all_results) w1
    else (Ok all_results,
          log (EvPrint (MsgError (Response.status_code r) (Response.text r))) w1).
Proof.
  intros Hcap Hget. cbn [GitHubAPI.search_pages].
  replace (Py.len all_results >=? max_repos) with false
    by (symmetry; rewrite Z.geb_leb; apply Z.leb_gt; lia).
  rewrite search_params_page, (bind_eq _ _ _ _ _ Hget).
  unfold ok, page_items. destruct (_ =? 200); [done|]. cbn [negb].
  by destruct (_ =? 403).
Qed.

(** What the loop returns is what it had plus the items of the successful
    pages among those it fetched, in the order it fetched them. *)
Lemma search_pages_fetched pages p all_results (w w' : World (SearchData Item)) l :
  pages_loop pages (sparams p) all_results w = (Ok l, w') ->
  exists fetched,
    script w = fetched ++ script w'
    /\ l = all_results ++ concat (page_items <$> filter (fun r => ok r = true) fetched).
Proof.
  revert p all_results w.
  induction pages as [|page pages' IH]; intros p acc w Hrun.
  { injection Hrun as <- <-. exists []. by rewrite app_nil_r. }
  destruct (decide (max_repos <= Py.len acc)) as [Hcap|Hcap].
  { rewrite search_pages_cap in Hrun by done. injection Hrun as <- <-.
    exists []. by rewrite app_nil_r. }
  assert (Py.len acc < max_repos) as Hlt by lia.
  destruct (requests_get (GitHubAPI.search_url self) (GitHubAPI.headers self)
              (Some (sparams page)) w) as [[r| |] w1] eqn:Hget.
  - rewrite (search_pages_step _ _ _ _ _ _ _ Hlt Hget) in Hrun.
    apply requests_get_Ok in Hget as (Hs & _ & _).
    destruct (ok r) eqn:Hok.
    + apply bind_Ok in Hrun as ([] & w2 & Hsl & Hrun).
      assert (script w2 = script w1) as Hsc.
      { unfold time_sleep in Hsl. destruct (Py.sleep_check delay); [done|].
        by injection Hsl as <-. }
      apply IH in Hrun as (fetched & Hf & ->). exists (r :: fetched).
      rewrite Hs, <- Hsc, Hf. split; [done|].
      rewrite filter_cons_True by done. simpl. by rewrite <- app_assoc.
    + destruct (_ =? 403).
      * apply bind_Ok in Hrun as ([] & w2 & Hp & Hrun). injection Hp as <-.
        apply bind_Ok in Hrun as (r' & w3 & Hh & Hrun).
        pose proof (handle_rate_limit_script self r (log (EvPrint MsgRetrying) w1)) as Hsc.
        rewrite Hh in Hsc. cbn [snd log script] in Hsc.
        apply IH in Hrun as (fetched & Hf & ->). exists (r :: fetched).
        rewrite Hs, <- Hsc, Hf. split; [done|].
        by rewrite filter_cons_False by (by rewrite Hok).
      * injection Hrun as <- <-. exists [r]. cbn [log script]. rewrite Hs.
        split; [done|]. rewrite filter_cons_False by (by rewrite Hok).
        simpl. by rewrite app_nil_r.
  - cbn [GitHubAPI.search_pages] in Hrun.
    replace (Py.len acc >=? max_repos) with false in Hrun
      by (symmetry; rewrite Z.geb_leb; apply Z.leb_gt; lia).
    rewrite search_params_page, (bind_Raise _ _ _ _ _ Hget) in Hrun. done.
  - exfalso. eapply (requests_get_fuel _ _ _ w). by rewrite Hget.
Qed.
End search_facts.

Section search_runs.
Context {Item : Type}.
Variables (self : GitHubAPI.t) (query sort order : string).
Variables (per_page max_repos : Z) (delay : Qc).

Local Abbreviation pages_loop :=
  (GitHubAPI.search_pages (Item:=Item) self max_repos delay).
Local Abbreviation sparams := (GitHubAPI.search_params query sort order per_page).
Local Abbreviation request := (search_request self query sort order per_page).

Local Abbreviation fetch_trace := (fetch_trace self query sort order per_page delay).

Lemma requests_of_fetch_trace pages :
  requests_of (fetch_trace pages) = request <$> pages.
Proof. induction pages as [|page pages IH]; [done|]. cbn. by f_equal. Qed.

(** A run of successful pages: as long as pages remain in the range and
    the cap is not reached before a request, every scripted page is
    fetched and its items are appended. *)
Lemma search_pages_oks (oks : list (Response.t (SearchData Item))) :
  forall pages p all_results c rest tr,
  Forall (fun r => ok r = true) oks ->
  (length oks <= length pages)%nat ->
  Py.sleep_check delay = None ->
  (oks <> [] ->
   Py.len (all_results ++ concat (page_items <$> removelast oks)) < max_repos) ->
  exists p',
    pages_loop pages (sparams p) all_results (Build_World c (oks ++ rest) tr)
    = pages_loop (drop (length oks) pages) (sparams p')
        (all_results ++ concat (page_items <$> oks))
        (Build_World (Nat.iter (length oks) (fun t => (t + delay)%Qc) c) rest
           (tr ++ fetch_trace (take (length oks) pages))).
Proof.
  induction oks as [|r oks' IH]; intros pages p acc c rest tr Hok Hlen Hd Hcap.
  { exists p. cbn. by rewrite !app_nil_r. }
  destruct pages as [|page pages']; [simpl in Hlen; lia|].
  apply Forall_cons_1 in Hok as [Hr Hok]. simpl in Hlen.
  assert (Py.len acc < max_repos) as Hlt.
  { specialize (Hcap ltac:(done)). destruct oks'.
    - cbn in Hcap. by rewrite app_nil_r in Hcap.
    - cbn [removelast fmap list_fmap concat] in Hcap.
      rewrite !len_app in Hcap. pose proof (len_nonneg (page_items r)).
      match type of Hcap with _ + (_ + ?x) < _ => assert (0 <= x) by apply len_nonneg end.
      lia. }
  destruct (IH pages' page (acc ++ page_items r) (c + delay)%Qc rest
              ((tr ++ [EvGet (request page)]) ++ [EvSleep delay]) Hok ltac:(lia) Hd)
    as [p' Heq].
  { intros Hne. specialize (Hcap ltac:(done)). destruct oks'; [done|].
    cbn [removelast fmap list_fmap concat] in Hcap |- *.
    by rewrite <- !app_assoc in *. }
  exists p'. rewrite <- app_comm_cons.
  rewrite (search_pages_step self query sort order per_page max_repos delay
             page pages' p acc _ _ r Hlt (requests_get_cons _ _ _ _ _ _ _)).
  rewrite Hr, (bind_eq _ _ _ _ _ (time_sleep_ok _ _ Hd)).
  etrans; [exact Heq|].
  cbn [length drop take]. rewrite Nat.iter_succ_r.
  f_equal.
  - cbn. by rewrite <- app_assoc.
  - f_equal. cbn. by rewrite <- !app_assoc.
Qed.

(** The same over the pages of a range. *)
Lemma search_pages_oks_range (oks : list (Response.t (SearchData Item))) a b p
    all_results c rest tr :
  Forall (fun r => ok r = true) oks ->
  Py.len oks <= Z.max 0 (b - a) ->
  Py.sleep_check delay = None ->
  (oks <> [] ->
   Py.len (all_results ++ concat (page_items <$> removelast oks)) < max_repos) ->
  exists p',
    pages_loop (Py.range a b) (sparams p) all_results (Build_World c (oks ++ rest) tr)
    = pages_loop (Py.range (a + Py.len oks) b) (sparams p')
        (all_results ++ concat (page_items <$> oks))
        (Build_World (Nat.iter (length oks) (fun t => (t + delay)%Qc) c) rest
           (tr ++ fetch_trace (Py.range a (a + Py.len oks)))).
Proof.
  intros Hok Hlen Hd Hcap.
  destruct (search_pages_oks oks (Py.range a b) p all_results c rest tr)
    as [p' Hrun]; [done| |done|done|].
  { rewrite range_length. unfold Py.len in Hlen. lia. }
  exists p'. rewrite Hrun.
  assert (length oks = Z.to_nat (Py.len oks)) as Hn by (unfold Py.len; lia).
  f_equal.
  - rewrite Hn. apply range_drop. unfold Py.len. lia.
  - do 3 f_equal. rewrite Hn. apply range_take. unfold Py.len in *. lia.
Qed.

(** Before the last of a run of pages the list is no longer than after it. *)
Lemma len_items_removelast (oks : list (Response.t (SearchData Item))) :
  Py.len (concat (page_items <$> removelast oks))
  <= Py.len (concat (page_items <$> oks)).
Proof.
  destruct oks as [|r oks' _] using rev_ind; [done|].
  rewrite removelast_last, fmap_app, concat_app, len_app.
  pose proof (len_nonneg (concat (page_items <$> [r]))). lia.
Qed.
End search_runs.

Section search_top.
Context {Item : Type}.
Variables (self : GitHubAPI.t) (query sort order : string).
Variables (per_page max_repos : Z) (delay : Qc).

Local Abbreviation search :=
  (GitHubAPI.search_repositories (Item:=Item) self query sort order per_page max_repos delay).
Local Abbreviation pages_loop :=
  (GitHubAPI.search_pages (Item:=Item) self max_repos delay).
Local Abbreviation sparams := (GitHubAPI.search_params query sort order per_page).
Local Abbreviation request := (search_request self query sort order per_page).

(** The first page decides: a failure ends the call with an empty list
    ... *)
Lemma search_first_error c (r : Response.t (SearchData Item)) rest tr :
  Response.status_code r <> 200 -> Response.status_code r <> 403 ->
  search (Build_World c (r :: rest) tr)
  = (Ok [], Build_World c rest
              (tr ++ [EvGet (request 1);
                      EvPrint (MsgError (Response.status_code r) (Response.text r))])).
Proof.
  intros H200 H403. unfold GitHubAPI.search_repositories.
  rewrite (bind_eq _ _ _ _ _ (requests_get_cons _ _ _ _ _ _ _)).
  apply Z.eqb_neq in H200, H403. rewrite H200, H403. cbn [negb].
  run. cbn. by rewrite <- app_assoc.
Qed.

(** ... a success fixes the number of pages and starts the loop. *)
Lemma search_first_ok c (r : Response.t (SearchData Item)) rest tr total_pages :
  ok r = true ->
  Py.ceil_div (Z.min (page_total r) max_repos) per_page = inr total_pages ->
  search (Build_World c (r :: rest) tr)
  = (all_results <- pages_loop (Py.range 2 (total_pages + 1)) (sparams 1) (page_items r) ;;
     ret (Py.slice_to all_results max_repos))
      (Build_World c rest (tr ++ [EvGet (request 1)])).
Proof.
  intros Hok Htp. unfold GitHubAPI.search_repositories.
  rewrite (bind_eq _ _ _ _ _ (requests_get_cons _ _ _ _ _ _ _)).
  unfold ok in Hok. rewrite Hok. cbn [negb].
  unfold math_ceil_div. fold (page_total r). rewrite Htp.
  by rewrite (bind_eq _ _ _ _ _ (eq_refl : ret total_pages _ = _)).
Qed.

(** An exception of the division escapes before any further request. *)
Lemma search_first_raise c (r : Response.t (SearchData Item)) rest tr e :
  ok r = true ->
  Py.ceil_div (Z.min (page_total r) max_repos) per_page = inl e ->
  search (Build_World c (r :: rest) tr)
  = (Raise e, Build_World c rest (tr ++ [EvGet (request 1)])).
Proof.
  intros Hok Htp. unfold GitHubAPI.search_repositories.
  rewrite (bind_eq _ _ _ _ _ (requests_get_cons _ _ _ _ _ _ _)).
  unfold ok in Hok. rewrite Hok. cbn [negb].
  unfold math_ceil_div. fold (page_total r). by rewrite Htp.
Qed.

Lemma search_first_div0 c (r : Response.t (SearchData Item)) rest tr :
  ok r = true -> per_page = 0 ->
  search (Build_World c (r :: rest) tr)
  = (Raise Py.ZeroDivisionError, Build_World c rest (tr ++ [EvGet (request 1)])).
Proof.
  intros Hok Hpp. apply search_first_raise; [done|].
  by apply ceil_div_zero_division.
Qed.
End search_top.

Section search_bounds.
Context {Item : Type}.
Variables (self : GitHubAPI.t) (query sort order : string).
Variables (per_page max_repos : Z) (delay : Qc).

Local Abbreviation search :=
  (GitHubAPI.search_repositories (Item:=Item) self query sort order per_page max_repos delay).
Local Abbreviation pages_loop :=
  (GitHubAPI.search_pages (Item:=Item) self max_repos delay).
Local Abbreviation sparams := (GitHubAPI.search_params query sort order per_page).
Local Abbreviation request := (search_request self query sort order per_page).
Local Abbreviation get page :=
  (requests_get (B:=SearchData Item) (GitHubAPI.search_url self) (GitHubAPI.headers self)
     (Some (sparams page))).

Lemma search_pages_raise pages p page all_results (w w1 : World (SearchData Item)) e :
  Py.len all_results < max_repos ->
  get page w = (Raise e, w1) ->
  pages_loop (page :: pages) (sparams p) all_results w = (Raise e, w1).
Proof.
  intros Hcap Hget. cbn [GitHubAPI.search_pages].
  replace (Py.len all_results >=? max_repos) with false
    by (symmetry; rewrite Z.geb_leb; apply Z.leb_gt; lia).
  by rewrite search_params_page, (bind_Raise _ _ _ _ _ Hget).
Qed.

(** The loop issues at most one request per page of the range, and ends
    with a value or with an exception that is not the division error. *)
Lemma search_pages_bounds pages :
  forall p all_results (w : World (SearchData Item)),
  let res := pages_loop pages (sparams p) all_results w in
  (length (requests_of (trace (snd res)))
   <= length (requests_of (trace w)) + length pages)%nat
  /\ loop_outcome (fst res).
Proof.
  induction pages as [|page pages' IH]; intros p acc w res; subst res.
  { cbn. split; [lia|done]. }
  destruct (decide (max_repos <= Py.len acc)) as [Hcap|Hcap].
  { rewrite search_pages_cap by done. cbn. split; [lia|done]. }
  assert (Py.len acc < max_repos) as Hlt by lia.
  destruct (get page w) as [[r| |] w1] eqn:Hget.
  - rewrite (search_pages_step _ _ _ _ _ _ _ _ _ _ _ _ _ _ Hlt Hget).
    apply requests_get_Ok in Hget as (_ & _ & Htr).
    assert (length (requests_of (trace w1)) = S (length (requests_of (trace w)))) as Hreq.
    { rewrite Htr, requests_of_app, length_app. cbn. lia. }
    destruct (ok r).
    + destruct (time_sleep_cases delay w1) as [(e & He & Hsl)|(_ & Hsl)].
      * rewrite (bind_Raise _ _ _ _ _ Hsl). cbn [fst snd length loop_outcome].
        split; [lia|by destruct He as [-> | ->]].
      * rewrite (bind_eq _ _ _ _ _ Hsl).
        match goal with |- context [pages_loop pages' _ ?a ?w2] =>
          destruct (IH page a w2) as [IH1 IH2]; split; [|done];
          etrans; [exact IH1|] end.
        cbn [trace length]. rewrite requests_of_app. cbn. rewrite app_nil_r. lia.
    + destruct (_ =? 403).
      * rewrite (bind_eq _ _ _ _ _ (eq_refl : print MsgRetrying w1 = (Ok tt, _))).
        pose proof (handle_rate_limit_requests self r (log (EvPrint MsgRetrying) w1)) as Hh.
        pose proof (handle_rate_limit_outcome self r (log (EvPrint MsgRetrying) w1)) as Ho.
        destruct (GitHubAPI._handle_rate_limit self r (log (EvPrint MsgRetrying) w1))
          as [[r'| |] w2] eqn:Hrun; cbn [fst snd] in Hh, Ho.
        -- rewrite (bind_eq _ _ _ _ _ Hrun).
           destruct (IH page acc w2) as [IH1 IH2]; split; [|done].
           etrans; [exact IH1|]. rewrite Hh. cbn [log trace length].
           rewrite requests_of_app. cbn. rewrite app_nil_r. lia.
        -- rewrite (bind_Raise _ _ _ _ _ Hrun). cbn [fst snd loop_outcome].
           split; [|by destruct (handle_rate_limit_Raise _ _ _ _ _ Hrun) as [-> | ->]].
           rewrite Hh. cbn [log trace length]. rewrite requests_of_app. cbn.
           rewrite app_nil_r. lia.
        -- destruct Ho as [|[|]]; congruence.
      * cbn [fst snd log trace length]. rewrite requests_of_app. cbn.
        rewrite app_nil_r. split; [lia|done].
  - rewrite (search_pages_raise _ _ _ _ _ _ _ Hlt Hget).
    destruct w as [c [|r0 rest] tr]; [|done]. rewrite requests_get_nil in Hget.
    injection Hget as <- <-.
    cbn [fst snd trace length loop_outcome]. rewrite requests_of_app, length_app. cbn.
    split; [lia|done].
  - exfalso. eapply (requests_get_fuel _ _ _ w). by rewrite Hget.
Qed.

(** The whole call ends with a value or an exception; division by zero is
    the only exception it adds to those of the loop, and it happens only
    with [per_page = 0]. *)
Lemma search_outcome (w : World (SearchData Item)) :
  loop_outcome (fst (search w))
  \/ fst (search w) = Raise Py.ZeroDivisionError /\ per_page = 0.
Proof.
  destruct w as [c [|r rest] tr]; [left; by cbn|].
  destruct (ok r) eqn:Hok.
  - destruct (Py.ceil_div (Z.min (page_total r) max_repos) per_page) as [e|tp] eqn:Htp.
    + rewrite (search_first_raise _ _ _ _ _ _ _ _ _ _ _ _ Hok Htp).
      destruct e; [by left|by left| |by left].
      right. split; [done|]. by apply ceil_div_zero_division in Htp.
    + left. rewrite (search_first_ok _ _ _ _ _ _ _ _ _ _ _ _ Hok Htp). unfold bind.
      match goal with |- context [pages_loop ?ps (sparams ?p) ?a ?w] =>
        pose proof (proj2 (search_pages_bounds ps p a w)) as Hz end.
      cbn zeta in Hz.
      by destruct (pages_loop _ _ _ _) as [[l| |] w2].
  - left. unfold GitHubAPI.search_repositories.
    rewrite (bind_eq _ _ _ _ _ (requests_get_cons _ _ _ _ _ _ _)).
    unfold ok in Hok. rewrite Hok. cbn [negb].
    destruct (_ =? 403); [|done].
    run.
    match goal with |- context [GitHubAPI._handle_rate_limit self r ?w] =>
      destruct (handle_rate_limit_outcome self r w) as [Ho|[Ho|Ho]];
      destruct (GitHubAPI._handle_rate_limit self r w) as [[r'| |] w2] end;
      cbn [fst] in *; try discriminate; cbn; try done.
    all: by injection Ho as ->.
Qed.

Lemma search_fuel (w : World (SearchData Item)) : fst (search w) <> OutOfFuel.
Proof. destruct (search_outcome w) as [H|[-> _]]; [|done]. by intros E; rewrite E in H. Qed.

Lemma search_zero_division (w : World (SearchData Item)) :
  fst (search w) = Raise Py.ZeroDivisionError -> per_page = 0.
Proof.
  intros E. destruct (search_outcome w) as [H|[_ ?]]; [|done].
  by rewrite E in H.
Qed.
End search_bounds.

(** ** get_content *)

Section get_content_facts.
Context {Item : Type}.
Variables (self : GitHubAPI.t) (repo_owner repo_name path : string).

Local Abbreviation content :=
  (GitHubAPI.get_content (Item:=Item) self repo_owner repo_name path).
Local Abbreviation request := (contents_request self repo_owner repo_name path).

(** A 200 is decoded and returned as it is. *)
Lemma get_content_ok c (r : Response.t Item) rest tr :
  ok r = true ->
  content (Build_World c (r :: rest) tr)
  = (Ok (Some (Response.json r)), Build_World c rest (tr ++ [EvGet request])).
Proof.
  intros Hok. unfold GitHubAPI.get_content.
  rewrite (bind_eq _ _ _ _ _ (requests_get_cons _ _ _ _ _ _ _)).
  assert (Response.status_code r <> 403) as H403
    by (unfold ok in Hok; apply Z.eqb_eq in Hok; lia).
  rewrite (bind_eq _ _ _ _ _ (handle_rate_limit_skip _ _ _ (or_introl H403))).
  unfold ok in Hok. by rewrite Hok.
Qed.

(** Any other status gives [None] whenever the handler returns; the
    request is made once, the responses after it stay unserved, and there
    is at most one wait. *)
Lemma get_content_not_ok c (r : Response.t Item) rest tr :
  ok r = false ->
  let res := content (Build_World c (r :: rest) tr) in
  (fst res = Ok None \/ exists e, fst res = Raise e)
  /\ script (snd res) = rest
  /\ requests_of (trace (snd res)) = requests_of tr ++ [request]
  /\ (length (sleeps_of (trace (snd res))) <= S (length (sleeps_of tr)))%nat.
Proof.
  intros Hok res. subst res. unfold GitHubAPI.get_content.
  rewrite (bind_eq _ _ _ _ _ (requests_get_cons _ _ _ _ _ _ _)).
  match goal with |- context [bind _ _ ?w] =>
    pose proof (handle_rate_limit_script self r w) as Hsc;
    pose proof (handle_rate_limit_requests self r w) as Hrq;
    pose proof (handle_rate_limit_outcome self r w) as Ho;
    destruct (handle_rate_limit_sleeps self r w) as (waits & Hsl & Hwaits & _);
    destruct (GitHubAPI._handle_rate_limit self r w) as [[r'| |] w2] eqn:Hh end;
    cbn [fst snd script trace] in *.
  - rewrite (bind_eq _ _ _ _ _ Hh). destruct Ho as [[= ->]|[|]]; [|done..].
    unfold ok in Hok. rewrite Hok. cbn.
    rewrite requests_of_app, Hrq, requests_of_app, sleeps_of_app, Hsl, sleeps_of_app.
    cbn. rewrite !app_nil_r, length_app. repeat split; auto. lia.
  - rewrite (bind_Raise _ _ _ _ _ Hh). cbn.
    rewrite Hrq, requests_of_app, Hsl, sleeps_of_app.
    cbn. rewrite !app_nil_r, length_app.
    repeat split; eauto. lia.
  - destruct Ho as [|[|]]; done.
Qed.
End get_content_facts.

(** ** The claims *)

(** C1: for every [max_repos >= 0] and whatever the transport serves, the
    list [search_repositories] returns has at most [max_repos] elements
    (and the call always ends: with that list or with an exception). *)
Theorem C1_search_at_most_max_repos {Item} self query sort order per_page max_repos delay
    (w : World (SearchData Item)) :
  0 <= max_repos ->
  fst (GitHubAPI.search_repositories self query sort order per_page max_repos delay w)
    <> OutOfFuel
  /\ forall (l : list Item) w',
       GitHubAPI.search_repositories self query sort order per_page max_repos delay w
         = (Ok l, w') ->
       Py.len l <= max_repos.
Proof.
  intros Hmax. split; [apply search_fuel|].
  intros l w' Hrun. unfold GitHubAPI.search_repositories in Hrun.
  apply bind_Ok in Hrun as (r & w1 & _ & Hrun).
  destruct (negb _).
  - apply bind_Ok in Hrun as (? & ? & _ & [= <- _]). done.
  - apply bind_Ok in Hrun as (tp & ? & _ & Hrun).
    apply bind_Ok in Hrun as (all & ? & _ & [= <- _]).
    by apply slice_to_length.
Qed.

Lemma C1_witness :
  Py.len (A:=string) ["a"; "b"] <= 2.
Proof.
  apply (proj2 (C1_search_at_most_max_repos Sample.api "q" "stars" "desc" 2 2 1%Qc
                  (Sample.start [Sample.search_page 3 ["a"; "b"; "c"]]) ltac:(lia))
           ["a"; "b"]
           (snd (GitHubAPI.search_repositories Sample.api "q" "stars" "desc" 2 2 1%Qc
                   (Sample.start [Sample.search_page 3 ["a"; "b"; "c"]])))).
  vm_compute. reflexivity.
Defined.

(** C2: a rate-limited page was to be fetched again after the wait.  It is
    not.  In [search_repositories] the loop goes on with the next page of
    the range: of three pages of one item, the second answered by a 403
    with the quota used up, the pages requested are 1, 2 and 3, and the
    result has the items of pages 1 and 3 only.  In [list_commits] the
    loop ends after the wait: the result is the first page, and the
    response scripted for the second attempt stays unserved. *)
Theorem C2_rate_limited_page_is_not_retried :
  GitHubAPI.search_repositories Sample.api "q" "stars" "desc" 1 3 1%Qc
    (Sample.start [Sample.search_page 3 ["a"]; Sample.rate_limited "1005" Sample.no_data;
                   Sample.search_page 3 ["c"]])
  = (Ok ["a"; "c"],
     Build_World (Qc_of_Z 1000 + Qc_of_Z 6 + 1)%Qc []
       [EvGet (search_request Sample.api "q" "stars" "desc" 1 1);
        EvGet (search_request Sample.api "q" "stars" "desc" 1 2);
        EvPrint MsgRetrying; EvPrint (MsgWaiting 5); EvSleep (Qc_of_Z 6);
        EvGet (search_request Sample.api "q" "stars" "desc" 1 3);
        EvSleep 1%Qc])
  /\ GitHubAPI.list_commits Sample.api "octocat" "hello-world" 2
       (Sample.start [Sample.commits_page ["c1"; "c2"]; Sample.rate_limited "1005" [];
                      Sample.commits_page ["c3"; "c4"]])
     = (Ok ["c1"; "c2"],
        Build_World (Qc_of_Z 1000 + Qc_of_Z 6)%Qc [Sample.commits_page ["c3"; "c4"]]
          [EvGet (commits_request Sample.api "octocat" "hello-world" 2 1);
           EvGet (commits_request Sample.api "octocat" "hello-world" 2 2);
           EvPrint (MsgWaiting 5); EvSleep (Qc_of_Z 6);
           EvPrint (MsgError 403 "API rate limit exceeded")]).
Proof. split; vm_compute; reflexivity. Qed.

(** C3: a throttled response was to be waited for
    [max(0, reset - now) + 1] seconds.  The handler does not clamp the
    difference at 0: it sleeps [(reset - now) + 1] seconds.  With the reset
    epoch one second in the past (999 at epoch 1000) it announces a wait of
    -1 second and sleeps 0 seconds, not 1; with the reset epoch ten seconds
    in the past it announces -10 seconds and [time.sleep] raises, so that
    nothing is waited for and the caller does not resume.  Both responses
    are throttled by the policy: status 403, remaining quota present and
    0. *)
Theorem C3_wait_is_not_clamped :
  throttled (Sample.rate_limited "999" tt) = true
  /\ GitHubAPI._handle_rate_limit Sample.api (Sample.rate_limited "999" tt) (Sample.start [])
     = (Ok (Sample.rate_limited "999" tt),
        Build_World (Qc_of_Z 1000 + Qc_of_Z 0)%Qc []
          [EvPrint (MsgWaiting (-1)); EvSleep (Qc_of_Z 0)])
  /\ Qc_of_Z 0 <> Qc_of_Z (Z.max 0 (999 - 1000) + 1)
  /\ throttled (Sample.rate_limited "990" tt) = true
  /\ GitHubAPI._handle_rate_limit Sample.api (Sample.rate_limited "990" tt) (Sample.start [])
     = (Raise Py.ValueError,
        Build_World (Qc_of_Z 1000) [] [EvPrint (MsgWaiting (-10))]).
Proof.
  repeat split; try (vm_compute; reflexivity).
  intros H. apply Z2Qc_inj in H. done.
Qed.

(** C4: the records come in the order the pages were fetched.  What
    [search_repositories] returns is the concatenation of the items of the
    pages fetched with success, in fetch order, cut to [max_repos] (so a
    prefix of it); what [list_commits] returns is the concatenation of the
    pages fetched with success, in fetch order, and its loop ends on every
    sequence of responses. *)
Theorem C4_result_is_concatenation_in_fetch_order {Item} self :
  (forall query sort order per_page max_repos delay
          (w w' : World (SearchData Item)) (l : list Item),
     GitHubAPI.search_repositories self query sort order per_page max_repos delay w
       = (Ok l, w') ->
     exists fetched,
       script w = fetched ++ script w'
       /\ l = Py.slice_to (concat (page_items <$> filter (fun r => ok r = true) fetched))
                max_repos
       /\ l `prefix_of` concat (page_items <$> filter (fun r => ok r = true) fetched))
  /\ (forall repo_owner repo_name per_page (w : World (list Item)),
        fst (GitHubAPI.list_commits self repo_owner repo_name per_page w) <> OutOfFuel
        /\ forall (w' : World (list Item)) (l : list Item),
             GitHubAPI.list_commits self repo_owner repo_name per_page w = (Ok l, w') ->
             exists fetched,
               script w = fetched ++ script w'
               /\ l = concat (Response.json <$> filter (fun r => ok r = true) fetched)).
Proof.
  split.
  - intros query sort order per_page max_repos delay w w' l Hrun.
    unfold GitHubAPI.search_repositories in Hrun.
    apply bind_Ok in Hrun as (r & w1 & Hget & Hrun).
    apply requests_get_Ok in Hget as (Hs & _ & _).
    destruct (Response.status_code r =? 200) eqn:Hst; cbn [negb] in Hrun.
    + apply bind_Ok in Hrun as (tp & w2 & Htp & Hrun).
      assert (w2 = w1) as ->.
      { unfold math_ceil_div in Htp. destruct (Py.ceil_div _ _); [done|]. by injection Htp. }
      apply bind_Ok in Hrun as (all & w3 & Hloop & [= <- <-]).
      apply search_pages_fetched in Hloop as (fetched & Hf & ->).
      exists (r :: fetched). rewrite Hs, Hf. split; [done|].
      rewrite filter_cons_True by done. cbn [fmap list_fmap concat app].
      split; [done|apply slice_to_prefix].
    + exists [r]. rewrite filter_cons_False by (unfold ok; by rewrite Hst).
      apply bind_Ok in Hrun as ([] & w2 & Hrun & [= <- <-]).
      assert (script w2 = script w1) as ->;
        [|rewrite Hs; cbn; by rewrite slice_to_nil].
      destruct (_ =? 403).
      * apply bind_Ok in Hrun as ([] & w3 & [= <-] & Hrun).
        apply bind_Ok in Hrun as (r' & w4 & Hh & [= <-]).
        pose proof (handle_rate_limit_script self r (log (EvPrint MsgRetrying) w1)) as Hsc.
        by rewrite Hh in Hsc.
      * by injection Hrun as <-.
  - intros repo_owner repo_name per_page w. split.
    + apply list_commits_loop_fuel. lia.
    + intros w' l Hrun. apply list_commits_loop_fetched in Hrun as (fetched & Hf & ->).
      by exists fetched.
Qed.

Lemma C4_witness :
  (exists fetched,
     [Sample.search_page 3 ["a"; "b"]; Sample.failure 500 Sample.no_data;
      Sample.search_page 3 ["c"]] = fetched ++ [Sample.search_page 3 ["c"]]
     /\ ["a"; "b"]
        = Py.slice_to (concat (page_items <$> filter (fun r => ok r = true) fetched)) 10
     /\ ["a"; "b"] `prefix_of` concat (page_items <$> filter (fun r => ok r = true) fetched))
  /\ (exists fetched,
        [Sample.commits_page ["c1"; "c2"]; Sample.commits_page ["c3"]] = fetched ++ []
        /\ ["c1"; "c2"; "c3"]
           = concat (Response.json <$> filter (fun r => ok r = true) fetched)).
Proof.
  split.
  - apply (proj1 (C4_result_is_concatenation_in_fetch_order Sample.api)
             "q" "stars" "desc" 2 10 1%Qc
             (Sample.start [Sample.search_page 3 ["a"; "b"]; Sample.failure 500 Sample.no_data;
                            Sample.search_page 3 ["c"]])
             (snd (GitHubAPI.search_repositories Sample.api "q" "stars" "desc" 2 10 1%Qc
                     (Sample.start [Sample.search_page 3 ["a"; "b"];
                                    Sample.failure 500 Sample.no_data;
                                    Sample.search_page 3 ["c"]])))
             ["a"; "b"]).
    vm_compute. reflexivity.
  - apply (proj2 (proj2 (C4_result_is_concatenation_in_fetch_order Sample.api)
                    "octocat" "hello-world" 2
                    (Sample.start [Sample.commits_page ["c1"; "c2"]; Sample.commits_page ["c3"]]))
             (snd (GitHubAPI.list_commits Sample.api "octocat" "hello-world" 2
                     (Sample.start [Sample.commits_page ["c1"; "c2"];
                                    Sample.commits_page ["c3"]])))
             ["c1"; "c2"; "c3"]).
    vm_compute. reflexivity.
Defined.

(** C5, as stated, fails.  The number of pages is computed in floating
    point: with page size 2^60, and 2^60 + 1 items both wanted and
    announced, the quotient rounds to 1.0 and one page is planned, where
    the ceiling of the quotient is 2: page 2 is never requested, although
    one item only has been gathered.  And a first page reporting
    total-count 0 does not make the result empty when the page carries
    items. *)
Lemma C5_counterexample :
  2 ^ 60 * (2 - 1) < Z.min (2 ^ 60 + 1) (2 ^ 60 + 1) <= 2 ^ 60 * 2
  /\ GitHubAPI.search_repositories Sample.api "q" "stars" "desc" (2 ^ 60) (2 ^ 60 + 1) 1%Qc
       (Sample.start [Sample.search_page (2 ^ 60 + 1) ["a"];
                      Sample.search_page (2 ^ 60 + 1) ["b"]])
     = (Ok ["a"],
        Build_World (Qc_of_Z 1000) [Sample.search_page (2 ^ 60 + 1) ["b"]]
          [EvGet (search_request Sample.api "q" "stars" "desc" (2 ^ 60) 1)])
  /\ page_total (Sample.search_page 0 ["a"]) = 0
  /\ fst (GitHubAPI.search_repositories Sample.api "q" "stars" "desc" 10 100 1%Qc
            (Sample.start [Sample.search_page 0 ["a"]]))
     = Ok ["a"].
Proof.
  split; [lia|]. split; [|split; vm_compute; reflexivity].
  unfold Sample.start.
  rewrite (search_first_ok Sample.api "q" "stars" "desc" (2 ^ 60) (2 ^ 60 + 1) 1%Qc
             (Qc_of_Z 1000) (Sample.search_page (2 ^ 60 + 1) ["a"])
             [Sample.search_page (2 ^ 60 + 1) ["b"]] [] 1 eq_refl)
    by (vm_compute; reflexivity).
  rewrite range_nil by lia. cbv beta iota delta [bind ret GitHubAPI.search_pages].
  rewrite slice_to_all by (vm_compute; discriminate). reflexivity.
Qed.

(** C5, amended: once the first page has arrived with status 200 and the
    page size is not 0, a number of pages is planned; when the page size
    and [min(total_count, max_repos)] are below 2^53 in magnitude, where
    the floating-point quotient has the ceiling of the exact one, it is
    [ceil(min(total_count, max_repos) / per_page)]: the least number of
    pages of that size holding that many items.  But for the first
    request, which is always made, the plan bounds the requests issued.
    After the first page and the successful pages [oks] the call ends,
    with nothing further requested, when the plan is exhausted or the
    accumulated items have reached [max_repos]; the result is the items so
    far cut to [max_repos].  When the first page reports total-count 0,
    one request is made and the result is that page's items cut to
    [max_repos]: empty when the page carries no items. *)
Theorem C5_search_page_plan {Item} self query sort order per_page max_repos delay
    (first : Response.t (SearchData Item)) oks rest c tr total_pages :
  ok first = true ->
  Py.ceil_div (Z.min (page_total first) max_repos) per_page = inr total_pages ->
  per_page <> 0
  /\ (Z.abs (Z.min (page_total first) max_repos) < 2 ^ 53 -> Z.abs per_page < 2 ^ 53 ->
      (0 < per_page ->
       per_page * (total_pages - 1) < Z.min (page_total first) max_repos
                                    <= per_page * total_pages)
      /\ (per_page < 0 ->
          per_page * total_pages <= Z.min (page_total first) max_repos
                                 < per_page * (total_pages - 1)))
  /\ Py.len (requests_of (trace (snd
        (GitHubAPI.search_repositories self query sort order per_page max_repos delay
           (Build_World c (first :: rest) tr)))))
     <= Py.len (requests_of tr) + Z.max 1 total_pages
  /\ (Forall (fun r => ok r = true) oks ->
      (0 <= delay)%Qc -> (delay <= Qc_of_Z Py.sleep_safe)%Qc ->
      Py.len oks + 1 <= Z.max 1 total_pages ->
      (oks <> [] ->
       Py.len (page_items first ++ concat (page_items <$> removelast oks)) < max_repos) ->
      Py.len oks + 1 = Z.max 1 total_pages
      \/ max_repos <= Py.len (page_items first ++ concat (page_items <$> oks)) ->
      GitHubAPI.search_repositories self query sort order per_page max_repos delay
        (Build_World c (first :: oks ++ rest) tr)
      = (Ok (Py.slice_to (page_items first ++ concat (page_items <$> oks)) max_repos),
         Build_World (Nat.iter (length oks) (fun t => (t + delay)%Qc) c) rest
           (tr ++ [EvGet (search_request self query sort order per_page 1)]
               ++ fetch_trace self query sort order per_page delay
                    (Py.range 2 (Py.len oks + 2)))))
  /\ (page_total first = 0 ->
      GitHubAPI.search_repositories self query sort order per_page max_repos delay
        (Build_World c (first :: rest) tr)
      = (Ok (Py.slice_to (page_items first) max_repos),
         Build_World c rest (tr ++ [EvGet (search_request self query sort order per_page 1)]))
      /\ (page_items first = [] -> Py.slice_to (page_items first) max_repos = [])).
Proof.
  intros Hfirst Htp.
  assert (per_page <> 0) as Hpp.
  { intros Hz. apply (ceil_div_zero_division (Z.min (page_total first) max_repos)) in Hz.
    congruence. }
  split; [done|]. split; [|split; [|split]].
  - intros Ha Hb. split; intros Hs.
    + apply ceil_div_spec; [done|done|lia|done].
    + apply ceil_div_spec_neg; [done|done|lia|done].
  - rewrite (search_first_ok _ _ _ _ _ _ _ _ _ _ _ _ Hfirst Htp), bind_ret_snd.
    match goal with |- context [GitHubAPI.search_pages self max_repos delay ?ps
                                  (GitHubAPI.search_params _ _ _ _ ?p) ?a ?w] =>
      pose proof (proj1 (search_pages_bounds self query sort order per_page max_repos delay
                           ps p a w)) as Hb end.
    cbn zeta in Hb. cbn [trace] in Hb.
    rewrite requests_of_app, length_app, range_length in Hb. cbn [requests_of omap length] in Hb.
    unfold Py.len. cbn in Hb. lia.
  - intros Hoks Hdelay Hsafe Hplan Hcap Hstop.
    rewrite (search_first_ok _ _ _ _ _ _ _ _ _ _ _ _ Hfirst Htp).
    destruct (search_pages_oks_range self query sort order per_page max_repos delay oks
                2 (total_pages + 1) 1 (page_items first) c rest
                (tr ++ [EvGet (search_request self query sort order per_page 1)]))
      as [p' Hrun]; [done|lia|by apply sleep_check_safe|done|].
    unfold bind at 1. rewrite Hrun.
    rewrite (Z.add_comm 2), <- !app_assoc.
    destruct (decide (max_repos <= Py.len (page_items first ++ concat (page_items <$> oks))))
      as [Hfull|Hnot].
    + by rewrite search_pages_cap.
    + rewrite range_nil by lia. done.
  - intros Htotal. split; [|intros ->; apply slice_to_nil].
    rewrite (search_first_ok _ _ _ _ _ _ _ _ _ _ _ _ Hfirst Htp).
    destruct (decide (max_repos <= Py.len (page_items first))) as [Hfull|Hnot].
    + unfold bind. by rewrite search_pages_cap.
    + assert (total_pages = 0) as ->.
      { rewrite Htotal, Z.min_l, ceil_div_0_l in Htp
          by (pose proof (len_nonneg (page_items first)); lia || done).
        by injection Htp as <-. }
      by rewrite range_nil.
Qed.

(** A plan of three pages, carried out: 5 items of 7 are wanted in pages of
    2, the three pages are fetched, and the fourth stays unserved. *)
Lemma C5_witness :
  GitHubAPI.search_repositories Sample.api "q" "stars" "desc" 2 5 1%Qc
    (Sample.start [Sample.search_page 7 ["a"; "b"]; Sample.search_page 7 ["c"; "d"];
                   Sample.search_page 7 ["e"; "f"]; Sample.search_page 7 ["g"; "h"]])
  = (Ok ["a"; "b"; "c"; "d"; "e"],
     Build_World (Qc_of_Z 1000 + 1 + 1)%Qc [Sample.search_page 7 ["g"; "h"]]
       [EvGet (search_request Sample.api "q" "stars" "desc" 2 1);
        EvGet (search_request Sample.api "q" "stars" "desc" 2 2); EvSleep 1%Qc;
        EvGet (search_request Sample.api "q" "stars" "desc" 2 3); EvSleep 1%Qc]).
Proof.
  apply (proj1 (proj2 (proj2 (proj2
           (C5_search_page_plan Sample.api "q" "stars" "desc" 2 5 1%Qc
              (Sample.search_page 7 ["a"; "b"])
              [Sample.search_page 7 ["c"; "d"]; Sample.search_page 7 ["e"; "f"]]
              [Sample.search_page 7 ["g"; "h"]]
              (Qc_of_Z 1000) [] 3 eq_refl ltac:(vm_compute; reflexivity)))))).
  - by repeat constructor.
  - by vm_compute.
  - by vm_compute.
  - by vm_compute.
  - intros _. by vm_compute.
  - left. by vm_compute.
Defined.

(** C6: as soon as a page of [list_commits] is shorter than [per_page], the
    listing ends: after the full pages and the short one nothing more is
    requested, and all their items are returned. *)
Theorem C6_list_commits_stops_at_short_page {Item} self repo_owner repo_name per_page
    (fulls : list (Response.t (list Item))) short rest c tr :
  Forall (fun r => full_page per_page r = true) fulls ->
  ok short = true ->
  Py.len (Response.json short) < per_page ->
  GitHubAPI.list_commits self repo_owner repo_name per_page
    (Build_World c (fulls ++ short :: rest) tr)
  = (Ok (concat (Response.json <$> fulls) ++ Response.json short),
     Build_World c rest
       (tr ++ (EvGet ∘ commits_request self repo_owner repo_name per_page
                 <$> Py.range 1 (Py.len fulls + 2)))).
Proof.
  intros Hfull Hok Hshort. unfold GitHubAPI.list_commits. cbn [script].
  rewrite length_app. cbn [length]. rewrite <- Nat.add_succ_r.
  rewrite list_commits_loop_fulls by done.
  assert (Response.status_code short <> 403) as H403
    by (unfold ok in Hok; apply Z.eqb_eq in Hok; lia).
  rewrite (list_commits_loop_step self repo_owner repo_name per_page _ _ _ _ _ _ short
             (requests_get_cons _ _ _ _ _ _ _)
             (handle_rate_limit_skip _ _ _ (or_introl H403))).
  unfold ok in Hok. rewrite Hok. apply Z.ltb_lt in Hshort. rewrite Hshort.
  replace (Py.len fulls + 2) with (1 + Py.len fulls + 1) by lia.
  rewrite range_snoc by (unfold Py.len; lia).
  by rewrite fmap_app, app_assoc.
Qed.

Lemma C6_witness :
  GitHubAPI.list_commits Sample.api "octocat" "hello-world" 2
    (Sample.start [Sample.commits_page ["c1"; "c2"]; Sample.commits_page ["c3"];
                   Sample.commits_page ["c4"; "c5"]])
  = (Ok ["c1"; "c2"; "c3"],
     Build_World (Qc_of_Z 1000) [Sample.commits_page ["c4"; "c5"]]
       (EvGet ∘ commits_request Sample.api "octocat" "hello-world" 2 <$> [1; 2])).
Proof.
  apply (C6_list_commits_stops_at_short_page Sample.api "octocat" "hello-world" 2
           [Sample.commits_page ["c1"; "c2"]] (Sample.commits_page ["c3"])
           [Sample.commits_page ["c4"; "c5"]] (Qc_of_Z 1000) []).
  - by repeat constructor.
  - reflexivity.
  - reflexivity.
Defined.

(** C7: a response whose status is neither 200 nor 403 ends the pagination
    at once, and what was aggregated so far is returned, not an exception.
    In either loop, whatever the page reached and the items accumulated,
    such a response makes the loop return the accumulated items; it is the
    last response taken from the transport.  For whole calls: on the first
    page of [search_repositories] the result is empty, whatever the page
    size and the bound; on a later page, reached after the successful
    pages [oks], the result is the items of the first page and of [oks],
    the failing page is the last one requested and the scripted responses
    after it stay unserved; [list_commits] after the full pages [fulls]
    returns their items, and likewise requests nothing more. *)
Theorem C7_error_status_halts_with_partial_result {Item} self :
  (forall query sort order per_page max_repos delay page pages p (all_results : list Item)
          (bad : Response.t (SearchData Item)) rest c tr,
     Response.status_code bad <> 200 -> Response.status_code bad <> 403 ->
     Py.len all_results < max_repos ->
     GitHubAPI.search_pages self max_repos delay (page :: pages)
       (GitHubAPI.search_params query sort order per_page p) all_results
       (Build_World c (bad :: rest) tr)
     = (Ok all_results,
        Build_World c rest
          (tr ++ [EvGet (search_request self query sort order per_page page);
                  EvPrint (MsgError (Response.status_code bad) (Response.text bad))])))
  /\ (forall repo_owner repo_name per_page fuel page (all_results : list Item)
             (bad : Response.t (list Item)) rest c tr,
        Response.status_code bad <> 200 -> Response.status_code bad <> 403 ->
        GitHubAPI.list_commits_loop self repo_owner repo_name per_page
          (S fuel) page all_results (Build_World c (bad :: rest) tr)
        = (Ok all_results,
           Build_World c rest
             (tr ++ [EvGet (commits_request self repo_owner repo_name per_page page);
                     EvPrint (MsgError (Response.status_code bad) (Response.text bad))])))
  /\ (forall query sort order per_page max_repos delay
             (bad : Response.t (SearchData Item)) rest c tr,
        Response.status_code bad <> 200 -> Response.status_code bad <> 403 ->
        GitHubAPI.search_repositories self query sort order per_page max_repos delay
          (Build_World c (bad :: rest) tr)
        = (Ok [], Build_World c rest
                    (tr ++ [EvGet (search_request self query sort order per_page 1);
                            EvPrint (MsgError (Response.status_code bad)
                                       (Response.text bad))])))
  /\ (forall query sort order per_page max_repos delay
             (first : Response.t (SearchData Item)) oks bad rest c tr total_pages,
        Response.status_code bad <> 200 -> Response.status_code bad <> 403 ->
        ok first = true ->
        Py.ceil_div (Z.min (page_total first) max_repos) per_page = inr total_pages ->
        Forall (fun r => ok r = true) oks ->
        Py.len oks + 2 <= total_pages ->
        Py.len (page_items first ++ concat (page_items <$> oks)) < max_repos ->
        (0 <= delay)%Qc -> (delay <= Qc_of_Z Py.sleep_safe)%Qc ->
        GitHubAPI.search_repositories self query sort order per_page max_repos delay
          (Build_World c (first :: oks ++ bad :: rest) tr)
        = (Ok (page_items first ++ concat (page_items <$> oks)),
           Build_World (Nat.iter (length oks) (fun t => (t + delay)%Qc) c) rest
             (tr ++ [EvGet (search_request self query sort order per_page 1)]
                 ++ fetch_trace self query sort order per_page delay
                      (Py.range 2 (Py.len oks + 2))
                 ++ [EvGet (search_request self query sort order per_page (Py.len oks + 2));
                     EvPrint (MsgError (Response.status_code bad) (Response.text bad))])))
  /\ (forall repo_owner repo_name per_page
             (fulls : list (Response.t (list Item))) bad rest c tr,
        Response.status_code bad <> 200 -> Response.status_code bad <> 403 ->
        Forall (fun r => full_page per_page r = true) fulls ->
        GitHubAPI.list_commits self repo_owner repo_name per_page
          (Build_World c (fulls ++ bad :: rest) tr)
        = (Ok (concat (Response.json <$> fulls)),
           Build_World c rest
             (tr ++ (EvGet ∘ commits_request self repo_owner repo_name per_page
                       <$> Py.range 1 (Py.len fulls + 2))
                 ++ [EvPrint (MsgError (Response.status_code bad) (Response.text bad))]))).
Proof.
  split; [|split; [|split; [|split]]].
  - intros query sort order per_page max_repos delay page pages p acc bad rest c tr
      H200 H403 Hacc.
    apply Z.eqb_neq in H200, H403.
    erewrite search_pages_step; [|done|apply requests_get_cons].
    unfold ok. rewrite H200, H403. unfold log. cbn [clock script trace].
    by rewrite <- app_assoc.
  - intros repo_owner repo_name per_page fuel page acc bad rest c tr H200 H403.
    rewrite (list_commits_loop_step self repo_owner repo_name per_page _ _ _ _ _ _ bad
               (requests_get_cons _ _ _ _ _ _ _)
               (handle_rate_limit_skip _ _ _ (or_introl H403))).
    apply Z.eqb_neq in H200. rewrite H200. unfold log. cbn [clock script trace].
    by rewrite <- app_assoc.
  - intros query sort order per_page max_repos delay bad rest c tr H200 H403.
    by apply search_first_error.
  - intros query sort order per_page max_repos delay first oks bad rest c tr total_pages
      H200 H403 Hfirst Htp Hoks Hpages Hcap Hdelay Hsafe.
    apply Z.eqb_neq in H200, H403.
    rewrite (search_first_ok _ _ _ _ _ _ _ _ _ _ _ _ Hfirst Htp).
    destruct (search_pages_oks_range self query sort order per_page max_repos delay oks
                2 (total_pages + 1) 1 (page_items first) c (bad :: rest)
                (tr ++ [EvGet (search_request self query sort order per_page 1)]))
      as [p' Hrun]; [done|lia|by apply sleep_check_safe| |].
    { intros _. revert Hcap. rewrite !len_app.
      pose proof (len_items_removelast oks). lia. }
    rewrite (range_cons (2 + Py.len oks)) in Hrun by lia.
    unfold bind at 1. rewrite Hrun.
    erewrite search_pages_step; [|done|apply requests_get_cons].
    unfold ok. rewrite H200, H403.
    cbn [ret]. rewrite slice_to_all by lia.
    rewrite (Z.add_comm 2). unfold log. cbn [clock script trace].
    by rewrite <- !app_assoc.
  - intros repo_owner repo_name per_page fulls bad rest c tr H200 H403 Hfulls.
    unfold GitHubAPI.list_commits. cbn [script].
    rewrite length_app. cbn [length]. rewrite <- Nat.add_succ_r.
    rewrite list_commits_loop_fulls by done.
    rewrite (list_commits_loop_step self repo_owner repo_name per_page _ _ _ _ _ _ bad
               (requests_get_cons _ _ _ _ _ _ _)
               (handle_rate_limit_skip _ _ _ (or_introl H403))).
    apply Z.eqb_neq in H200. rewrite H200. unfold log. cbn [clock script trace].
    rewrite app_nil_l.
    replace (Py.len fulls + 2) with (1 + Py.len fulls + 1) by lia.
    rewrite range_snoc by (unfold Py.len; lia).
    by rewrite fmap_app, <- !app_assoc.
Qed.

(** A failure on page 2 of a three-page fetch, a failure on the first page
    with the page size equal to the bound, and a failure on the second
    page of a listing. *)
Lemma C7_witness :
  GitHubAPI.search_repositories Sample.api "q" "stars" "desc" 2 10 1%Qc
    (Sample.start [Sample.search_page 6 ["a"; "b"]; Sample.failure 500 Sample.no_data;
                   Sample.search_page 6 ["e"; "f"]])
  = (Ok ["a"; "b"],
     Build_World (Qc_of_Z 1000) [Sample.search_page 6 ["e"; "f"]]
       [EvGet (search_request Sample.api "q" "stars" "desc" 2 1);
        EvGet (search_request Sample.api "q" "stars" "desc" 2 2);
        EvPrint (MsgError 500 "Not Found")])
  /\ GitHubAPI.search_repositories Sample.api "q" "stars" "desc" 100 100 1%Qc
       (Sample.start [Sample.failure 500 Sample.no_data; Sample.search_page 6 ["a"; "b"]])
     = (Ok [],
        Build_World (Qc_of_Z 1000) [Sample.search_page 6 ["a"; "b"]]
          [EvGet (search_request Sample.api "q" "stars" "desc" 100 1);
           EvPrint (MsgError 500 "Not Found")])
  /\ GitHubAPI.list_commits Sample.api "octocat" "hello-world" 2
       (Sample.start [Sample.commits_page ["c1"; "c2"]; Sample.failure 404 [];
                      Sample.commits_page ["c3"]])
     = (Ok ["c1"; "c2"],
        Build_World (Qc_of_Z 1000) [Sample.commits_page ["c3"]]
          [EvGet (commits_request Sample.api "octocat" "hello-world" 2 1);
           EvGet (commits_request Sample.api "octocat" "hello-world" 2 2);
           EvPrint (MsgError 404 "Not Found")]).
Proof.
  split; [|split].
  - apply (proj1 (proj2 (proj2 (proj2
             (C7_error_status_halts_with_partial_result (Item:=string) Sample.api))))
             "q" "stars" "desc" 2 10 1%Qc
             (Sample.search_page 6 ["a"; "b"]) [] (Sample.failure 500 Sample.no_data)
             [Sample.search_page 6 ["e"; "f"]] (Qc_of_Z 1000) [] 3).
    + by vm_compute.
    + by vm_compute.
    + reflexivity.
    + vm_compute. reflexivity.
    + constructor.
    + by vm_compute.
    + by vm_compute.
    + by vm_compute.
    + by vm_compute.
  - apply (proj1 (proj2 (proj2
             (C7_error_status_halts_with_partial_result (Item:=string) Sample.api)))
             "q" "stars" "desc" 100 100 1%Qc
             (Sample.failure 500 Sample.no_data) [Sample.search_page 6 ["a"; "b"]]
             (Qc_of_Z 1000) []).
    + by vm_compute.
    + by vm_compute.
  - apply (proj2 (proj2 (proj2 (proj2
             (C7_error_status_halts_with_partial_result (Item:=string) Sample.api))))
             "octocat" "hello-world" 2
             [Sample.commits_page ["c1"; "c2"]] (Sample.failure 404 [])
             [Sample.commits_page ["c3"]] (Qc_of_Z 1000) []).
    + by vm_compute.
    + by vm_compute.
    + by repeat constructor.
Defined.

(** C8: [get_content] was to return [None] for every status other than 200.
    It does not when the response is a 403 with the quota used up and a
    reset time more than a second in the past: the handler's [time.sleep]
    raises and the exception escapes.  (Same defect as C10.) *)
Theorem C8_get_content_raises_on_past_reset :
  GitHubAPI.get_content Sample.api "octocat" "hello-world" "README"
    (Sample.start [Sample.rate_limited "995" "{}"])
  = (Raise Py.ValueError,
     Build_World (Qc_of_Z 1000) []
       [EvGet (contents_request Sample.api "octocat" "hello-world" "README");
        EvPrint (MsgWaiting (-5))]).
Proof. vm_compute; reflexivity. Qed.

(** C9, as stated, fails: the division error is unreachable for a negative
    page size too, where the call returns normally. *)
Lemma C9_counterexample :
  (forall w : World (SearchData string),
     fst (GitHubAPI.search_repositories Sample.api "q" "stars" "desc" (-1) 100 1%Qc w)
     <> Raise Py.ZeroDivisionError)
  /\ ~ (-1 > 0)
  /\ fst (GitHubAPI.search_repositories Sample.api "q" "stars" "desc" (-1) 100 1%Qc
            (Sample.start [Sample.search_page 5 ["a"; "b"]]))
     = Ok ["a"; "b"].
Proof.
  split; [|split; [lia|vm_compute; reflexivity]].
  intros w H. by apply search_zero_division in H.
Qed.

(** C9, amended: [search_repositories] divides by zero exactly when
    [per_page] is 0 and the first request is answered with status 200; for
    every other page size, negative ones included, the division error is
    unreachable. *)
Theorem C9_division_by_zero_iff_per_page_zero {Item}
    self query sort order per_page max_repos delay (w : World (SearchData Item)) :
  fst (GitHubAPI.search_repositories self query sort order per_page max_repos delay w)
  = Raise Py.ZeroDivisionError
  <-> per_page = 0 /\ exists r rest, script w = r :: rest /\ ok r = true.
Proof.
  split.
  - intros H. split; [by apply search_zero_division in H|].
    destruct w as [c [|r rest] tr]; [done|]. exists r, rest. split; [done|].
    destruct (ok r) eqn:Hok; [done|]. exfalso. revert H.
    unfold GitHubAPI.search_repositories.
    rewrite (bind_eq _ _ _ _ _ (requests_get_cons _ _ _ _ _ _ _)).
    unfold ok in Hok. rewrite Hok. cbn [negb].
    destruct (_ =? 403); [|done]. run.
    match goal with |- context [GitHubAPI._handle_rate_limit self r ?w] =>
      destruct (handle_rate_limit_outcome self r w) as [Ho|[Ho|Ho]];
      destruct (GitHubAPI._handle_rate_limit self r w) as [[r'| |] w2] end;
      cbn [fst] in *; try congruence; done.
  - intros [-> (r & rest & Hs & Hok)]. destruct w as [c s tr]. cbn in Hs. subst s.
    by rewrite search_first_div0.
Qed.

Lemma C9_witness :
  fst (GitHubAPI.search_repositories Sample.api "q" "stars" "desc" 0 100 1%Qc
         (Sample.start [Sample.search_page 5 ["a"; "b"]]))
  = Raise Py.ZeroDivisionError.
Proof.
  apply (proj2 (C9_division_by_zero_iff_per_page_zero Sample.api "q" "stars" "desc" 0 100 1%Qc
                  (Sample.start [Sample.search_page 5 ["a"; "b"]]))).
  split; [reflexivity|]. by eexists _, _.
Defined.

(** C10: the handler was to hand back the response it was given for every
    response.  It does not when the quota is used up and the reset time lies
    more than a second in the past: the wait it computes is negative, the
    message is printed, and [time.sleep] raises.  Here a 403 with remaining
    quota 0 and reset epoch 995 is handled at epoch 1000. *)
Theorem C10_handler_raises_on_past_reset :
  throttled (Sample.rate_limited "995" tt) = true
  /\ GitHubAPI._handle_rate_limit Sample.api (Sample.rate_limited "995" tt) (Sample.start [])
     = (Raise Py.ValueError,
        Build_World (Qc_of_Z 1000) [] [EvPrint (MsgWaiting (-5))]).
Proof. split; vm_compute; reflexivity. Qed.


(** * Further properties *)

(** ** The rate-limit handler *)

Lemma Qc_le_plus_nonneg (c d : Qc) : (0 <= d)%Qc -> (c <= c + d)%Qc.
Proof.
  intros Hd. rewrite <- (Qcplus_0_r c) at 1.
  by apply (proj1 (Qcplus_le_mono_l 0 d c)).
Qed.

Lemma Qc_of_Z_nonneg z : 0 <= z -> (0 <= Qc_of_Z z)%Qc.
Proof. intros Hz. rewrite <- Z2Qc_inj_0. by apply (proj1 (Z2Qc_inj_le 0 z)). Qed.

(** With a reset header that is a number, the reset epoch is that number. *)
Lemma announced_reset_epoch {B} (r : Response.t B) (w : World B) reset :
  announced_reset r = Some reset -> reset_epoch r w = Some reset.
Proof.
  unfold announced_reset, reset_epoch.
  by destruct (Response.get_header r "X-RateLimit-Reset").
Qed.

(** X1: whatever the response, the handler takes nothing from the
    transport, issues no request, waits at most once, and only for a
    throttled response, never sets the clock back, and, when it returns,
    hands back the response it was given. *)
Theorem X1_handler_frame {B} self (r : Response.t B) (w : World B) :
  script (snd (GitHubAPI._handle_rate_limit self r w)) = script w
  /\ requests_of (trace (snd (GitHubAPI._handle_rate_limit self r w))) = requests_of (trace w)
  /\ (exists waits,
        sleeps_of (trace (snd (GitHubAPI._handle_rate_limit self r w)))
        = sleeps_of (trace w) ++ waits
        /\ (length waits <= 1)%nat /\ (throttled r = false -> waits = []))
  /\ (clock w <= clock (snd (GitHubAPI._handle_rate_limit self r w)))%Qc
  /\ (fst (GitHubAPI._handle_rate_limit self r w) = Ok r
      \/ exists e, fst (GitHubAPI._handle_rate_limit self r w) = Raise e).
Proof.
  split; [apply handle_rate_limit_script|].
  split; [apply handle_rate_limit_requests|].
  split; [apply handle_rate_limit_sleeps|].
  split; [apply handle_rate_limit_clock|].
  destruct (handle_rate_limit_outcome self r w) as [H|[H|H]]; eauto.
Qed.

(** X2: a throttled response whose reset header announces the epoch
    [reset], not more than a second in the past and within the lengths
    [time.sleep] takes, is waited for until one second past that epoch:
    the wait of [reset - now] seconds is announced, [reset - now + 1]
    seconds are slept, and the response is handed back. *)
Theorem X2_handler_waits_past_announced_reset {B} self (r : Response.t B) (w : World B) reset :
  throttled r = true ->
  announced_reset r = Some reset ->
  0 <= reset - now w + 1 <= Py.sleep_safe ->
  GitHubAPI._handle_rate_limit self r w
  = (Ok r, Build_World (clock w + Qc_of_Z (reset - now w + 1))%Qc (script w)
             (trace w ++ [EvPrint (MsgWaiting (reset - now w));
                          EvSleep (Qc_of_Z (reset - now w + 1))])).
Proof.
  intros Hth Hreset Hwait.
  apply handle_rate_limit_wait; [done|by apply announced_reset_epoch|].
  unfold Py.sleep_safe in Hwait. lia.
Qed.

Lemma X2_witness :
  GitHubAPI._handle_rate_limit Sample.api (Sample.rate_limited "1005" tt) (Sample.start [])
  = (Ok (Sample.rate_limited "1005" tt),
     Build_World (Qc_of_Z 1000 + Qc_of_Z 6)%Qc []
       [EvPrint (MsgWaiting 5); EvSleep (Qc_of_Z 6)]).
Proof.
  apply (X2_handler_waits_past_announced_reset Sample.api (Sample.rate_limited "1005" tt)
           (Sample.start []) 1005).
  - reflexivity.
  - reflexivity.
  - by vm_compute.
Defined.

(** X3: on a 403 with a remaining-quota header, a header value that is not
    an integer makes the handler raise [ValueError] before anything is
    printed or waited for: the remaining-quota value, and also the reset
    value, even when quota is left. *)
Theorem X3_handler_non_numeric_header_raises {B} self (r : Response.t B) (w : World B) s :
  Response.status_code r = 403 ->
  Response.get_header r "X-RateLimit-Remaining" = Some s ->
  Py.int_of_str s = None
  \/ (exists s', Response.get_header r "X-RateLimit-Reset" = Some s'
                 /\ Py.int_of_str s' = None) ->
  GitHubAPI._handle_rate_limit self r w = (Raise Py.ValueError, w).
Proof.
  intros Hst Hs Hbad. unfold GitHubAPI._handle_rate_limit.
  rewrite Hst, (has_header_Some _ _ _ Hs), Hs. simpl. run.
  destruct Hbad as [Hn|(s' & Hs' & Hn')].
  - by rewrite Hn.
  - destruct (Py.int_of_str s) as [n|]; [|done]. by rewrite Hs', Hn'.
Qed.

Lemma X3_witness :
  GitHubAPI._handle_rate_limit Sample.api
    (Response.make 403
       (<["x-ratelimit-remaining" := "42"]> (<["x-ratelimit-reset" := "soon"]> ∅)) "limit" tt)
    (Sample.start [])
  = (Raise Py.ValueError, Sample.start []).
Proof.
  apply (X3_handler_non_numeric_header_raises Sample.api _ _ "42").
  - reflexivity.
  - reflexivity.
  - right. by exists "soon".
Defined.

(** ** The requests of the paged operations *)

Lemma time_sleep_frame {B} d (w : World B) :
  script (snd (time_sleep d w)) = script w
  /\ requests_of (trace (snd (time_sleep d w))) = requests_of (trace w)
  /\ (fst (time_sleep d w) = Ok tt \/ exists e, fst (time_sleep d w) = Raise e).
Proof.
  destruct (time_sleep_cases d w) as [(e & _ & ->)|(_ & ->)];
    cbn [fst snd script trace]; [eauto|].
  rewrite requests_of_app. cbn. rewrite app_nil_r. auto.
Qed.

Section search_requests.
Context {Item : Type}.
Variables (self : GitHubAPI.t) (query sort order : string).
Variables (per_page max_repos : Z) (delay : Qc).

Local Abbreviation search :=
  (GitHubAPI.search_repositories (Item:=Item) self query sort order per_page max_repos delay).
Local Abbreviation pages_loop :=
  (GitHubAPI.search_pages (Item:=Item) self max_repos delay).
Local Abbreviation sparams := (GitHubAPI.search_params query sort order per_page).
Local Abbreviation request := (search_request self query sort order per_page).
Local Abbreviation get page :=
  (requests_get (B:=SearchData Item) (GitHubAPI.search_url self) (GitHubAPI.headers self)
     (Some (sparams page))).

(** The loop requests the pages of its range in order, each once, up to the
    page it stops at; every request but a failing last one is answered by
    the next response of the transport. *)
Lemma search_pages_requests pages :
  forall p all_results (w : World (SearchData Item)),
  let res := pages_loop pages (sparams p) all_results w in
  exists (j : nat) fetched,
    (j <= length pages)%nat
    /\ requests_of (trace (snd res)) = requests_of (trace w) ++ (request <$> take j pages)
    /\ script w = fetched ++ script (snd res)
    /\ (length fetched = j
        \/ S (length fetched) = j /\ fst res = Raise Py.TransportError).
Proof.
  induction pages as [|page pages' IH]; intros p acc w res; subst res.
  { exists 0%nat, []. cbn. rewrite app_nil_r. split_and!; auto with lia. }
  destruct (decide (max_repos <= Py.len acc)) as [Hcap|Hcap].
  { rewrite search_pages_cap by done. exists 0%nat, []. cbn. rewrite app_nil_r.
    split_and!; auto with lia. }
  assert (Py.len acc < max_repos) as Hlt by lia.
  destruct (get page w) as [[r| |] w1] eqn:Hget.
  - rewrite (search_pages_step _ _ _ _ _ _ _ _ _ _ _ _ _ _ Hlt Hget).
    apply requests_get_Ok in Hget as (Hs & _ & Htr).
    assert (requests_of (trace w1) = requests_of (trace w) ++ [request page]) as Hreq.
    { by rewrite Htr, requests_of_app. }
    destruct (ok r).
    + destruct (time_sleep_cases delay w1) as [(e & _ & Hsl)|(_ & Hsl)].
      * rewrite (bind_Raise _ _ _ _ _ Hsl). exists 1%nat, [r]. cbn [fst snd length take fmap list_fmap].
        rewrite Hreq, Hs. cbn. split_and!; auto with lia.
      * rewrite (bind_eq _ _ _ _ _ Hsl).
        match goal with |- context [pages_loop pages' _ ?a ?w2] =>
          destruct (IH page a w2) as (j & fetched & Hj & Hrq & Hsc & Hans);
          cbn zeta in *; cbn [script trace] in Hrq, Hsc;
          destruct (pages_loop pages' (sparams page) a w2) as [o w3] end.
        cbn [fst snd] in *.
        exists (S j), (r :: fetched). rewrite Hrq, Hs, Hsc, requests_of_app, Hreq.
        cbn. rewrite app_nil_r, <- app_assoc. cbn.
        split; [lia|]. do 2 (split; [done|]). destruct Hans as [<-|[<- ?]]; auto.
    + destruct (_ =? 403).
      * rewrite (bind_eq _ _ _ _ _ (eq_refl : print MsgRetrying w1 = (Ok tt, _))).
        pose proof (handle_rate_limit_requests self r (log (EvPrint MsgRetrying) w1)) as Hh.
        pose proof (handle_rate_limit_script self r (log (EvPrint MsgRetrying) w1)) as Hhs.
        pose proof (handle_rate_limit_outcome self r (log (EvPrint MsgRetrying) w1)) as Ho.
        cbn [log trace script] in Hh, Hhs. rewrite requests_of_app in Hh.
        cbn in Hh. rewrite app_nil_r in Hh.
        destruct (GitHubAPI._handle_rate_limit self r (log (EvPrint MsgRetrying) w1))
          as [[r'| |] w2] eqn:Hrun; cbn [fst snd] in Hh, Hhs, Ho.
        -- rewrite (bind_eq _ _ _ _ _ Hrun).
           destruct (IH page acc w2) as (j & fetched & Hj & Hrq & Hsc & Hans).
           cbn zeta in *. destruct (pages_loop pages' (sparams page) acc w2) as [o w3].
           cbn [fst snd] in *.
           exists (S j), (r :: fetched). rewrite Hrq, Hh, Hreq, Hs, <- Hhs, Hsc.
           cbn. rewrite <- app_assoc. cbn.
           split; [lia|]. do 2 (split; [done|]). destruct Hans as [<-|[<- ?]]; auto.
        -- rewrite (bind_Raise _ _ _ _ _ Hrun). exists 1%nat, [r].
           cbn [fst snd length take fmap list_fmap]. rewrite Hh, Hreq, Hs, Hhs. cbn.
           split_and!; auto with lia.
        -- destruct Ho as [|[|]]; congruence.
      * exists 1%nat, [r]. cbn [fst snd log trace script length take fmap list_fmap].
        rewrite requests_of_app, Hreq, Hs. cbn. rewrite app_nil_r. split_and!; auto with lia.
  - rewrite (search_pages_raise _ _ _ _ _ _ _ _ _ _ _ _ _ _ Hlt Hget).
    destruct w as [c [|r0 rest] tr]; [|done]. rewrite requests_get_nil in Hget.
    injection Hget as <- <-. exists 1%nat, [].
    cbn [fst snd trace script length take fmap list_fmap]. rewrite requests_of_app. cbn.
    split_and!; auto with lia.
  - exfalso. eapply (requests_get_fuel _ _ _ w). by rewrite Hget.
Qed.
End search_requests.

(** With nothing to serve, the first request fails and the failure escapes. *)
Lemma search_no_response {Item} self query sort order per_page max_repos delay c tr :
  GitHubAPI.search_repositories (Item:=Item) self query sort order per_page max_repos delay
    (Build_World c [] tr)
  = (Raise Py.TransportError,
     Build_World c [] (tr ++ [EvGet (search_request self query sort order per_page 1)])).
Proof.
  unfold GitHubAPI.search_repositories.
  by rewrite (bind_Raise _ _ _ _ _ (requests_get_nil _ _ _ _ _)).
Qed.

(** The pages the whole call asks for: 1, 2, ..., k. *)
Lemma search_requests_pages {Item}
    self query sort order per_page max_repos delay (w : World (SearchData Item)) :
  exists k fetched,
    1 <= k
    /\ requests_of (trace (snd (GitHubAPI.search_repositories
                                  self query sort order per_page max_repos delay w)))
       = requests_of (trace w)
         ++ (search_request self query sort order per_page <$> Py.range 1 (k + 1))
    /\ script w = fetched ++ script (snd (GitHubAPI.search_repositories
                                           self query sort order per_page max_repos delay w))
    /\ (Py.len fetched = k
        \/ Py.len fetched + 1 = k
           /\ fst (GitHubAPI.search_repositories
                     self query sort order per_page max_repos delay w)
              = Raise Py.TransportError).
Proof.
  destruct w as [c [|r rest] tr].
  { rewrite search_no_response. exists 1, [].
    cbn [fst snd trace script]. rewrite requests_of_app. cbn.
    split_and!; auto with lia. }
  destruct (ok r) eqn:Hok.
  - destruct (Py.ceil_div (Z.min (page_total r) max_repos) per_page) as [e|tp] eqn:Htp.
    { rewrite (search_first_raise _ _ _ _ _ _ _ _ _ _ _ _ Hok Htp).
      exists 1, [r]. cbn [fst snd trace script]. rewrite requests_of_app. cbn.
      split_and!; auto with lia. }
    rewrite (search_first_ok _ _ _ _ _ _ _ _ _ _ _ _ Hok Htp), bind_ret_snd.
      match goal with |- context [GitHubAPI.search_pages self max_repos delay ?ps
                                    (GitHubAPI.search_params _ _ _ _ ?p) ?a ?w] =>
        destruct (search_pages_requests self query sort order per_page max_repos delay
                    ps p a w) as (j & fetched & Hj & Hrq & Hsc & Hans);
        cbn zeta in *; cbn [script trace] in Hrq, Hsc;
        unfold bind at 1;
        destruct (GitHubAPI.search_pages self max_repos delay ps
                    (GitHubAPI.search_params query sort order per_page p) a w) as [o w3] end.
      cbn [fst snd] in *. rewrite range_length in Hj.
      exists (Z.of_nat j + 1), (r :: fetched). cbn [script trace].
      rewrite Hrq, Hsc, requests_of_app. cbn [requests_of omap app].
      replace (take j (Py.range 2 (tp + 1))) with (Py.range 2 (2 + Z.of_nat j))
        by (rewrite <- (range_take 2 (tp + 1) (Z.of_nat j)) by lia; by rewrite Nat2Z.id).
      rewrite (range_cons 1) by lia. cbn [fmap list_fmap]. rewrite <- app_assoc.
      replace (Z.of_nat j + 1 + 1) with (2 + Z.of_nat j) by lia.
      split; [lia|]. do 2 (split; [done|]). unfold Py.len. cbn [length].
      destruct Hans as [<-|[<- ->]]; [left; lia|right]. split; [lia|done].
  - unfold GitHubAPI.search_repositories.
    rewrite (bind_eq _ _ _ _ _ (requests_get_cons _ _ _ _ _ _ _)).
    unfold ok in Hok. rewrite Hok. cbn [negb].
    exists 1, [r]. split; [lia|].
    destruct (_ =? 403).
    + run.
      match goal with |- context [GitHubAPI._handle_rate_limit self r ?w] =>
        pose proof (handle_rate_limit_requests self r w) as Hh;
        pose proof (handle_rate_limit_script self r w) as Hhs;
        pose proof (handle_rate_limit_outcome self r w) as Ho;
        destruct (GitHubAPI._handle_rate_limit self r w) as [[r'| |] w2] end;
        cbn [fst snd trace script] in *; [| |destruct Ho as [|[|]]; congruence];
        rewrite Hh, Hhs, !requests_of_app; cbn; rewrite app_nil_r; auto.
    + run. cbn [fst snd trace script]. rewrite !requests_of_app. cbn.
      rewrite app_nil_r. auto.
Qed.

(** X4: [search_repositories] asks for the pages 1, 2, ..., k in this order,
    each exactly once, for some k >= 1: no page is asked for twice and none
    is skipped.  Every request is answered by the next response of the
    transport, except a last one on which the transport fails. *)
Theorem X4_search_requests_consecutive_pages {Item}
    self query sort order per_page max_repos delay (w : World (SearchData Item)) :
  exists k fetched,
    1 <= k
    /\ requests_of (trace (snd (GitHubAPI.search_repositories
                                  self query sort order per_page max_repos delay w)))
       = requests_of (trace w)
         ++ (search_request self query sort order per_page <$> Py.range 1 (k + 1))
    /\ script w = fetched ++ script (snd (GitHubAPI.search_repositories
                                           self query sort order per_page max_repos delay w))
    /\ (Py.len fetched = k
        \/ Py.len fetched + 1 = k
           /\ fst (GitHubAPI.search_repositories
                     self query sort order per_page max_repos delay w)
              = Raise Py.TransportError).
Proof. apply search_requests_pages. Qed.

Section list_commits_requests.
Context {Item : Type}.
Variables (self : GitHubAPI.t) (repo_owner repo_name : string) (per_page : Z).

Local Abbreviation loop :=
  (GitHubAPI.list_commits_loop (Item:=Item) self repo_owner repo_name per_page).
Local Abbreviation request := (commits_request self repo_owner repo_name per_page).
Local Abbreviation get page :=
  (requests_get (B:=list Item) (GitHubAPI.commits_url self repo_owner repo_name)
     (GitHubAPI.headers self) (Some (GitHubAPI.commits_params per_page page))).

(** The loop requests consecutive pages, starting with the page it is at. *)
Lemma list_commits_loop_requests fuel :
  forall page all_results (w : World (list Item)),
  let res := loop fuel page all_results w in
  exists (j : nat) fetched,
    requests_of (trace (snd res))
    = requests_of (trace w) ++ (request <$> Py.range page (page + Z.of_nat j))
    /\ script w = fetched ++ script (snd res)
    /\ (length fetched = j
        \/ S (length fetched) = j /\ fst res = Raise Py.TransportError)
    /\ (fuel <> 0%nat -> (1 <= j)%nat).
Proof.
  induction fuel as [|fuel IH]; intros page acc w res; subst res.
  { exists 0%nat, []. cbn. rewrite Z.add_0_r, range_nil by lia. cbn.
    rewrite app_nil_r. split_and!; auto with lia. }
  cbn [GitHubAPI.list_commits_loop].
  destruct (get page w) as [[r| |] w1] eqn:Hget.
  - rewrite (bind_eq _ _ _ _ _ Hget).
    apply requests_get_Ok in Hget as (Hs & _ & Htr).
    assert (requests_of (trace w1) = requests_of (trace w) ++ [request page]) as Hreq.
    { by rewrite Htr, requests_of_app. }
    assert (Py.range page (page + Z.of_nat 1) = [page]) as Hone.
    { rewrite range_cons, range_nil by lia. done. }
    pose proof (handle_rate_limit_requests self r w1) as Hh.
    pose proof (handle_rate_limit_script self r w1) as Hhs.
    pose proof (handle_rate_limit_outcome self r w1) as Ho.
    destruct (GitHubAPI._handle_rate_limit self r w1) as [[r'| |] w2] eqn:Hrun;
      cbn [fst snd] in Hh, Hhs, Ho; [| |destruct Ho as [|[|]]; congruence].
    + rewrite (bind_eq _ _ _ _ _ Hrun). destruct Ho as [[= ->]|[|]]; [|done..].
      destruct (_ =? 200).
      * destruct (_ <? _).
        -- exists 1%nat, [r]. cbn [fst snd length ret]. rewrite Hh, Hreq, Hs, Hhs, Hone.
           split_and!; auto with lia.
        -- destruct (IH (page + 1) (acc ++ Response.json r) w2)
             as (j & fetched & Hrq & Hsc & Hans & _).
           cbn zeta in *.
           destruct (loop fuel (page + 1) (acc ++ Response.json r) w2) as [o w3].
           cbn [fst snd] in *.
           exists (S j), (r :: fetched). rewrite Hrq, Hh, Hreq, Hs, <- Hhs, Hsc.
           rewrite (range_cons page) by lia.
           replace (page + Z.of_nat (S j)) with (page + 1 + Z.of_nat j) by lia.
           cbn. rewrite <- app_assoc. cbn.
           do 2 (split; [done|]). split; [|lia].
           destruct Hans as [<-|[<- ?]]; auto.
      * exists 1%nat, [r]. run. cbn [fst snd log trace script length].
        rewrite requests_of_app, Hh, Hreq, Hs, Hhs, Hone. cbn. rewrite app_nil_r.
        split_and!; auto with lia.
    + rewrite (bind_Raise _ _ _ _ _ Hrun). exists 1%nat, [r]. cbn [fst snd length].
      rewrite Hh, Hreq, Hs, Hhs, Hone. split_and!; auto with lia.
  - rewrite (bind_Raise _ _ _ _ _ Hget).
    destruct w as [c [|r0 rest] tr]; [|done]. rewrite requests_get_nil in Hget.
    injection Hget as <- <-. exists 1%nat, [].
    cbn [fst snd trace script length]. rewrite requests_of_app.
    rewrite range_cons, range_nil by lia. cbn. split_and!; auto with lia.
  - exfalso. eapply (requests_get_fuel _ _ _ w). by rewrite Hget.
Qed.
End list_commits_requests.

(** The pages the whole listing asks for: 1, 2, ..., k. *)
Lemma list_commits_requests_pages {Item}
    self repo_owner repo_name per_page (w : World (list Item)) :
  exists k fetched,
    1 <= k
    /\ requests_of (trace (snd (GitHubAPI.list_commits self repo_owner repo_name per_page w)))
       = requests_of (trace w)
         ++ (commits_request self repo_owner repo_name per_page <$> Py.range 1 (k + 1))
    /\ script w
       = fetched ++ script (snd (GitHubAPI.list_commits self repo_owner repo_name per_page w))
    /\ (Py.len fetched = k
        \/ Py.len fetched + 1 = k
           /\ fst (GitHubAPI.list_commits self repo_owner repo_name per_page w)
              = Raise Py.TransportError).
Proof.
  unfold GitHubAPI.list_commits.
  destruct (list_commits_loop_requests self repo_owner repo_name per_page
              (S (length (script w))) 1 [] w) as (j & fetched & Hrq & Hsc & Hans & Hj).
  cbn zeta in *.
  destruct (GitHubAPI.list_commits_loop self repo_owner repo_name per_page
              (S (length (script w))) 1 [] w) as [o w3].
  cbn [fst snd] in *. specialize (Hj ltac:(done)).
  exists (Z.of_nat j), fetched. rewrite Hrq, (Z.add_comm _ 1).
  split; [lia|]. do 2 (split; [done|]). unfold Py.len.
  destruct Hans as [<-|[<- ->]]; [by left|right]. split; [lia|done].
Qed.

(** X5: [list_commits] asks for the pages 1, 2, ..., k in this order, each
    exactly once, for some k >= 1, and every request but a failing last one
    is answered by the next response of the transport. *)
Theorem X5_list_commits_requests_consecutive_pages {Item}
    self repo_owner repo_name per_page (w : World (list Item)) :
  exists k fetched,
    1 <= k
    /\ requests_of (trace (snd (GitHubAPI.list_commits self repo_owner repo_name per_page w)))
       = requests_of (trace w)
         ++ (commits_request self repo_owner repo_name per_page <$> Py.range 1 (k + 1))
    /\ script w
       = fetched ++ script (snd (GitHubAPI.list_commits self repo_owner repo_name per_page w))
    /\ (Py.len fetched = k
        \/ Py.len fetched + 1 = k
           /\ fst (GitHubAPI.list_commits self repo_owner repo_name per_page w)
              = Raise Py.TransportError).
Proof. apply list_commits_requests_pages. Qed.

(** ** get_content as a whole *)

Lemma get_content_no_response {Item} self repo_owner repo_name path c tr :
  GitHubAPI.get_content (Item:=Item) self repo_owner repo_name path (Build_World c [] tr)
  = (Raise Py.TransportError,
     Build_World c [] (tr ++ [EvGet (contents_request self repo_owner repo_name path)])).
Proof.
  unfold GitHubAPI.get_content.
  by rewrite (bind_Raise _ _ _ _ _ (requests_get_nil _ _ _ _ _)).
Qed.

(** All that one call of [get_content] does. *)
Lemma get_content_frame {Item}
    self repo_owner repo_name path (w : World Item) :
  requests_of (trace (snd (GitHubAPI.get_content self repo_owner repo_name path w)))
  = requests_of (trace w) ++ [contents_request self repo_owner repo_name path]
  /\ script (snd (GitHubAPI.get_content self repo_owner repo_name path w)) = tail (script w)
  /\ (length (sleeps_of (trace (snd (GitHubAPI.get_content self repo_owner repo_name path w))))
      <= S (length (sleeps_of (trace w))))%nat
  /\ (forall item,
        fst (GitHubAPI.get_content self repo_owner repo_name path w) = Ok (Some item)
        <-> exists r rest, script w = r :: rest /\ ok r = true /\ item = Response.json r).
Proof.
  destruct w as [c [|r rest] tr].
  { rewrite get_content_no_response. cbn [fst snd trace script tail].
    rewrite requests_of_app, sleeps_of_app. cbn. rewrite app_nil_r.
    split_and!; auto with lia. intros item. split; [done|]. by intros (? & ? & ? & _). }
  destruct (ok r) eqn:Hok.
  - rewrite get_content_ok by done. cbn [fst snd trace script tail].
    rewrite requests_of_app, sleeps_of_app. cbn. rewrite app_nil_r.
    split_and!; auto with lia. intros item. split.
    + intros [= <-]. by exists r, rest.
    + by intros (? & ? & [= <- <-] & _ & ->).
  - destruct (get_content_not_ok self repo_owner repo_name path c r rest tr Hok)
      as (Ho & Hs & Hrq & Hsl).
    cbn zeta in *. cbn [script trace tail]. split_and!; try done.
    intros item. split.
    + intros E. rewrite E in Ho. by destruct Ho as [|[e ?]].
    + intros (? & ? & [= <- <-] & Hok' & _). congruence.
Qed.

(** X6: [get_content] makes one request and no more, whatever happens: it
    takes at most one response from the transport and waits at most once.
    It returns a record exactly when that response has status 200, and the
    record is the decoded body, unchanged. *)
Theorem X6_get_content_single_request {Item}
    self repo_owner repo_name path (w : World Item) :
  requests_of (trace (snd (GitHubAPI.get_content self repo_owner repo_name path w)))
  = requests_of (trace w) ++ [contents_request self repo_owner repo_name path]
  /\ script (snd (GitHubAPI.get_content self repo_owner repo_name path w)) = tail (script w)
  /\ (length (sleeps_of (trace (snd (GitHubAPI.get_content self repo_owner repo_name path w))))
      <= S (length (sleeps_of (trace w))))%nat
  /\ (forall item,
        fst (GitHubAPI.get_content self repo_owner repo_name path w) = Ok (Some item)
        <-> exists r rest, script w = r :: rest /\ ok r = true /\ item = Response.json r).
Proof. apply get_content_frame. Qed.

(** ** What is sent *)

Lemma init_headers token :
  GitHubAPI.headers (GitHubAPI.init token) !! "Authorization" = Some ("Bearer " +:+ token)
  /\ GitHubAPI.headers (GitHubAPI.init token) !! "Accept"
     = Some "application/vnd.github+json".
Proof.
  unfold GitHubAPI.init. cbn [GitHubAPI.headers]. split.
  - apply lookup_insert_eq.
  - rewrite lookup_insert_ne by done. apply lookup_insert_eq.
Qed.

Lemma new_requests_app {B} (w w' : World B) l :
  requests_of (trace w') = requests_of (trace w) ++ l -> new_requests w w' = l.
Proof. unfold new_requests. intros ->. by rewrite drop_app_length. Qed.

(** X7: every request a client built by [__init__] from [token] issues
    carries the bearer token and the JSON accept header.  The requests of
    [search_repositories] go to the search endpoint with the query, the
    sort key, the order and the page size it was called with; those of
    [list_commits] to the commits endpoint of the repository with the page
    size; the one of [get_content] to the contents endpoint of the path,
    without query parameters. *)
Theorem X7_requests_carry_token_and_parameters {Item} token :
  (forall query sort order per_page max_repos delay (w : World (SearchData Item)),
     Forall (fun rq =>
               carries_token token rq
               /\ url rq = "https://api.github.com/search/repositories"
               /\ exists p, params rq = Some p
                            /\ p !! "q" = Some (PStr query)
                            /\ p !! "sort" = Some (PStr sort)
                            /\ p !! "order" = Some (PStr order)
                            /\ p !! "per_page" = Some (PInt per_page))
       (new_requests w
          (snd (GitHubAPI.search_repositories (GitHubAPI.init token)
                  query sort order per_page max_repos delay w))))
  /\ (forall repo_owner repo_name per_page (w : World (list Item)),
        Forall (fun rq =>
                  carries_token token rq
                  /\ url rq = "https://api.github.com/repos/" +:+ repo_owner +:+ "/"
                                +:+ repo_name +:+ "/commits"
                  /\ exists p, params rq = Some p
                               /\ p !! "per_page" = Some (PInt per_page))
          (new_requests w
             (snd (GitHubAPI.list_commits (GitHubAPI.init token)
                     repo_owner repo_name per_page w))))
  /\ (forall repo_owner repo_name path (w : World Item),
        Forall (fun rq =>
                  carries_token token rq
                  /\ url rq = "https://api.github.com/repos/" +:+ repo_owner +:+ "/"
                                +:+ repo_name +:+ "/contents/" +:+ path
                  /\ params rq = None)
          (new_requests w
             (snd (GitHubAPI.get_content (GitHubAPI.init token)
                     repo_owner repo_name path w)))).
Proof.
  split; [|split].
  - intros query sort order per_page max_repos delay w.
    destruct (search_requests_pages (GitHubAPI.init token)
                query sort order per_page max_repos delay w) as (k & _ & _ & Hrq & _).
    rewrite (new_requests_app _ _ _ Hrq). apply Forall_fmap, Forall_forall.
    intros page _. cbn. split; [apply init_headers|]. split; [done|].
    eexists. split; [done|]. unfold GitHubAPI.search_params.
    split_and!.
    + apply lookup_insert_eq.
    + rewrite lookup_insert_ne by done. apply lookup_insert_eq.
    + rewrite !lookup_insert_ne by done. apply lookup_insert_eq.
    + rewrite !lookup_insert_ne by done. apply lookup_insert_eq.
  - intros repo_owner repo_name per_page w.
    destruct (list_commits_requests_pages (GitHubAPI.init token)
                repo_owner repo_name per_page w) as (k & _ & _ & Hrq & _).
    rewrite (new_requests_app _ _ _ Hrq). apply Forall_fmap, Forall_forall.
    intros page _. cbn. split; [apply init_headers|]. split; [done|].
    eexists. split; [done|]. apply lookup_insert_eq.
  - intros repo_owner repo_name path w.
    destruct (get_content_frame (GitHubAPI.init token)
                repo_owner repo_name path w) as (Hrq & _).
    rewrite (new_requests_app _ _ _ Hrq). repeat constructor; apply init_headers.
Qed.

(** ** Edge cases of search_repositories *)

(** A 403 on the first page: the handler decides between [[]] and an
    exception. *)
Lemma search_first_forbidden {Item} self query sort order per_page max_repos delay
    (first : Response.t (SearchData Item)) rest c tr :
  Response.status_code first = 403 ->
  GitHubAPI.search_repositories self query sort order per_page max_repos delay
    (Build_World c (first :: rest) tr)
  = match GitHubAPI._handle_rate_limit self first
            (Build_World c rest
               (tr ++ [EvGet (search_request self query sort order per_page 1);
                       EvPrint MsgRetrying])) with
    | (Ok _, w') => (Ok [], w')
    | (Raise e, w') => (Raise e, w')
    | (OutOfFuel, w') => (OutOfFuel, w')
    end.
Proof.
  intros Hst. unfold GitHubAPI.search_repositories.
  rewrite (bind_eq _ _ _ _ _ (requests_get_cons _ _ _ _ _ _ _)).
  rewrite Hst. cbn [Z.eqb Pos.eqb negb]. run. cbn [clock script trace].
  rewrite <- app_assoc. cbn [app].
  by destruct (GitHubAPI._handle_rate_limit _ _ _) as [[r'| |] w2].
Qed.

Lemma search_first_forbidden_script {Item} self query sort order per_page max_repos delay
    (first : Response.t (SearchData Item)) rest c tr :
  Response.status_code first = 403 ->
  script (snd (GitHubAPI.search_repositories self query sort order per_page max_repos delay
                 (Build_World c (first :: rest) tr))) = rest.
Proof.
  intros Hst. rewrite search_first_forbidden by done.
  match goal with |- context [GitHubAPI._handle_rate_limit self first ?w1] =>
    pose proof (handle_rate_limit_script self first w1) as Hsc;
    by destruct (GitHubAPI._handle_rate_limit self first w1) as [[r'| |] w2] end.
Qed.

(** X8: a 403 on the first page ends [search_repositories] after that one
    request: the handler is run, nothing is retried, the responses after it
    stay unserved, and the result is the empty list, unless the handler
    raises.  Without remaining-quota header nothing is waited for; when
    throttled with an announced reset epoch not more than a second in the
    past and a wait [time.sleep] takes, the wait is slept through first. *)
Theorem X8_search_first_page_forbidden {Item}
    self query sort order per_page max_repos delay
    (first : Response.t (SearchData Item)) rest c tr :
  Response.status_code first = 403 ->
  let w := Build_World c (first :: rest) tr in
  let res := GitHubAPI.search_repositories self query sort order per_page max_repos delay w in
  let get := EvGet (search_request self query sort order per_page 1) in
  script (snd res) = rest
  /\ requests_of (trace (snd res)) = requests_of tr ++ [search_request self query sort order per_page 1]
  /\ (fst res = Ok [] \/ exists e, fst res = Raise e)
  /\ (Response.get_header first "X-RateLimit-Remaining" = None ->
      res = (Ok [], Build_World c rest (tr ++ [get; EvPrint MsgRetrying])))
  /\ (forall reset,
        throttled first = true -> announced_reset first = Some reset ->
        0 <= reset - now w + 1 <= Py.sleep_safe ->
        res = (Ok [], Build_World (c + Qc_of_Z (reset - now w + 1))%Qc rest
                        (tr ++ [get; EvPrint MsgRetrying;
                                EvPrint (MsgWaiting (reset - now w));
                                EvSleep (Qc_of_Z (reset - now w + 1))]))).
Proof.
  intros Hst w res get. subst w res get.
  rewrite search_first_forbidden by done.
  set (w1 := Build_World c rest _).
  pose proof (handle_rate_limit_script self first w1) as Hsc.
  pose proof (handle_rate_limit_requests self first w1) as Hrq.
  pose proof (handle_rate_limit_outcome self first w1) as Ho.
  split_and!.
  - by destruct (GitHubAPI._handle_rate_limit self first w1) as [[r'| |] w2].
  - destruct (GitHubAPI._handle_rate_limit self first w1) as [[r'| |] w2];
      cbn [snd] in *; rewrite Hrq; subst w1; cbn [trace];
      rewrite requests_of_app; cbn; by rewrite ?app_nil_r.
  - destruct (GitHubAPI._handle_rate_limit self first w1) as [[r'| |] w2];
      cbn [fst] in *; destruct Ho as [Ho|[Ho|Ho]]; try discriminate; eauto.
  - intros Hnone. by rewrite handle_rate_limit_skip by auto.
  - intros reset Hth Hreset Hnow.
    assert (0 <= reset - now w1 + 1 <= 9223372036) as Hwait.
    { change (now w1) with (now (Build_World c (first :: rest) tr)).
      unfold Py.sleep_safe in Hnow. lia. }
    rewrite (handle_rate_limit_wait self first w1 reset Hth
               (announced_reset_epoch _ _ _ Hreset) Hwait).
    subst w1. cbn [clock script trace]. by rewrite <- app_assoc.
Qed.

Lemma X8_witness :
  GitHubAPI.search_repositories Sample.api "q" "stars" "desc" 10 100 1%Qc
    (Sample.start [Sample.failure 403 Sample.no_data; Sample.search_page 3 ["a"]])
  = (Ok [],
     Build_World (Qc_of_Z 1000) [Sample.search_page 3 ["a"]]
       [EvGet (search_request Sample.api "q" "stars" "desc" 10 1); EvPrint MsgRetrying]).
Proof.
  apply (proj1 (proj2 (proj2 (proj2
           (X8_search_first_page_forbidden Sample.api "q" "stars" "desc" 10 100 1%Qc
              (Sample.failure 403 Sample.no_data) [Sample.search_page 3 ["a"]]
              (Qc_of_Z 1000) [] eq_refl))))).
  reflexivity.
Defined.

(** X9: with [max_repos <= 0], [search_repositories] still makes its first
    request, and, once the number of pages has been computed, only that
    one.  With [max_repos = 0] the result is empty; with a negative
    [max_repos] the slice drops the last [-max_repos] items of the first
    page instead of bounding the result. *)
Theorem X9_search_non_positive_max_repos {Item}
    self query sort order per_page max_repos delay
    (first : Response.t (SearchData Item)) rest c tr total_pages :
  max_repos <= 0 ->
  ok first = true ->
  Py.ceil_div (Z.min (page_total first) max_repos) per_page = inr total_pages ->
  GitHubAPI.search_repositories self query sort order per_page max_repos delay
    (Build_World c (first :: rest) tr)
  = (Ok (Py.slice_to (page_items first) max_repos),
     Build_World c rest (tr ++ [EvGet (search_request self query sort order per_page 1)]))
  /\ (max_repos = 0 -> Py.slice_to (page_items first) max_repos = [])
  /\ (max_repos < 0 ->
      Py.slice_to (page_items first) max_repos
      = take (length (page_items first) - Z.to_nat (- max_repos)) (page_items first)).
Proof.
  intros Hmax Hfirst Htp. split_and!.
  - rewrite (search_first_ok _ _ _ _ _ _ _ _ _ _ _ _ Hfirst Htp). unfold bind.
    rewrite search_pages_cap; [done|]. pose proof (len_nonneg (page_items first)). lia.
  - by intros ->.
  - intros Hneg. unfold Py.slice_to.
    by replace (0 <=? max_repos) with false by (symmetry; apply Z.leb_gt; lia).
Qed.

Lemma X9_witness :
  GitHubAPI.search_repositories Sample.api "q" "stars" "desc" 10 (-1) 1%Qc
    (Sample.start [Sample.search_page 3 ["a"; "b"; "c"]; Sample.search_page 3 ["d"]])
  = (Ok ["a"; "b"],
     Build_World (Qc_of_Z 1000) [Sample.search_page 3 ["d"]]
       [EvGet (search_request Sample.api "q" "stars" "desc" 10 1)]).
Proof.
  apply (proj1 (X9_search_non_positive_max_repos Sample.api "q" "stars" "desc" 10 (-1) 1%Qc
                  (Sample.search_page 3 ["a"; "b"; "c"]) [Sample.search_page 3 ["d"]]
                  (Qc_of_Z 1000) [] 0 ltac:(lia) eq_refl ltac:(vm_compute; reflexivity))).
Defined.

(** X10: a failure of the transport is not caught, and what was fetched
    before is lost with it.  When the transport has nothing left to serve
    while [search_repositories] still has a page to fetch ([total_pages]
    being the number of pages it computed, and [delay] a length
    [time.sleep] takes), or after any number of full pages of
    [list_commits], the call ends with the transport's exception instead
    of the items aggregated so far. *)
Theorem X10_transport_failure_discards_partial_result {Item}
    self query sort order per_page max_repos delay
    (first : Response.t (SearchData Item)) oks c tr total_pages
    repo_owner repo_name commits_per_page
    (fulls : list (Response.t (list Item))) c' tr' :
  ok first = true ->
  Py.ceil_div (Z.min (page_total first) max_repos) per_page = inr total_pages ->
  Forall (fun r => ok r = true) oks ->
  Py.len oks + 2 <= total_pages ->
  Py.len (page_items first ++ concat (page_items <$> oks)) < max_repos ->
  (0 <= delay)%Qc -> (delay <= Qc_of_Z Py.sleep_safe)%Qc ->
  Forall (fun r => full_page commits_per_page r = true) fulls ->
  GitHubAPI.search_repositories self query sort order per_page max_repos delay
    (Build_World c (first :: oks) tr)
  = (Raise Py.TransportError,
     Build_World (Nat.iter (length oks) (fun t => (t + delay)%Qc) c) []
       (tr ++ [EvGet (search_request self query sort order per_page 1)]
           ++ fetch_trace self query sort order per_page delay (Py.range 2 (Py.len oks + 2))
           ++ [EvGet (search_request self query sort order per_page (Py.len oks + 2))]))
  /\ GitHubAPI.list_commits self repo_owner repo_name commits_per_page
       (Build_World c' fulls tr')
     = (Raise Py.TransportError,
        Build_World c' []
          (tr' ++ (EvGet ∘ commits_request self repo_owner repo_name commits_per_page
                     <$> Py.range 1 (Py.len fulls + 2)))).
Proof.
  intros Hfirst Htp Hoks Hpages Hcap Hdelay Hsafe Hfulls. split.
  - rewrite (search_first_ok _ _ _ _ _ _ _ _ _ _ _ _ Hfirst Htp).
    destruct (search_pages_oks_range self query sort order per_page max_repos delay oks
                2 (total_pages + 1) 1 (page_items first) c []
                (tr ++ [EvGet (search_request self query sort order per_page 1)]))
      as [p' Hrun]; [done|lia|by apply sleep_check_safe| |].
    { intros _. revert Hcap. rewrite !len_app.
      pose proof (len_items_removelast oks). lia. }
    rewrite (range_cons (2 + Py.len oks)) in Hrun by lia.
    rewrite app_nil_r in Hrun. unfold bind at 1. rewrite Hrun.
    erewrite search_pages_raise; [|done|apply requests_get_nil].
    rewrite (Z.add_comm 2). by rewrite <- !app_assoc.
  - unfold GitHubAPI.list_commits. cbn [script].
    rewrite <- (app_nil_r fulls) at 2. rewrite <- (Nat.add_1_r (length fulls)).
    rewrite list_commits_loop_fulls by done.
    cbn [GitHubAPI.list_commits_loop].
    rewrite (bind_Raise _ _ _ _ _ (requests_get_nil _ _ _ _ _)).
    replace (Py.len fulls + 2) with (1 + Py.len fulls + 1) by lia.
    rewrite range_snoc by (unfold Py.len; lia).
    by rewrite fmap_app, <- !app_assoc.
Qed.

Lemma X10_witness :
  GitHubAPI.search_repositories Sample.api "q" "stars" "desc" 2 10 1%Qc
    (Sample.start [Sample.search_page 6 ["a"; "b"]; Sample.search_page 6 ["c"; "d"]])
  = (Raise Py.TransportError,
     Build_World (Qc_of_Z 1000 + 1)%Qc []
       [EvGet (search_request Sample.api "q" "stars" "desc" 2 1);
        EvGet (search_request Sample.api "q" "stars" "desc" 2 2);
        EvSleep 1%Qc;
        EvGet (search_request Sample.api "q" "stars" "desc" 2 3)])
  /\ GitHubAPI.list_commits Sample.api "octocat" "hello-world" 2
       (Sample.start [Sample.commits_page ["c1"; "c2"]])
     = (Raise Py.TransportError,
        Build_World (Qc_of_Z 1000) []
          [EvGet (commits_request Sample.api "octocat" "hello-world" 2 1);
           EvGet (commits_request Sample.api "octocat" "hello-world" 2 2)]).
Proof.
  apply (X10_transport_failure_discards_partial_result
           Sample.api "q" "stars" "desc" 2 10 1%Qc
           (Sample.search_page 6 ["a"; "b"]) [Sample.search_page 6 ["c"; "d"]]
           (Qc_of_Z 1000) [] 3
           "octocat" "hello-world" 2 [Sample.commits_page ["c1"; "c2"]] (Qc_of_Z 1000) []).
  - reflexivity.
  - vm_compute. reflexivity.
  - by repeat constructor.
  - by vm_compute.
  - by vm_compute.
  - by vm_compute.
  - by vm_compute.
  - by repeat constructor.
Defined.

Lemma time_sleep_negative {B} d (w : World B) :
  (- Qc_of_Z Py.sleep_safe <= d)%Qc -> (d < 0)%Qc ->
  time_sleep d w = (Raise Py.ValueError, w).
Proof. intros Hs Hd. apply time_sleep_raise. by apply sleep_check_negative. Qed.

(** X11: a negative [delay] (not beyond the lengths [time.sleep] converts)
    goes unnoticed as long as one page is planned, and makes
    [search_repositories] raise [ValueError] as soon as a second page has
    been fetched with success: that page is taken from the transport and
    lost together with the first. *)
Theorem X11_search_negative_delay {Item}
    self query sort order per_page max_repos delay
    (first second : Response.t (SearchData Item)) rest c tr total_pages :
  (- Qc_of_Z Py.sleep_safe <= delay)%Qc -> (delay < 0)%Qc ->
  ok first = true ->
  Py.ceil_div (Z.min (page_total first) max_repos) per_page = inr total_pages ->
  (total_pages <= 1 ->
   GitHubAPI.search_repositories self query sort order per_page max_repos delay
     (Build_World c (first :: rest) tr)
   = (Ok (Py.slice_to (page_items first) max_repos),
      Build_World c rest (tr ++ [EvGet (search_request self query sort order per_page 1)])))
  /\ (2 <= total_pages -> Py.len (page_items first) < max_repos -> ok second = true ->
      GitHubAPI.search_repositories self query sort order per_page max_repos delay
        (Build_World c (first :: second :: rest) tr)
      = (Raise Py.ValueError,
         Build_World c rest
           (tr ++ [EvGet (search_request self query sort order per_page 1);
                   EvGet (search_request self query sort order per_page 2)]))).
Proof.
  intros Hsafe Hdelay Hfirst Htp. split.
  - intros Hone. rewrite (search_first_ok _ _ _ _ _ _ _ _ _ _ _ _ Hfirst Htp).
    by rewrite range_nil by lia.
  - intros Htwo Hcap Hsecond.
    rewrite (search_first_ok _ _ _ _ _ _ _ _ _ _ _ _ Hfirst Htp).
    rewrite (range_cons 2) by lia. unfold bind at 1.
    erewrite search_pages_step; [|done|apply requests_get_cons].
    rewrite Hsecond, (bind_Raise _ _ _ _ _ (time_sleep_negative _ _ Hsafe Hdelay)).
    by rewrite <- app_assoc.
Qed.

Lemma X11_witness :
  GitHubAPI.search_repositories Sample.api "q" "stars" "desc" 2 10 (-1)%Qc
    (Sample.start [Sample.search_page 4 ["a"; "b"]; Sample.search_page 4 ["c"; "d"]])
  = (Raise Py.ValueError,
     Build_World (Qc_of_Z 1000) []
       [EvGet (search_request Sample.api "q" "stars" "desc" 2 1);
        EvGet (search_request Sample.api "q" "stars" "desc" 2 2)]).
Proof.
  apply (proj2 (X11_search_negative_delay Sample.api "q" "stars" "desc" 2 10 (-1)%Qc
                  (Sample.search_page 4 ["a"; "b"]) (Sample.search_page 4 ["c"; "d"]) []
                  (Qc_of_Z 1000) [] 2 ltac:(by vm_compute) ltac:(by vm_compute) eq_refl
                  ltac:(vm_compute; reflexivity))).
  - lia.
  - by vm_compute.
  - reflexivity.
Defined.

(** ** Edge cases of list_commits *)

(** X12: with [per_page <= 0] no page is short, so [list_commits] never
    ends on a page: on successful responses only, even empty ones, it goes
    on until the transport fails. *)
Theorem X12_list_commits_non_positive_page_size_never_ends {Item}
    self repo_owner repo_name per_page (pages : list (Response.t (list Item))) c tr :
  per_page <= 0 ->
  Forall (fun r => ok r = true) pages ->
  GitHubAPI.list_commits self repo_owner repo_name per_page (Build_World c pages tr)
  = (Raise Py.TransportError,
     Build_World c []
       (tr ++ (EvGet ∘ commits_request self repo_owner repo_name per_page
                 <$> Py.range 1 (Py.len pages + 2)))).
Proof.
  intros Hpp Hok.
  assert (Forall (fun r => full_page per_page r = true) pages) as Hfull.
  { eapply List.Forall_impl; [|exact Hok]. intros r Hr. unfold full_page. rewrite Hr.
    apply Z.leb_le. pose proof (len_nonneg (Response.json r)). lia. }
  unfold GitHubAPI.list_commits. cbn [script].
  rewrite <- (app_nil_r pages) at 2. rewrite <- (Nat.add_1_r (length pages)).
  rewrite list_commits_loop_fulls by done.
  cbn [GitHubAPI.list_commits_loop].
  rewrite (bind_Raise _ _ _ _ _ (requests_get_nil _ _ _ _ _)).
  replace (Py.len pages + 2) with (1 + Py.len pages + 1) by lia.
  rewrite range_snoc by (unfold Py.len; lia).
  by rewrite fmap_app, <- !app_assoc.
Qed.

Lemma X12_witness :
  GitHubAPI.list_commits Sample.api "octocat" "hello-world" 0
    (Sample.start [Sample.commits_page ["c1"]; Sample.commits_page []])
  = (Raise Py.TransportError,
     Build_World (Qc_of_Z 1000) []
       [EvGet (commits_request Sample.api "octocat" "hello-world" 0 1);
        EvGet (commits_request Sample.api "octocat" "hello-world" 0 2);
        EvGet (commits_request Sample.api "octocat" "hello-world" 0 3)]).
Proof.
  apply (X12_list_commits_non_positive_page_size_never_ends
           Sample.api "octocat" "hello-world" 0
           [Sample.commits_page ["c1"]; Sample.commits_page []] (Qc_of_Z 1000) []).
  - lia.
  - by repeat constructor.
Defined.

(** X13: in [list_commits] a rate-limited page ends the listing once the
    wait is over: after the full pages [fulls], a throttled 403 announcing
    a reset epoch not more than a second in the past, with a wait
    [time.sleep] takes, is waited for, then reported as an error, and the
    items of [fulls] are returned; what the transport would serve next
    stays unserved. *)
Theorem X13_list_commits_ends_after_rate_limit_wait {Item}
    self repo_owner repo_name per_page
    (fulls : list (Response.t (list Item))) limited rest c tr reset :
  Forall (fun r => full_page per_page r = true) fulls ->
  throttled limited = true ->
  announced_reset limited = Some reset ->
  0 <= reset - Py.int_of_float c + 1 <= Py.sleep_safe ->
  GitHubAPI.list_commits self repo_owner repo_name per_page
    (Build_World c (fulls ++ limited :: rest) tr)
  = (Ok (concat (Response.json <$> fulls)),
     Build_World (c + Qc_of_Z (reset - Py.int_of_float c + 1))%Qc rest
       (tr ++ (EvGet ∘ commits_request self repo_owner repo_name per_page
                 <$> Py.range 1 (Py.len fulls + 2))
           ++ [EvPrint (MsgWaiting (reset - Py.int_of_float c));
               EvSleep (Qc_of_Z (reset - Py.int_of_float c + 1));
               EvPrint (MsgError 403 (Response.text limited))])).
Proof.
  intros Hfulls Hth Hreset Hnow.
  assert (Response.status_code limited = 403) as Hst.
  { unfold throttled in Hth. apply andb_true_iff in Hth as [Hst _]. by apply Z.eqb_eq. }
  unfold GitHubAPI.list_commits. cbn [script].
  rewrite length_app. cbn [length]. rewrite <- Nat.add_succ_r.
  rewrite list_commits_loop_fulls by done.
  cbn [GitHubAPI.list_commits_loop].
  rewrite (bind_eq _ _ _ _ _ (requests_get_cons _ _ _ _ _ _ _)).
  match goal with |- context [bind (GitHubAPI._handle_rate_limit self limited) _ ?w1] =>
    assert (0 <= reset - now w1 + 1 <= 9223372036) as Hwait
      by (unfold now, Py.sleep_safe in *; cbn [clock]; lia);
    rewrite (bind_eq _ _ _ _ _ (handle_rate_limit_wait self limited w1 reset Hth
                                  (announced_reset_epoch _ _ _ Hreset) Hwait))
  end.
  rewrite Hst. cbn [Z.eqb Pos.eqb]. run. unfold now. cbn [clock script trace].
  rewrite app_nil_l.
  replace (Py.len fulls + 2) with (1 + Py.len fulls + 1) by lia.
  rewrite range_snoc by (unfold Py.len; lia).
  by rewrite fmap_app, <- !app_assoc.
Qed.

Lemma X13_witness :
  GitHubAPI.list_commits Sample.api "octocat" "hello-world" 2
    (Sample.start [Sample.commits_page ["c1"; "c2"]; Sample.rate_limited "1002" [];
                   Sample.commits_page ["c3"]])
  = (Ok ["c1"; "c2"],
     Build_World (Qc_of_Z 1000 + Qc_of_Z 3)%Qc [Sample.commits_page ["c3"]]
       [EvGet (commits_request Sample.api "octocat" "hello-world" 2 1);
        EvGet (commits_request Sample.api "octocat" "hello-world" 2 2);
        EvPrint (MsgWaiting 2); EvSleep (Qc_of_Z 3);
        EvPrint (MsgError 403 "API rate limit exceeded")]).
Proof.
  apply (X13_list_commits_ends_after_rate_limit_wait
           Sample.api "octocat" "hello-world" 2
           [Sample.commits_page ["c1"; "c2"]] (Sample.rate_limited "1002" [])
           [Sample.commits_page ["c3"]] (Qc_of_Z 1000) [] 1002).
  - by repeat constructor.
  - reflexivity.
  - reflexivity.
  - by vm_compute.
Defined.

(** X14: in [search_repositories] a 403 on a later page is neither retried
    nor reported to the caller: after the first page and the successful
    pages [oks], the 403 is handed to the handler and the loop goes on with
    the next page of the range, keeping the items it had.  Without
    remaining-quota header this happens at once; when throttled with an
    announced reset epoch not more than a second in the past and a wait
    [time.sleep] takes, after the wait.  ([total_pages] is the number of
    pages the call computed, [delay] a length [time.sleep] takes.) *)
Theorem X14_search_forbidden_page_is_skipped {Item}
    self query sort order per_page max_repos delay
    (first : Response.t (SearchData Item)) oks forbidden rest c tr total_pages :
  ok first = true ->
  Py.ceil_div (Z.min (page_total first) max_repos) per_page = inr total_pages ->
  Forall (fun r => ok r = true) oks ->
  Py.len oks + 2 <= total_pages ->
  Py.len (page_items first ++ concat (page_items <$> oks)) < max_repos ->
  (0 <= delay)%Qc -> (delay <= Qc_of_Z Py.sleep_safe)%Qc ->
  Response.status_code forbidden = 403 ->
  let c' := Nat.iter (length oks) (fun t => (t + delay)%Qc) c in
  let tr' :=
    tr ++ [EvGet (search_request self query sort order per_page 1)]
       ++ fetch_trace self query sort order per_page delay (Py.range 2 (Py.len oks + 2))
       ++ [EvGet (search_request self query sort order per_page (Py.len oks + 2));
           EvPrint MsgRetrying] in
  let continue w :=
    (all_results <-
       GitHubAPI.search_pages self max_repos delay
         (Py.range (Py.len oks + 3) (total_pages + 1))
         (GitHubAPI.search_params query sort order per_page (Py.len oks + 2))
         (page_items first ++ concat (page_items <$> oks)) ;;
     ret (Py.slice_to all_results max_repos))%py w in
  (Response.get_header forbidden "X-RateLimit-Remaining" = None ->
   GitHubAPI.search_repositories self query sort order per_page max_repos delay
     (Build_World c (first :: oks ++ forbidden :: rest) tr)
   = continue (Build_World c' rest tr'))
  /\ (forall reset,
        throttled forbidden = true ->
        announced_reset forbidden = Some reset ->
        0 <= reset - Py.int_of_float c' + 1 <= Py.sleep_safe ->
        GitHubAPI.search_repositories self query sort order per_page max_repos delay
          (Build_World c (first :: oks ++ forbidden :: rest) tr)
        = continue (Build_World (c' + Qc_of_Z (reset - Py.int_of_float c' + 1))%Qc rest
                      (tr' ++ [EvPrint (MsgWaiting (reset - Py.int_of_float c'));
                               EvSleep (Qc_of_Z (reset - Py.int_of_float c' + 1))]))).
Proof.
  intros Hfirst Htp Hoks Hpages Hcap Hdelay Hsafe Hst c' tr' continue.
  assert (GitHubAPI.search_repositories self query sort order per_page max_repos delay
            (Build_World c (first :: oks ++ forbidden :: rest) tr)
          = (all_results <-
               (GitHubAPI._handle_rate_limit self forbidden ;;;
                GitHubAPI.search_pages self max_repos delay
                  (Py.range (Py.len oks + 3) (total_pages + 1))
                  (GitHubAPI.search_params query sort order per_page (Py.len oks + 2))
                  (page_items first ++ concat (page_items <$> oks))) ;;
             ret (Py.slice_to all_results max_repos))%py (Build_World c' rest tr')) as ->.
  { rewrite (search_first_ok _ _ _ _ _ _ _ _ _ _ _ _ Hfirst Htp).
    destruct (search_pages_oks_range self query sort order per_page max_repos delay oks
                2 (total_pages + 1) 1 (page_items first) c (forbidden :: rest)
                (tr ++ [EvGet (search_request self query sort order per_page 1)]))
      as [p' Hrun]; [done|lia|by apply sleep_check_safe| |].
    { intros _. revert Hcap. rewrite !len_app.
      pose proof (len_items_removelast oks). lia. }
    rewrite (range_cons (2 + Py.len oks)) in Hrun by lia.
    unfold bind at 1. rewrite Hrun.
    erewrite search_pages_step; [|done|apply requests_get_cons].
    unfold ok. rewrite Hst. cbn [Z.eqb Pos.eqb].
    rewrite (bind_eq _ _ _ _ _ (eq_refl : print MsgRetrying _ = (Ok tt, _))).
    unfold bind at 2. subst c' tr'. unfold log. cbn [clock script trace].
    replace (2 + Py.len oks + 1) with (Py.len oks + 3) by lia.
    rewrite (Z.add_comm 2). by rewrite <- !app_assoc. }
  split.
  - intros Hnone. unfold bind at 1. unfold bind at 1.
    by rewrite handle_rate_limit_skip by auto.
  - intros reset Hth Hreset Hnow. unfold bind at 1. unfold bind at 1.
    rewrite (handle_rate_limit_wait self forbidden _ reset Hth
               (announced_reset_epoch _ _ _ Hreset))
      by (unfold now, Py.sleep_safe in *; cbn [clock]; lia).
    done.
Qed.

Lemma X14_witness :
  GitHubAPI.search_repositories Sample.api "q" "stars" "desc" 1 3 1%Qc
    (Sample.start [Sample.search_page 3 ["a"]; Sample.failure 403 Sample.no_data;
                   Sample.search_page 3 ["c"]])
  = (Ok ["a"; "c"],
     Build_World (Qc_of_Z 1000 + 1)%Qc []
       [EvGet (search_request Sample.api "q" "stars" "desc" 1 1);
        EvGet (search_request Sample.api "q" "stars" "desc" 1 2);
        EvPrint MsgRetrying;
        EvGet (search_request Sample.api "q" "stars" "desc" 1 3);
        EvSleep 1%Qc]).
Proof.
  etrans.
  - apply (proj1 (X14_search_forbidden_page_is_skipped
                    Sample.api "q" "stars" "desc" 1 3 1%Qc
                    (Sample.search_page 3 ["a"]) [] (Sample.failure 403 Sample.no_data)
                    [Sample.search_page 3 ["c"]] (Qc_of_Z 1000) [] 3
                    eq_refl ltac:(vm_compute; reflexivity) ltac:(constructor)
                    ltac:(by vm_compute) ltac:(by vm_compute) ltac:(by vm_compute)
                    ltac:(by vm_compute) eq_refl)).
    reflexivity.
  - vm_compute. reflexivity.
Defined.

(** X15: [get_content] does not ask again after a rate-limit wait: a
    throttled 403 announcing a reset epoch not more than a second in the
    past, with a wait [time.sleep] takes, is waited for, then reported as
    an error, and the result is [None]. *)
Theorem X15_get_content_none_after_rate_limit_wait {Item}
    self repo_owner repo_name path (limited : Response.t Item) rest c tr reset :
  throttled limited = true ->
  announced_reset limited = Some reset ->
  0 <= reset - Py.int_of_float c + 1 <= Py.sleep_safe ->
  GitHubAPI.get_content self repo_owner repo_name path (Build_World c (limited :: rest) tr)
  = (Ok None,
     Build_World (c + Qc_of_Z (reset - Py.int_of_float c + 1))%Qc rest
       (tr ++ [EvGet (contents_request self repo_owner repo_name path);
               EvPrint (MsgWaiting (reset - Py.int_of_float c));
               EvSleep (Qc_of_Z (reset - Py.int_of_float c + 1));
               EvPrint (MsgError 403 (Response.text limited))])).
Proof.
  intros Hth Hreset Hnow.
  assert (Response.status_code limited = 403) as Hst.
  { unfold throttled in Hth. apply andb_true_iff in Hth as [Hst _]. by apply Z.eqb_eq. }
  unfold GitHubAPI.get_content.
  rewrite (bind_eq _ _ _ _ _ (requests_get_cons _ _ _ _ _ _ _)).
  match goal with |- context [bind (GitHubAPI._handle_rate_limit self limited) _ ?w1] =>
    assert (0 <= reset - now w1 + 1 <= 9223372036) as Hwait
      by (unfold now, Py.sleep_safe in *; cbn [clock]; lia);
    rewrite (bind_eq _ _ _ _ _ (handle_rate_limit_wait self limited w1 reset Hth
                                  (announced_reset_epoch _ _ _ Hreset) Hwait))
  end.
  rewrite Hst. cbn [Z.eqb Pos.eqb]. run. unfold now. cbn [clock script trace].
  by rewrite <- !app_assoc.
Qed.

Lemma X15_witness :
  GitHubAPI.get_content Sample.api "octocat" "hello-world" "README"
    (Sample.start [Sample.rate_limited "1002" "{}"; Response.make 200 ∅ "hello" "hello"])
  = (Ok None,
     Build_World (Qc_of_Z 1000 + Qc_of_Z 3)%Qc [Response.make 200 ∅ "hello" "hello"]
       [EvGet (contents_request Sample.api "octocat" "hello-world" "README");
        EvPrint (MsgWaiting 2); EvSleep (Qc_of_Z 3);
        EvPrint (MsgError 403 "API rate limit exceeded")]).
Proof.
  apply (X15_get_content_none_after_rate_limit_wait
           Sample.api "octocat" "hello-world" "README"
           (Sample.rate_limited "1002" "{}") [Response.make 200 ∅ "hello" "hello"]
           (Qc_of_Z 1000) [] 1002).
  - reflexivity.
  - reflexivity.
  - by vm_compute.
Defined.

Section search_cap.
Context {Item : Type}.
Variables (self : GitHubAPI.t) (query sort order : string).
Variables (per_page max_repos : Z) (delay : Qc).

Local Abbreviation search :=
  (GitHubAPI.search_repositories (Item:=Item) self query sort order per_page max_repos delay).
Local Abbreviation pages_loop :=
  (GitHubAPI.search_pages (Item:=Item) self max_repos delay).
Local Abbreviation sparams := (GitHubAPI.search_params query sort order per_page).
Local Abbreviation get page :=
  (requests_get (B:=SearchData Item) (GitHubAPI.search_url self) (GitHubAPI.headers self)
     (Some (sparams page))).

Local Abbreviation items_of fetched :=
  (concat (page_items <$> filter (fun r : Response.t (SearchData Item) => ok r = true) fetched)).

(** Whenever the loop takes a response from the transport, the items it
    holds are fewer than [max_repos]. *)
Lemma search_pages_below_cap pages :
  forall p all_results (w : World (SearchData Item)),
  exists fetched,
    script w = fetched ++ script (snd (pages_loop pages (sparams p) all_results w))
    /\ forall pre r post,
         fetched = pre ++ r :: post ->
         Py.len (all_results ++ items_of pre) < max_repos.
Proof.
  induction pages as [|page pages' IH]; intros p acc w.
  { exists []. split; [done|]. intros [|??] ?? [=]. }
  destruct (decide (max_repos <= Py.len acc)) as [Hcap|Hcap].
  { rewrite search_pages_cap by done. exists []. split; [done|]. intros [|??] ?? [=]. }
  assert (Py.len acc < max_repos) as Hlt by lia.
  assert (forall fetched' acc',
            (ok (B:=SearchData Item) = ok -> True) ->
            forall r : Response.t (SearchData Item),
            acc' = (if ok r then acc ++ page_items r else acc) ->
            (forall pre r0 post, fetched' = pre ++ r0 :: post ->
                                 Py.len (acc' ++ items_of pre) < max_repos) ->
            forall pre r0 post, r :: fetched' = pre ++ r0 :: post ->
                                Py.len (acc ++ items_of pre) < max_repos) as Hstep.
  { intros fetched' acc' _ r -> Hf [|r1 pre] r0 post E.
    - cbn. by rewrite app_nil_r.
    - injection E as <- E. specialize (Hf _ _ _ E). destruct (ok r) eqn:Hr.
      + rewrite filter_cons_True by done. cbn. by rewrite app_assoc.
      + by rewrite filter_cons_False by (by rewrite Hr). }
  assert (forall r : Response.t (SearchData Item),
            forall pre r0 post, [r] = pre ++ r0 :: post ->
                                Py.len (acc ++ items_of pre) < max_repos) as Hone.
  { intros r [|r1 [|??]] r0 post [=]. cbn. by rewrite app_nil_r. }
  destruct (get page w) as [[r| |] w1] eqn:Hget.
  - rewrite (search_pages_step _ _ _ _ _ _ _ _ _ _ _ _ _ _ Hlt Hget).
    apply requests_get_Ok in Hget as (Hs & _ & _).
    destruct (ok r) eqn:Hok.
    + destruct (time_sleep_cases delay w1) as [(e & _ & Hsl)|(_ & Hsl)].
      * rewrite (bind_Raise _ _ _ _ _ Hsl). exists [r]. cbn [snd]. rewrite Hs. eauto.
      * rewrite (bind_eq _ _ _ _ _ Hsl).
        match goal with |- context [pages_loop pages' _ ?a ?w2] =>
          destruct (IH page a w2) as (fetched & Hsc & Hf);
          destruct (pages_loop pages' (sparams page) a w2) as [o w3] end.
        cbn [fst snd script] in *. exists (r :: fetched). rewrite Hs, Hsc.
        split; [done|]. eapply Hstep; [done| |exact Hf]. by rewrite Hok.
    + destruct (_ =? 403).
      * rewrite (bind_eq _ _ _ _ _ (eq_refl : print MsgRetrying w1 = (Ok tt, _))).
        pose proof (handle_rate_limit_script self r (log (EvPrint MsgRetrying) w1)) as Hhs.
        cbn [log script] in Hhs.
        destruct (GitHubAPI._handle_rate_limit self r (log (EvPrint MsgRetrying) w1))
          as [[r'| |] w2] eqn:Hrun; cbn [snd] in Hhs.
        -- rewrite (bind_eq _ _ _ _ _ Hrun).
           destruct (IH page acc w2) as (fetched & Hsc & Hf).
           destruct (pages_loop pages' (sparams page) acc w2) as [o w3].
           cbn [fst snd] in *. exists (r :: fetched). rewrite Hs, <- Hhs, Hsc.
           split; [done|]. eapply Hstep; [done| |exact Hf]. by rewrite Hok.
        -- rewrite (bind_Raise _ _ _ _ _ Hrun). exists [r]. cbn [snd].
           rewrite Hs, Hhs. eauto.
        -- unfold bind. rewrite Hrun. exists [r]. cbn [snd]. rewrite Hs, Hhs. eauto.
      * exists [r]. cbn [snd log script]. rewrite Hs. eauto.
  - rewrite (search_pages_raise _ _ _ _ _ _ _ _ _ _ _ _ _ _ Hlt Hget).
    destruct w as [c [|r0 rest] tr]; [|done]. rewrite requests_get_nil in Hget.
    injection Hget as <- <-. exists []. split; [done|]. intros [|??] ?? [=].
  - exfalso. eapply (requests_get_fuel _ _ _ w). by rewrite Hget.
Qed.
End search_cap.

(** X16: [search_repositories] never asks for a further page once
    [max_repos] items are in hand: every response after the first is taken
    from the transport while the items of the successful pages before it
    are fewer than [max_repos]. *)
Theorem X16_search_fetches_only_below_max_repos {Item}
    self query sort order per_page max_repos delay (w : World (SearchData Item)) :
  exists fetched,
    script w = fetched ++ script (snd (GitHubAPI.search_repositories
                                         self query sort order per_page max_repos delay w))
    /\ forall pre r post,
         fetched = pre ++ r :: post -> pre <> [] ->
         Py.len (concat (page_items <$> filter (fun r => ok r = true) pre)) < max_repos.
Proof.
  destruct w as [c [|first rest] tr].
  { rewrite search_no_response. exists []. split; [done|]. intros [|??] ?? [=]. }
  assert (forall pre r post, [first] = pre ++ r :: post -> pre <> [] -> 
            Py.len (concat (page_items <$> filter (fun r => ok r = true) pre)) < max_repos)
    as Hone.
  { intros [|r1 [|??]] r0 post [=] Hne. done. }
  destruct (ok first) eqn:Hok.
  - destruct (Py.ceil_div (Z.min (page_total first) max_repos) per_page) as [e|tp] eqn:Htp.
    { rewrite (search_first_raise _ _ _ _ _ _ _ _ _ _ _ _ Hok Htp). by exists [first]. }
    rewrite (search_first_ok _ _ _ _ _ _ _ _ _ _ _ _ Hok Htp), bind_ret_snd.
      match goal with |- context [GitHubAPI.search_pages self max_repos delay ?ps
                                    (GitHubAPI.search_params _ _ _ _ ?p) ?a ?w] =>
        destruct (search_pages_below_cap self query sort order per_page max_repos delay
                    ps p a w) as (fetched & Hsc & Hf);
        destruct (GitHubAPI.search_pages self max_repos delay ps
                    (GitHubAPI.search_params query sort order per_page p) a w) as [o w3] end.
      cbn [fst snd script] in *. exists (first :: fetched). rewrite Hsc.
      split; [done|]. intros [|r1 pre] r post E Hne; [done|].
      injection E as <- E. rewrite filter_cons_True by done. cbn.
      exact (Hf _ _ _ E).
  - destruct (decide (Response.status_code first = 403)) as [Hst|Hst].
    + exists [first].
      by rewrite (search_first_forbidden_script self query sort order per_page max_repos
                    delay first rest c tr Hst).
    + rewrite search_first_error; [|unfold ok in Hok; by apply Z.eqb_neq|done].
      by exists [first].
Qed.

(** ** Waiting in [list_commits] *)

Section list_commits_sleeps.
Context {Item : Type}.
Variables (self : GitHubAPI.t) (repo_owner repo_name : string) (per_page : Z).

Local Abbreviation loop :=
  (GitHubAPI.list_commits_loop (Item:=Item) self repo_owner repo_name per_page).
Local Abbreviation get page :=
  (requests_get (B:=list Item) (GitHubAPI.commits_url self repo_owner repo_name)
     (GitHubAPI.headers self) (Some (GitHubAPI.commits_params per_page page))).

(** A throttled response is never a page: the loop ends on it. *)
Lemma list_commits_loop_sleeps fuel :
  forall page all_results (w : World (list Item)),
  exists waits,
    sleeps_of (trace (snd (loop fuel page all_results w))) = sleeps_of (trace w) ++ waits
    /\ (length waits <= 1)%nat
    /\ (Forall (fun r => throttled r = false) (script w) -> waits = []).
Proof.
  induction fuel as [|fuel IH]; intros page acc w.
  { exists []. cbn. rewrite app_nil_r. auto. }
  cbn [GitHubAPI.list_commits_loop].
  destruct (get page w) as [[r| |] w1] eqn:Hget.
  - rewrite (bind_eq _ _ _ _ _ Hget).
    apply requests_get_Ok in Hget as (Hs & _ & Htr).
    assert (sleeps_of (trace w1) = sleeps_of (trace w)) as Hsl.
    { rewrite Htr, sleeps_of_app. cbn. by rewrite app_nil_r. }
    destruct (handle_rate_limit_sleeps self r w1) as (waits & Hw & Hlen & Hnone).
    pose proof (handle_rate_limit_script self r w1) as Hhs.
    pose proof (handle_rate_limit_outcome self r w1) as Ho.
    rewrite Hsl in Hw.
    assert (Forall (fun r => throttled r = false) (script w) -> waits = []) as Hquiet.
    { rewrite Hs. intros Hall. apply Forall_cons_1 in Hall as [Hr _]. auto. }
    destruct (GitHubAPI._handle_rate_limit self r w1) as [[r'| |] w2] eqn:Hrun;
      cbn [fst snd] in Hw, Hhs, Ho; [| |destruct Ho as [|[|]]; congruence].
    + rewrite (bind_eq _ _ _ _ _ Hrun). destruct Ho as [[= ->]|[|]]; [|done..].
      destruct (throttled r) eqn:Hth.
      * assert (Response.status_code r = 403) as ->.
        { unfold throttled in Hth. apply andb_true_iff in Hth as [Hst _].
          by apply Z.eqb_eq. }
        cbn [Z.eqb Pos.eqb]. run. cbn [snd log trace]. rewrite sleeps_of_app. cbn.
        rewrite app_nil_r. by exists waits.
      * rewrite (Hnone eq_refl), app_nil_r in Hw.
        destruct (_ =? 200).
        -- destruct (_ <? _).
           ++ exists []. cbn [snd ret]. rewrite Hw, app_nil_r. auto.
           ++ destruct (IH (page + 1) (acc ++ Response.json r) w2)
                as (waits' & Hw' & Hlen' & Hnone').
              exists waits'. rewrite Hw', Hw. split_and!; [done..|].
              intros Hall. apply Hnone'. rewrite Hhs. rewrite Hs in Hall.
              by apply Forall_cons_1 in Hall as [_ Hall].
        -- exists []. run. cbn [snd log trace]. rewrite sleeps_of_app. cbn.
           rewrite !app_nil_r. auto.
    + rewrite (bind_Raise _ _ _ _ _ Hrun). by exists waits.
  - rewrite (bind_Raise _ _ _ _ _ Hget).
    destruct w as [c [|r0 rest] tr]; [|done]. rewrite requests_get_nil in Hget.
    injection Hget as <- <-. exists []. cbn [snd trace]. rewrite sleeps_of_app. cbn.
    rewrite !app_nil_r. auto.
  - exfalso. eapply (requests_get_fuel _ _ _ w). by rewrite Hget.
Qed.
End list_commits_sleeps.

(** X17: [list_commits] does not pause between pages.  Over a whole
    listing it waits at most once, and not at all when no response is a 403
    with the quota used up. *)
Theorem X17_list_commits_waits_at_most_once {Item}
    self repo_owner repo_name per_page (w : World (list Item)) :
  exists waits,
    sleeps_of (trace (snd (GitHubAPI.list_commits self repo_owner repo_name per_page w)))
    = sleeps_of (trace w) ++ waits
    /\ (length waits <= 1)%nat
    /\ (Forall (fun r => throttled r = false) (script w) -> waits = []).
Proof. apply list_commits_loop_sleeps. Qed.

